(** * Enviador de Email: the dual-backend entity store and its cascade layer

    A shallow embedding of [dao/supabase_client.py], [dao/base_dao.py], the
    typed DAOs ([sender_dao.py], [recipient_dao.py], [recipient_group_dao.py],
    [recipient_group_membership_dao.py]) and of
    [controller/recipient_group_controller.py].

    Tables are Python lists of dicts; a dict is kept as an association list in
    insertion order, because [BaseDao] sniffs the first key ending in [_id].
    Every method is a state-passing function over the object it mutates and
    over the history of requests sent to the outside (HTTP backend and local
    files); exceptions are results, and the state reached before a raise is
    kept, as in Python. *)

From Stdlib Require Import ZArith List String Ascii Bool Lia.
Import ListNotations.
Open Scope string_scope.
Open Scope list_scope.
Open Scope Z_scope.

(** ** Python values held by the rows *)

Inductive value : Type :=
| VNone
| VInt (z : Z)
| VStr (s : string)
| VList (l : list Z).

(** A row of a table: a dict with string keys, in insertion order. *)
Definition row : Type := list (string * value).

(** Python [==] on the values above. *)
Definition value_eqb (a b : value) : bool :=
  match a, b with
  | VNone, VNone => true
  | VInt x, VInt y => x =? y
  | VStr s, VStr t => String.eqb s t
  | VList l, VList m => if list_eq_dec Z.eq_dec l m then true else false
  | _, _ => false
  end.

(** Truth value of an object: [None], [0], [''] and [[]] are falsy. *)
Definition truthy (v : value) : bool :=
  match v with
  | VNone => false
  | VInt z => negb (z =? 0)
  | VStr s => negb (String.eqb s "")
  | VList l => match l with [] => false | _ => true end
  end.

(** [d.get(k)] seen as an option: [None] when the key is missing. *)
Fixpoint lookup (k : string) (r : row) : option value :=
  match r with
  | [] => None
  | (k', v) :: r' => if String.eqb k' k then Some v else lookup k r'
  end.

(** [d.get(k)]: a missing key reads as [None]. *)
Definition get (r : row) (k : string) : value :=
  match lookup k r with Some v => v | None => VNone end.

(** [d[k] = v]: overwrite in place, or insert at the end. *)
Fixpoint setitem (k : string) (v : value) (r : row) : row :=
  match r with
  | [] => [(k, v)]
  | (k', v') :: r' =>
      if String.eqb k' k then (k', v) :: r' else (k', v') :: setitem k v r'
  end.

(** [s.endswith(suffix)]. *)
Definition endswith (s suffix : string) : bool :=
  let n := String.length s in
  let m := String.length suffix in
  (m <=? n)%nat && String.eqb (substring (n - m) m s) suffix.

(** [s.rstrip('/')]. *)
Fixpoint rstrip_slash (s : string) : string :=
  match s with
  | EmptyString => EmptyString
  | String c s' =>
      match rstrip_slash s' with
      | EmptyString => if Ascii.eqb c "/"%char then EmptyString else String c EmptyString
      | t => String c t
      end
  end.

(** ** Exceptions and results *)

Inductive exn : Type :=
| HTTPError (status_code : Z)
| ConnectionError
| JSONDecodeError
| OSError
| KeyError (key : string)
| AttributeError
| TypeError
| ValueError (msg : string)
| RuntimeError (msg : string)
| EmailServiceError (cause : exn).

Inductive result (A : Type) : Type :=
| Ok (a : A)
| Raise (e : exn).
Arguments Ok {A} a.
Arguments Raise {A} e.

(** [isinstance(e, HTTPError) and e.response.status_code == 409]. *)
Definition is_conflict (e : exn) : bool :=
  match e with
  | HTTPError s => s =? 409
  | _ => false
  end.

(** ** The outside world

    The requests the code sends out, newest first.  [EDelete t None] is the
    request [requests.delete(url, params={"": ""})] that [delete_row] sends
    first (it carries no column filter); [EDelete t (Some f)] carries the
    equality filters of [f], one parameter [col] of value [eq.value] for
    each, as [delete_by_filters] builds them.  [EDeleteExpr t col v] is the
    second request of [delete_row], [params={f"{col}=eq.{v}": ''}]: its one
    parameter is named by the whole expression and has an empty value, which
    is not a filter on [col]. *)

Inductive event : Type :=
| EGet (table : string)
| EPost (table : string) (rows : list row)
| EDelete (table : string) (filters : option row)
| EDeleteExpr (table : string) (pk_col : string) (pk_val : value)
| ESaveJson (path name : string) (next_id : Z) (items : list row)
| ELoadJson (path : string).

Definition history : Type := list event.

(** An HTTP exchange: a response with its status and decoded JSON body
    ([None] when the body does not decode), or no response at all. *)
Inductive http_response : Type :=
| Response (status_code : Z) (json : option (list row))
| NoResponse.

(** A local snapshot as [load_json] returns it: [data.get("next_id")] and
    [data.get(data_name)]. *)
Record snapshot : Type := mkSnapshot {
  snap_next_id : option Z;
  snap_items : option (list row)
}.

(** What the code takes from outside, each answer a function of the history
    whose head is the request being answered.

    [load_json] and [save_json] belong to [utils/files.py], which is not
    among the sources; they are parameters here, with the shape the
    specification gives them: [load_json] returns the stored snapshot or a
    falsy value when there is none (an absent file is an empty table
    starting at id 1), [save_json] writes a snapshot and may fail
    ([save_json_fails], raising [OSError]).  [str_lower] and [str_int] are
    Python's [str.lower] and [int] on a string ([None] when [int] raises). *)
Record Env : Type := mkEnv {
  str_lower : string -> string;
  str_int : string -> option Z;
  http : history -> http_response;
  save_json_fails : history -> bool;
  load_json : history -> option snapshot
}.

(** ** State and exceptions *)

Definition M (S A : Type) : Type := S -> history -> result A * S * history.

Definition ret {S A : Type} (a : A) : M S A :=
  fun s h => (Ok a, s, h).

Definition raise {S A : Type} (e : exn) : M S A :=
  fun s h => (Raise e, s, h).

Definition bind {S A B : Type} (m : M S A) (k : A -> M S B) : M S B :=
  fun s h =>
    match m s h with
    | (Ok a, s', h') => k a s' h'
    | (Raise e, s', h') => (Raise e, s', h')
    end.

(** [try: m except Exception as e: handler e]. *)
Definition try_except {S A : Type} (m : M S A) (handler : exn -> M S A) : M S A :=
  fun s h =>
    match m s h with
    | (Ok a, s', h') => (Ok a, s', h')
    | (Raise e, s', h') => handler e s' h'
    end.

Definition gets {S A : Type} (f : S -> A) : M S A :=
  fun s h => (Ok (f s), s, h).

Definition modify {S : Type} (f : S -> S) : M S unit :=
  fun s h => (Ok tt, f s, h).

Definition lift {S A : Type} (r : result A) : M S A :=
  fun s h => (r, s, h).

(** Send a request: it joins the history, which is returned to read the
    answer from the environment. *)
Definition perform {S : Type} (ev : event) : M S history :=
  fun s h => (Ok (ev :: h), s, ev :: h).

(** Run a method of a component [T] of the state [S]. *)
Definition zoom {S T A : Type} (proj : S -> T) (upd : T -> S -> S) (m : M T A) : M S A :=
  fun s h =>
    match m (proj s) h with
    | (r, t', h') => (r, upd t' s, h')
    end.

(** [for x in l: body x]. *)
Fixpoint for_each {S A : Type} (l : list A) (body : A -> M S unit) : M S unit :=
  match l with
  | [] => ret tt
  | x :: l' => bind (body x) (fun _ => for_each l' body)
  end.

Notation "x <- m ;; k" := (bind m (fun x => k))
  (at level 61, m at next level, right associativity).
Notation "m ;; k" := (bind m (fun _ => k))
  (at level 61, right associativity).

(** Pure results. *)
Definition rbind {A B : Type} (r : result A) (k : A -> result B) : result B :=
  match r with
  | Ok a => k a
  | Raise e => Raise e
  end.

(** [[f(x) for x in l]] where [f] may raise. *)
Fixpoint rmap {A B : Type} (f : A -> result B) (l : list A) : result (list B) :=
  match l with
  | [] => Ok []
  | x :: l' => rbind (f x) (fun y => rbind (rmap f l') (fun ys => Ok (y :: ys)))
  end.

(** [[x for x in l if p(x)]] where [p] may raise. *)
Fixpoint rfilter {A : Type} (p : A -> result bool) (l : list A) : result (list A) :=
  match l with
  | [] => Ok []
  | x :: l' =>
      rbind (p x) (fun b =>
      rbind (rfilter p l') (fun ys => Ok (if b then x :: ys else ys)))
  end.

(** ** [dao/supabase_client.py] *)

Module supabase_client.
Section Client.
Variable E : Env.
Context {S : Type}.

(** [resp.raise_for_status()]. *)
Definition raise_for_status (status_code : Z) : result unit :=
  if (400 <=? status_code) && (status_code <? 600)
  then Raise (HTTPError status_code)
  else Ok tt.

(** [resp.raise_for_status(); return resp.json()] on the answer to the
    request just sent. *)
Definition checked_json (h : history) : M S (list row) :=
  match http E h with
  | NoResponse => raise ConnectionError
  | Response status_code json =>
      lift (raise_for_status status_code) ;;
      match json with
      | Some rows => ret rows
      | None => raise JSONDecodeError
      end
  end.

Definition get_all (table : string) : M S (list row) :=
  h <- perform (EGet table) ;;
  checked_json h.

Definition upsert_rows (table : string) (rows : list row) : M S (list row) :=
  match rows with
  | [] => ret []
  | _ =>
      h <- perform (EPost table rows) ;;
      checked_json h
  end.

(** [delete_row] sends two requests: the first one without a filter, whose
    status is not looked at, then the one whose parameter is named by
    [filter_expr]. *)
Definition delete_row (table pk_col : string) (pk_val : value) : M S unit :=
  h1 <- perform (EDelete table None) ;;
  match http E h1 with
  | NoResponse => raise ConnectionError
  | Response _ _ =>
      h2 <- perform (EDeleteExpr table pk_col pk_val) ;;
      match http E h2 with
      | NoResponse => raise ConnectionError
      | Response status_code _ => lift (raise_for_status status_code)
      end
  end.

Definition delete_by_filters (table : string) (filters : row) : M S unit :=
  h <- perform (EDelete table (Some filters)) ;;
  match http E h with
  | NoResponse => raise ConnectionError
  | Response status_code _ => lift (raise_for_status status_code)
  end.

End Client.

(** *** Credential resolution ([_base_url] and the key lookup repeated at the
    head of every call) *)

(** A dict of strings: the saved configuration, the [SUPABASE] settings and
    [os.environ]. *)
Definition sdict : Type := list (string * string).

Fixpoint sget (k : string) (d : sdict) : option string :=
  match d with
  | [] => None
  | (k', v) :: d' => if String.eqb k' k then Some v else sget k d'
  end.

(** Truth value of [d.get(k)]: a missing or empty string is falsy. *)
Definition provided (o : option string) : bool :=
  match o with
  | Some s => negb (String.eqb s "")
  | None => false
  end.

(** [(v or '')]. *)
Definition text (o : option string) : string :=
  match o with Some s => s | None => "" end.

(** [cfg] is what [config.supabase.load_config()] did (a raise, [None], or a
    dict), [settings] the [SUPABASE] dict of [config/settings.py], [environ]
    the process environment. *)
Record config_state : Type := mkConfig {
  cfg : result (option sdict);
  settings : sdict;
  environ : sdict
}.

(** The three lookups of one field, in the order they are tried. *)
Definition from_cfg (c : config_state) (k : string) : option string :=
  match cfg c with
  | Ok (Some d) => if provided (sget k d) then sget k d else None
  | _ => None
  end.

Definition from_settings (c : config_state) (k : string) : option string :=
  sget k (settings c).

Definition from_environ (c : config_state) (k : string) : option string :=
  match sget k (environ c) with
  | Some v => Some v
  | None => Some ""
  end.

(** [v = <cfg>; if not v: v = SUPABASE.get(k'); if not v: v = os.environ.get(k, '')]
    and the [(v or '')] that reads it. *)
Definition resolve (c : config_state) (env_key settings_key : string) : string :=
  let v := from_cfg c env_key in
  let v := if provided v then v else from_settings c settings_key in
  let v := if provided v then v else from_environ c env_key in
  match v with
  | Some s => s
  | None => ""
  end.

Definition _base_url (c : config_state) : string :=
  rstrip_slash (resolve c "SUPABASE_URL" "url").

(** The [key] computed at the head of [get_all], [upsert_rows] and the
    delete functions. *)
Definition api_key (c : config_state) : string :=
  resolve c "SUPABASE_KEY" "key".

(** [config/supabase.py]: the names under which [load_config] reads the
    environment and the saved file, and under which it returns the two
    values (as the file spells them). *)
Definition CONFIG_URL_NAME : string := "https://boutbnbnkeipnhaedafk.supabase.co".
Definition CONFIG_KEY_NAME : string := "sb_publishable_OEp15vZlZL5skAgnL47uEA_ZafQ089m".

(** [load_config()], from the environment and the content of the saved file
    ([None] when the file is absent or empty).  The environment variables
    it sets when it reads the file carry the two names above. *)
Definition load_config (environ : sdict) (file : option sdict) : option sdict :=
  let url := sget CONFIG_URL_NAME environ in
  let key := sget CONFIG_KEY_NAME environ in
  if provided url && provided key
  then Some [(CONFIG_URL_NAME, text url); (CONFIG_KEY_NAME, text key)]
  else
    match file with
    | Some data =>
        let url := sget CONFIG_URL_NAME data in
        let key := sget CONFIG_KEY_NAME data in
        if provided url && provided key
        then Some [(CONFIG_URL_NAME, text url); (CONFIG_KEY_NAME, text key)]
        else None
    | None => None
    end.

(** The sources, in the order of precedence. *)
Inductive source : Type := SavedConfig | Settings | Environment.

Definition precedence : list source := [SavedConfig; Settings; Environment].

(** What a source holds for the endpoint and for the key. *)
Definition url_at (c : config_state) (s : source) : option string :=
  match s with
  | SavedConfig => from_cfg c "SUPABASE_URL"
  | Settings => from_settings c "url"
  | Environment => sget "SUPABASE_URL" (environ c)
  end.

Definition key_at (c : config_state) (s : source) : option string :=
  match s with
  | SavedConfig => from_cfg c "SUPABASE_KEY"
  | Settings => from_settings c "key"
  | Environment => sget "SUPABASE_KEY" (environ c)
  end.

(** The resolution as the specification words it: the first source, in the
    order of precedence, that provides both the endpoint and the key gives
    the pair. *)
Definition resolve_pair_spec (c : config_state) : option (string * string) :=
  match find (fun s => provided (url_at c s) && provided (key_at c s)) precedence with
  | Some s => Some (rstrip_slash (text (url_at c s)), text (key_at c s))
  | None => None
  end.

End supabase_client.

(** ** [dao/base_dao.py] *)

Record BaseDao : Type := mkDao {
  path : string;
  data_name : string;
  _remote : bool;
  _remote_only : bool;
  _table : string;
  next_id : Z;
  items : list row
}.

(** [self._data = {"next_id": n, data_name: l}]. *)
Definition set_data (n : Z) (l : list row) (d : BaseDao) : BaseDao :=
  mkDao (path d) (data_name d) (_remote d) (_remote_only d) (_table d) n l.

Definition set_items (l : list row) (d : BaseDao) : BaseDao :=
  set_data (next_id d) l d.

Definition set_next_id (n : Z) (d : BaseDao) : BaseDao :=
  set_data n (items d) d.

Module base_dao.
Section Dao.
Variable E : Env.

(** [int(v)]. *)
Definition py_int (v : value) : result Z :=
  match v with
  | VInt z => Ok z
  | VStr s => match str_int E s with Some z => Ok z | None => Raise (ValueError "invalid literal for int()") end
  | _ => Raise TypeError
  end.

(** [int(v or 0)]. *)
Definition int_or_0 (v : value) : result Z :=
  if truthy v then py_int v else Ok 0.

(** The first key ending in [_id]. *)
Definition guess_pk (r : row) : option string :=
  find (fun k => endswith k "_id") (map fst r).

(** [_load]: the largest [int(r.get(pk) or 0)] above 0; a row whose value
    does not convert is skipped. *)
Definition max_pk (pk : string) (rows : list row) : Z :=
  fold_left
    (fun max_id r =>
       match int_or_0 (get r pk) with
       | Ok v => if v >? max_id then v else max_id
       | Raise _ => max_id
       end)
    rows 0.

(** [_save] and [upsert_one]: the largest [int(v)] over every key ending in
    [_id] of every row. *)
Definition max_any_id (rows : list row) : Z :=
  fold_left
    (fun max_id r =>
       fold_left
         (fun max_id (kv : string * value) =>
            if endswith (fst kv) "_id" then
              match py_int (snd kv) with
              | Ok vi => if vi >? max_id then vi else max_id
              | Raise _ => max_id
              end
            else max_id)
         r max_id)
    rows 0.

(** The next id [_load] computes from the fetched rows. *)
Definition loaded_next_id (rows : list row) : Z :=
  let max_id :=
    match rows with
    | [] => 0
    | first :: _ =>
        match guess_pk first with
        | Some pk => max_pk pk rows
        | None => 0
        end
    end in
  if max_id =? 0 then 1 else max_id + 1.

Definition load_local : M BaseDao unit :=
  p <- gets path ;;
  h <- perform (ELoadJson p) ;;
  match load_json E h with
  | Some data =>
      modify (set_data (match snap_next_id data with Some n => n | None => 1 end)
                       (match snap_items data with Some l => l | None => [] end))
  | None => ret tt
  end.

Definition _load : M BaseDao unit :=
  self <- gets (fun d => d) ;;
  if _remote self then
    try_except
      (rows <- supabase_client.get_all E (_table self) ;;
       modify (set_data (loaded_next_id rows) rows))
      (fun e => if _remote_only self then raise e else load_local)
  else load_local.

Definition save_local : M BaseDao unit :=
  self <- gets (fun d => d) ;;
  h <- perform (ESaveJson (path self) (data_name self) (next_id self) (items self)) ;;
  if save_json_fails E h then raise OSError else ret tt.

(** [max_id + 1 if max_id else self._data.get("next_id", 1)]. *)
Definition recompute_next_id (rows : list row) (d : BaseDao) : BaseDao :=
  let max_id := max_any_id rows in
  set_next_id (if max_id =? 0 then next_id d else max_id + 1) d.

Definition _save : M BaseDao unit :=
  self <- gets (fun d => d) ;;
  if _remote self then
    try_except
      (returned <- supabase_client.upsert_rows E (_table self) (items self) ;;
       match returned with
       | [] => ret tt
       | _ => modify (fun d => recompute_next_id returned (set_items returned d))
       end ;;
       if _remote_only self then ret tt else save_local)
      (fun e => if _remote_only self then raise e else save_local)
  else save_local.

(** Replace the first row agreeing with [r] on [pk]; [None] when there is none. *)
Fixpoint replace_first (pk : string) (r : row) (l : list row) : option (list row) :=
  match l with
  | [] => None
  | r0 :: l' =>
      if value_eqb (get r0 pk) (get r pk) then Some (r :: l')
      else match replace_first pk r l' with
           | Some l'' => Some (r0 :: l'')
           | None => None
           end
  end.

(** The merge of the returned row into the cache. *)
Definition merge_row (r : row) (l : list row) : list row :=
  match guess_pk r with
  | Some pk =>
      match replace_first pk r l with
      | Some l' => l'
      | None => l ++ [r]
      end
  | None => l ++ [r]
  end.

Definition upsert_one (item : row) : M BaseDao (option row) :=
  self <- gets (fun d => d) ;;
  if negb (_remote self) then
    _save ;; ret None
  else
    try_except
      (returned <- supabase_client.upsert_rows E (_table self) [item] ;;
       match returned with
       | r :: _ =>
           modify (fun d => let l := merge_row r (items d) in
                            recompute_next_id l (set_items l d)) ;;
           (if _remote_only self then ret tt else save_local) ;;
           ret (Some r)
       | [] => ret None
       end)
      (fun e => if _remote_only self then raise e else save_local ;; ret None).

(** Where Supabase is configured from, as [__init__] sees it: whether the
    saved configuration holds both fields, [SUPABASE.get('enabled')], whether
    the environment holds both, and [SUPABASE.get('table_map')]. *)
Record remote_config : Type := mkRemoteConfig {
  cfg_enabled : bool;
  settings_enabled : bool;
  env_enabled : bool;
  table_map : list (string * string)
}.

Definition DEFAULT_TABLE_MAP : list (string * string) :=
  [("senders", "sender"); ("app_passwords", "app_password");
   ("recipients", "recipient"); ("groups", "recipient_group")].

Definition table_of (rc : remote_config) (name : string) : string :=
  match supabase_client.sget name (table_map rc) with
  | Some t => t
  | None =>
      match supabase_client.sget name DEFAULT_TABLE_MAP with
      | Some t => t
      | None => name
      end
  end.

(** [BaseDao.__init__]. *)
Definition __init__ (rc : remote_config) (p name : string) (remote_only : bool)
  : history -> result BaseDao * history :=
  fun h =>
    let remote := cfg_enabled rc || settings_enabled rc || env_enabled rc in
    if remote_only && negb remote then
      (Raise (RuntimeError "BaseDao configured as remote_only but Supabase is not configured"), h)
    else
      match _load (mkDao p name remote remote_only (table_of rc name) 1 []) h with
      | (Ok _, d, h') => (Ok d, h')
      | (Raise e, _, h') => (Raise e, h')
      end.

End Dao.
End base_dao.

(** [try: m except Exception: pass]. *)
Definition swallow {S A : Type} (m : M S A) : M S unit :=
  try_except (m ;; ret tt) (fun _ => ret tt).

(** [r[k]]. *)
Definition getitem (r : row) (k : string) : result value :=
  match lookup k r with
  | Some v => Ok v
  | None => Raise (KeyError k)
  end.

(** A model built from the keywords of a row, when its [__init__] takes the
    keywords [fields]: any other key is an unexpected keyword argument. *)
Definition accepts (fields : list string) (r : row) : bool :=
  forallb (fun kv : string * value => existsb (String.eqb (fst kv)) fields) r.

(** [for r in l: if test(r): return build(r)] and [return None] after it. *)
Fixpoint first_where {A : Type} (test : row -> result bool) (build : row -> result A)
         (l : list row) : result (option A) :=
  match l with
  | [] => Ok None
  | r :: l' =>
      rbind (test r) (fun b =>
      if b then rbind (build r) (fun m => Ok (Some m))
      else first_where test build l')
  end.

(** [v.lower()]: only a [str] has it. *)
Definition lower (E : Env) (v : value) : result string :=
  match v with
  | VStr s => Ok (str_lower E s)
  | _ => Raise AttributeError
  end.

(** [r["address"].lower() == address.lower()]. *)
Definition same_address (E : Env) (address : value) (r : row) : result bool :=
  rbind (rbind (getitem r "address") (lower E)) (fun a =>
  rbind (lower E address) (fun b => Ok (String.eqb a b))).

(** [[x for x in l if keep(x)]] followed by the length test shared by every
    [delete]: save and report [True] when a row went away. *)
Definition delete_where (E : Env) (keep : row -> result bool) : M BaseDao bool :=
  l <- gets items ;;
  l' <- lift (rfilter keep l) ;;
  modify (set_items l') ;;
  if (List.length l' <? List.length l)%nat then base_dao._save E ;; ret true
  else ret false.

(** [try: self.upsert_one(item) except Exception: self._save()]. *)
Definition persist_one (E : Env) (item : row) : M BaseDao unit :=
  try_except (base_dao.upsert_one E item ;; ret tt) (fun _ => base_dao._save E).

(** ** [models/sender_model.py] and [dao/sender_dao.py] *)

Module SenderModel.
Record t : Type := mk {
  sender_id : value;
  app_password_id : value;
  address : value
}.

Definition fields : list string := ["sender_id"; "app_password_id"; "address"].

(** The model built from the keywords of the row [s]. *)
Definition of_row (s : row) : result t :=
  if accepts fields s
  then Ok (mk (get s "sender_id") (get s "app_password_id") (get s "address"))
  else Raise TypeError.

Definition __dict__ (m : t) : row :=
  [("sender_id", sender_id m); ("app_password_id", app_password_id m);
   ("address", address m)].
End SenderModel.

Module SenderDao.
Section Dao.
Variable E : Env.

Definition find_by_address (address : value) (l : list row) : result (option SenderModel.t) :=
  first_where (same_address E address) SenderModel.of_row l.

Definition add (sender : SenderModel.t) : M BaseDao SenderModel.t :=
  l <- gets items ;;
  existing <- lift (find_by_address (SenderModel.address sender) l) ;;
  match existing with
  | Some m => ret m
  | None =>
      new_id <- gets next_id ;;
      let sender := SenderModel.mk (VInt new_id) (SenderModel.app_password_id sender)
                                   (SenderModel.address sender) in
      modify (fun d => set_items (items d ++ [SenderModel.__dict__ sender]) d) ;;
      modify (fun d => set_next_id (next_id d + 1) d) ;;
      persist_one E (SenderModel.__dict__ sender) ;;
      ret sender
  end.

(** The scan of [edit]: the rows with the first one whose [sender_id] is the
    model's replaced, or [None]. *)
Fixpoint replace_by_id (sender : SenderModel.t) (l : list row) : result (option (list row)) :=
  match l with
  | [] => Ok None
  | s :: l' =>
      rbind (getitem s "sender_id") (fun i =>
      if value_eqb i (SenderModel.sender_id sender)
      then Ok (Some (SenderModel.__dict__ sender :: l'))
      else rbind (replace_by_id sender l') (fun o =>
           Ok (match o with Some l'' => Some (s :: l'') | None => None end)))
  end.

(** The [ValueError] of [edit] names the id; the text is kept without it. *)
Definition edit (sender : SenderModel.t) : M BaseDao SenderModel.t :=
  l <- gets items ;;
  found <- lift (replace_by_id sender l) ;;
  match found with
  | Some l' =>
      modify (set_items l') ;;
      persist_one E (SenderModel.__dict__ sender) ;;
      ret sender
  | None => raise (ValueError "Sender with id not found.")
  end.

Definition delete (sender_id : value) : M BaseDao bool :=
  delete_where E (fun s => rbind (getitem s "sender_id") (fun i =>
                           Ok (negb (value_eqb i sender_id)))).

End Dao.
End SenderDao.

(** ** [dao/recipient_dao.py] *)

Module RecipientModel.
(** Modelled from the spec: [models/recipient_model.py] is not among the
    sources.  A Recipient has an id, an email address and a legacy group-id;
    the constructor is taken to follow [SenderModel]: keyword arguments
    defaulting to [None], stored as given, in this order. *)
Record t : Type := mk {
  recipient_id : value;
  address : value;
  group_id : value
}.

Definition fields : list string := ["recipient_id"; "address"; "group_id"].

Definition of_row (r : row) : result t :=
  if accepts fields r
  then Ok (mk (get r "recipient_id") (get r "address") (get r "group_id"))
  else Raise TypeError.

Definition __dict__ (m : t) : row :=
  [("recipient_id", recipient_id m); ("address", address m); ("group_id", group_id m)].
End RecipientModel.

Module RecipientDao.
Section Dao.
Variable E : Env.

(** [RecipientDao.__init__]: the table is remote-only. *)
Definition __init__ (rc : base_dao.remote_config) (p : string)
  : history -> result BaseDao * history :=
  base_dao.__init__ E rc p "recipients" true.

Definition list_all (l : list row) : result (list RecipientModel.t) :=
  rmap RecipientModel.of_row l.

Definition find_by_address (address : value) (l : list row) : result (option RecipientModel.t) :=
  first_where (same_address E address) RecipientModel.of_row l.

(** The handler of a failed [upsert_one] in [add]: on a 409 the table is
    reloaded and the address looked up again; a record found there is
    returned, anything else falls through to the full save. *)
Definition on_upsert_error (address : value) (e : exn) : M BaseDao (option RecipientModel.t) :=
  existing2 <-
    (if is_conflict e then
       try_except
         (base_dao._load E ;;
          l <- gets items ;;
          lift (find_by_address address l))
         (fun _ => ret None)
     else ret None) ;;
  match existing2 with
  | Some m => ret (Some m)
  | None => base_dao._save E ;; ret None
  end.

Definition add (recipient : RecipientModel.t) : M BaseDao RecipientModel.t :=
  l <- gets items ;;
  existing <- lift (find_by_address (RecipientModel.address recipient) l) ;;
  match existing with
  | Some m => ret m
  | None =>
      new_id <- gets next_id ;;
      let recipient := RecipientModel.mk (VInt new_id) (RecipientModel.address recipient)
                                         (RecipientModel.group_id recipient) in
      modify (fun d => set_items (items d ++ [RecipientModel.__dict__ recipient]) d) ;;
      modify (fun d => set_next_id (next_id d + 1) d) ;;
      existing2 <-
        try_except
          (base_dao.upsert_one E (RecipientModel.__dict__ recipient) ;; ret None)
          (on_upsert_error (RecipientModel.address recipient)) ;;
      match existing2 with
      | Some m => ret m
      | None => ret recipient
      end
  end.

(** [if v is not None: r[k] = v]. *)
Definition set_unless_none (k : string) (v : value) (r : row) : row :=
  match v with
  | VNone => r
  | _ => setitem k v r
  end.

(** The scan of [update]: the first row whose [recipient_id] is the model's,
    updated in place. *)
Fixpoint update_by_id (recipient : RecipientModel.t) (l : list row)
  : result (option (row * list row)) :=
  match l with
  | [] => Ok None
  | r :: l' =>
      rbind (getitem r "recipient_id") (fun i =>
      if value_eqb i (RecipientModel.recipient_id recipient)
      then let r' := set_unless_none "group_id" (RecipientModel.group_id recipient)
                       (set_unless_none "address" (RecipientModel.address recipient) r) in
           Ok (Some (r', r' :: l'))
      else rbind (update_by_id recipient l') (fun o =>
           Ok (match o with Some (r', l'') => Some (r', r :: l'') | None => None end)))
  end.

Definition update (recipient : RecipientModel.t) : M BaseDao RecipientModel.t :=
  l <- gets items ;;
  found <- lift (update_by_id recipient l) ;;
  match found with
  | Some (r', l') =>
      modify (set_items l') ;;
      persist_one E r' ;;
      lift (RecipientModel.of_row r')
  | None => raise (ValueError "Recipient not found")
  end.

Definition delete (recipient_id : value) : M BaseDao bool :=
  delete_where E (fun r => rbind (getitem r "recipient_id") (fun i =>
                           Ok (negb (value_eqb i recipient_id)))).

End Dao.
End RecipientDao.

(** ** [dao/recipient_group_dao.py] *)

Module RecipientGroupModel.
(** Modelled from the spec: [models/recipient_group_model.py] is not among
    the sources.  A Group has an id, a name and the legacy member-id list;
    the constructor is taken to follow [SenderModel]: keyword arguments
    defaulting to [None], stored as given, in this order. *)
Record t : Type := mk {
  group_id : value;
  name : value;
  recipients : value
}.

Definition fields : list string := ["group_id"; "name"; "recipients"].

Definition of_row (g : row) : result t :=
  if accepts fields g
  then Ok (mk (get g "group_id") (get g "name") (get g "recipients"))
  else Raise TypeError.

Definition __dict__ (m : t) : row :=
  [("group_id", group_id m); ("name", name m); ("recipients", recipients m)].
End RecipientGroupModel.

Module RecipientGroupDao.
Section Dao.
Variable E : Env.

Definition find_by_id (group_id : value) (l : list row) : result (option RecipientGroupModel.t) :=
  first_where (fun g => Ok (value_eqb (get g "group_id") group_id)) RecipientGroupModel.of_row l.

(** [g.get("name") and g.get("name").lower() == name.lower()]. *)
Definition same_name (name : value) (g : row) : result bool :=
  if truthy (get g "name") then
    rbind (lower E (get g "name")) (fun a =>
    rbind (lower E name) (fun b => Ok (String.eqb a b)))
  else Ok false.

Definition find_by_name (name : value) (l : list row) : result (option RecipientGroupModel.t) :=
  first_where (same_name name) RecipientGroupModel.of_row l.

Definition add (group : RecipientGroupModel.t) : M BaseDao RecipientGroupModel.t :=
  l <- gets items ;;
  existing <- lift (find_by_name (RecipientGroupModel.name group) l) ;;
  match existing with
  | Some m => ret m
  | None =>
      new_id <- gets next_id ;;
      let group := RecipientGroupModel.mk (VInt new_id) (RecipientGroupModel.name group)
                                          (RecipientGroupModel.recipients group) in
      modify (fun d => set_items (items d ++ [RecipientGroupModel.__dict__ group]) d) ;;
      modify (fun d => set_next_id (next_id d + 1) d) ;;
      persist_one E (RecipientGroupModel.__dict__ group) ;;
      ret group
  end.

(** The three guarded assignments of [update]. *)
Definition assign (group : RecipientGroupModel.t) (g : row) : row :=
  RecipientDao.set_unless_none "recipients" (RecipientGroupModel.recipients group)
    (RecipientDao.set_unless_none "name" (RecipientGroupModel.name group)
       (RecipientDao.set_unless_none "group_id" (RecipientGroupModel.group_id group) g)).

(** The scan of [update]: the first row whose [group_id] is the model's,
    updated in place. *)
Fixpoint update_by_id (group : RecipientGroupModel.t) (l : list row) : option (row * list row) :=
  match l with
  | [] => None
  | g :: l' =>
      if value_eqb (get g "group_id") (RecipientGroupModel.group_id group)
      then Some (assign group g, assign group g :: l')
      else match update_by_id group l' with
           | Some (g', l'') => Some (g', g :: l'')
           | None => None
           end
  end.

Definition update (group : RecipientGroupModel.t) : M BaseDao RecipientGroupModel.t :=
  l <- gets items ;;
  match update_by_id group l with
  | Some (g', l') =>
      modify (set_items l') ;;
      persist_one E g' ;;
      ret group
  | None => raise (ValueError "Group not found")
  end.

Definition delete (group_id : value) : M BaseDao bool :=
  delete_where E (fun g => Ok (negb (value_eqb (get g "group_id") group_id))).

(** [recipient_id in g.recipients]; the legacy list holds integers. *)
Definition contains (recipients : value) (recipient_id : Z) : result bool :=
  match recipients with
  | VList l => Ok (existsb (Z.eqb recipient_id) l)
  | _ => Raise TypeError
  end.

Definition add_recipient_to_group (group_id : value) (recipient_id : Z) : M BaseDao bool :=
  l <- gets items ;;
  g <- lift (find_by_id group_id l) ;;
  match g with
  | None => raise (ValueError "Group not found")
  | Some g =>
      present <- lift (contains (RecipientGroupModel.recipients g) recipient_id) ;;
      if negb present then
        let appended :=
          match RecipientGroupModel.recipients g with
          | VList l => VList (l ++ [recipient_id])
          | v => v
          end in
        update (RecipientGroupModel.mk (RecipientGroupModel.group_id g)
                                       (RecipientGroupModel.name g) appended) ;;
        ret true
      else ret false
  end.

(** [[rid for rid in g.recipients if rid != recipient_id]] with the length it
    is compared to: a [str] is iterable and none of its characters equals an
    integer; [None] and an [int] have no [len]. *)
Definition without (recipients : value) (recipient_id : Z) : result (option (list Z)) :=
  match recipients with
  | VList l =>
      let l' := filter (fun rid => negb (rid =? recipient_id)) l in
      Ok (if (List.length l' <? List.length l)%nat then Some l' else None)
  | VStr _ => Ok None
  | _ => Raise TypeError
  end.

Definition remove_recipient_from_group (group_id : value) (recipient_id : Z) : M BaseDao bool :=
  l <- gets items ;;
  g <- lift (find_by_id group_id l) ;;
  match g with
  | None => raise (ValueError "Group not found")
  | Some g =>
      shorter <- lift (without (RecipientGroupModel.recipients g) recipient_id) ;;
      match shorter with
      | Some l' =>
          update (RecipientGroupModel.mk (RecipientGroupModel.group_id g)
                                         (RecipientGroupModel.name g) (VList l')) ;;
          ret true
      | None => ret false
      end
  end.

End Dao.
End RecipientGroupDao.

(** ** [dao/recipient_group_membership_dao.py] *)

Module RecipientGroupMembershipDao.
Section Dao.
Variable E : Env.

(** [int(item.get(k) or 0) == v]. *)
Definition column_is (item : row) (k : string) (v : value) : result bool :=
  rbind (base_dao.int_or_0 E (get item k)) (fun i => Ok (value_eqb (VInt i) v)).

(** [... == recipient_id and ... == group_id]: the second test is made only
    when the first holds. *)
Definition is_pair (recipient_id group_id : value) (item : row) : result bool :=
  rbind (column_is item "recipient_id" recipient_id) (fun b =>
  if b then column_is item "group_id" group_id else Ok false).

Fixpoint list_group_members (group_id : value) (l : list row) : result (list Z) :=
  match l with
  | [] => Ok []
  | item :: l' =>
      rbind (column_is item "group_id" group_id) (fun b =>
      if b then
        rbind (base_dao.py_int E (get item "recipient_id")) (fun r =>
        rbind (list_group_members group_id l') (fun rs => Ok (r :: rs)))
      else list_group_members group_id l')
  end.

Fixpoint list_recipient_groups (recipient_id : value) (l : list row) : result (list Z) :=
  match l with
  | [] => Ok []
  | item :: l' =>
      rbind (column_is item "recipient_id" recipient_id) (fun b =>
      if b then
        rbind (base_dao.py_int E (get item "group_id")) (fun g =>
        rbind (list_recipient_groups recipient_id l') (fun gs => Ok (g :: gs)))
      else list_recipient_groups recipient_id l')
  end.

(** The duplicate scan of [add_membership]. *)
Fixpoint has_pair (recipient_id group_id : value) (l : list row) : result bool :=
  match l with
  | [] => Ok false
  | item :: l' =>
      rbind (is_pair recipient_id group_id item) (fun b =>
      if b then Ok true else has_pair recipient_id group_id l')
  end.

Definition entry (recipient_id group_id : value) : row :=
  [("recipient_id", recipient_id); ("group_id", group_id)].

Definition add_membership (recipient_id group_id : value) : M BaseDao bool :=
  l <- gets items ;;
  dup <- lift (has_pair recipient_id group_id l) ;;
  if dup then ret false
  else
    new_id <- gets next_id ;;
    modify (fun d => set_items (items d ++ [entry recipient_id group_id]) d) ;;
    modify (set_next_id (new_id + 1)) ;;
    persist_one E (entry recipient_id group_id) ;;
    ret true.

Definition remove_membership (recipient_id group_id : value) : M BaseDao bool :=
  delete_where E (fun it => rbind (is_pair recipient_id group_id it) (fun b => Ok (negb b))).

End Dao.
End RecipientGroupMembershipDao.

(** ** [controller/recipient_group_controller.py] *)

Record RecipientGroupController : Type := mkController {
  recipient_dao : BaseDao;
  group_dao : BaseDao;
  membership_dao : BaseDao
}.

Module recipient_group_controller.
Section Controller.
Variable E : Env.

Definition on_recipient_dao {A : Type} (m : M BaseDao A) : M RecipientGroupController A :=
  zoom recipient_dao (fun d c => mkController d (group_dao c) (membership_dao c)) m.

Definition on_group_dao {A : Type} (m : M BaseDao A) : M RecipientGroupController A :=
  zoom group_dao (fun d c => mkController (recipient_dao c) d (membership_dao c)) m.

Definition on_membership_dao {A : Type} (m : M BaseDao A) : M RecipientGroupController A :=
  zoom membership_dao (fun d c => mkController (recipient_dao c) (group_dao c) d) m.

(** The member ids: from the membership table, or, when reading it raises,
    from the recipients whose legacy [group_id] is the group. *)
Definition member_ids (group_id : value) : M RecipientGroupController (list value) :=
  try_except
    (ms <- gets (fun c => items (membership_dao c)) ;;
     ids <- lift (RecipientGroupMembershipDao.list_group_members E group_id ms) ;;
     ret (map VInt ids))
    (fun _ =>
       rs <- gets (fun c => items (recipient_dao c)) ;;
       all <- lift (RecipientDao.list_all rs) ;;
       ret (map RecipientModel.recipient_id
              (filter (fun r => value_eqb (RecipientModel.group_id r) group_id) all))).

(** The body of the first loop: remove the membership row locally, then
    remotely, each on its own [try]. *)
Definition remove_member (group_id rid : value) : M RecipientGroupController unit :=
  swallow
    (swallow (on_membership_dao (RecipientGroupMembershipDao.remove_membership E rid group_id)) ;;
     swallow (t <- gets (fun c => _table (membership_dao c)) ;;
              supabase_client.delete_by_filters E t
                [("recipient_id", rid); ("group_id", group_id)])).

(** [not other_groups or all(int(gid) == int(group_id) for gid in other_groups)]. *)
Definition only_this_group (group_id : value) (other_groups : list Z) : result bool :=
  match other_groups with
  | [] => Ok true
  | _ => rbind (base_dao.py_int E group_id) (fun g => Ok (forallb (fun gid => gid =? g) other_groups))
  end.

(** The body of the second loop: a member left in no other group is deleted,
    locally and remotely. *)
Definition reclaim_orphan (group_id rid : value) : M RecipientGroupController unit :=
  swallow
    (ms <- gets (fun c => items (membership_dao c)) ;;
     other_groups <- lift (RecipientGroupMembershipDao.list_recipient_groups E rid ms) ;;
     orphan <- lift (only_this_group group_id other_groups) ;;
     if orphan then
       swallow (on_recipient_dao (RecipientDao.delete E rid)) ;;
       swallow (t <- gets (fun c => _table (recipient_dao c)) ;;
                supabase_client.delete_row E t "recipient_id" rid)
     else ret tt).

(** The two loops over the members. *)
Definition cleanup (group_id : value) (ids : list value) : M RecipientGroupController unit :=
  for_each ids (remove_member group_id) ;;
  for_each ids (reclaim_orphan group_id).

(** The last step: the group record, locally then remotely. *)
Definition delete_record (group_id : value) : M RecipientGroupController bool :=
  deleted <- on_group_dao (RecipientGroupDao.delete E group_id) ;;
  swallow (t <- gets (fun c => _table (group_dao c)) ;;
           supabase_client.delete_row E t "group_id" group_id) ;;
  ret deleted.

Definition delete_group (group_id : value) : M RecipientGroupController bool :=
  try_except
    (ids <- member_ids group_id ;;
     cleanup group_id ids ;;
     delete_record group_id)
    (fun e => raise (EmailServiceError e)).

End Controller.
End recipient_group_controller.

(** ** What the theorems assume of the outside, and what they measure *)

(** A failed exchange, as [raise_for_status] and [resp.json()] see it. *)
Definition fails (r : http_response) : bool :=
  match r with
  | NoResponse => true
  | Response status_code json =>
      ((400 <=? status_code) && (status_code <? 600))
      || match json with None => true | Some _ => false end
  end.

(** The backend stores what it is sent: an upsert that succeeds answers with
    the rows of the request. *)
Definition faithful_backend (E : Env) : Prop :=
  forall (h : history) (table : string) (rows : list row),
    fails (http E (EPost table rows :: h)) = true \/
    exists status_code, http E (EPost table rows :: h) = Response status_code (Some rows).

(** No upsert is answered 409: nobody else writes to the backend. *)
Definition single_writer (E : Env) : Prop :=
  forall (h : history) (table : string) (rows : list row) (json : option (list row)),
    http E (EPost table rows :: h) <> Response 409 json.

(** Local snapshots can be written. *)
Definition disk_writable (E : Env) : Prop :=
  forall h : history, save_json_fails E h = false.

(** A [DELETE] request. *)
Definition is_delete (ev : event) : bool :=
  match ev with
  | EDelete _ _ | EDeleteExpr _ _ _ => true
  | _ => false
  end.

(** The parts of an outcome. *)
Definition result_of {A S : Type} (x : result A * S * history) : result A := fst (fst x).
Definition state_of {A S : Type} (x : result A * S * history) : S := snd (fst x).
Definition history_of {A S : Type} (x : result A * S * history) : history := snd x.

(** The two objects differ at most in the next id and the rows. *)
Definition same_config (d d' : BaseDao) : Prop :=
  path d' = path d /\ data_name d' = data_name d /\ _remote d' = _remote d /\
  _remote_only d' = _remote_only d /\ _table d' = _table d.

(** The outcome of a persistence step started on [d] at [h]: it leaves [d]
    as it was up to the next id and the rows, and sends no [DELETE].  When
    the backend is faithful the rows are among [allowed]; when the disk can
    be written and fallback is permitted the step returns; when nobody else
    writes, what it raises is not a conflict. *)
Definition persisted (E : Env) (d : BaseDao) (h : history) (allowed : list row -> Prop)
           {A : Type} (out : result A * BaseDao * history) : Prop :=
  same_config d (state_of out) /\
  (exists sent, history_of out = sent ++ h /\ filter is_delete sent = []) /\
  (faithful_backend E -> allowed (items (state_of out))) /\
  (disk_writable E -> _remote_only d = false -> exists a, result_of out = Ok a) /\
  (single_writer E -> forall e, result_of out = Raise e -> is_conflict e = false).

(** The table a snapshot holds, as [_load] reads it: [data.get("next_id", 1)]
    and [data.get(data_name, [])]; without a snapshot, the empty table the
    constructor starts from. *)
Definition snapshot_table (snap : option snapshot) : Z * list row :=
  match snap with
  | Some data =>
      (match snap_next_id data with Some n => n | None => 1 end,
       match snap_items data with Some l => l | None => [] end)
  | None => (1, [])
  end.

(** The outcome of a step on [d] at [h] that may or may not persist: the
    configuration is kept, no [DELETE] is sent, and the rows are among
    [allowed] when the backend is faithful. *)
Definition touched (E : Env) (d : BaseDao) (h : history) (allowed : list row -> Prop)
           {A : Type} (out : result A * BaseDao * history) : Prop :=
  same_config d (state_of out) /\
  (exists sent, history_of out = sent ++ h /\ filter is_delete sent = []) /\
  (faithful_backend E -> allowed (items (state_of out))).

(** The rows a filtering [delete] leaves: the filtered list, or the list as
    it was when the test raised on some row. *)
Definition kept (keep : row -> result bool) (l : list row) : list row :=
  match rfilter keep l with
  | Ok l' => l'
  | Raise _ => l
  end.

(** The filter of [remove_membership]: keep the rows that are not the pair. *)
Definition keep_other_pairs (E : Env) (group_id rid : value) (it : row) : result bool :=
  rbind (RecipientGroupMembershipDao.is_pair E rid group_id it) (fun b => Ok (negb b)).

(** The filter of [RecipientDao.delete]: keep the rows of the other ids. *)
Definition keep_other_recipients (rid : value) (r : row) : result bool :=
  rbind (getitem r "recipient_id") (fun i => Ok (negb (value_eqb i rid))).

(** The test of the second loop on the membership rows [ms]: the member is
    reclaimed when its remaining groups could be read and are none, or are
    all the group being deleted. *)
Definition is_orphan (E : Env) (group_id rid : value) (ms : list row) : bool :=
  match RecipientGroupMembershipDao.list_recipient_groups E rid ms with
  | Ok other_groups =>
      match recipient_group_controller.only_this_group E group_id other_groups with
      | Ok b => b
      | Raise _ => false
      end
  | Raise _ => false
  end.

(** The membership row is in the group [g]. *)
Definition in_group (g : Z) (it : row) : bool :=
  value_eqb (get it "group_id") (VInt g).

(** The membership row [it] is one of the recipient row [r]. *)
Definition membership_of (r it : row) : bool :=
  value_eqb (get it "recipient_id") (get r "recipient_id").

(** The recipient row [r] is a member of the group [g] and of no other
    group, by the membership rows [ms]. *)
Definition only_in_group (g : Z) (ms : list row) (r : row) : bool :=
  existsb (fun it => membership_of r it && in_group g it) ms &&
  forallb (fun it => negb (membership_of r it) || in_group g it) ms.

(** The row has the key. *)
Definition has_key (k : string) (r : row) : bool :=
  match lookup k r with
  | Some _ => true
  | None => false
  end.

(** The member ids of the group [g], and the group ids of the recipient
    [z], read off well-formed membership rows. *)
Definition members_of (g : Z) (ms : list row) : list Z :=
  flat_map (fun it => if in_group g it
                      then match get it "recipient_id" with VInt z => [z] | _ => [] end
                      else []) ms.

Definition groups_of (z : Z) (ms : list row) : list Z :=
  flat_map (fun it => if value_eqb (get it "recipient_id") (VInt z)
                      then match get it "group_id" with VInt y => [y] | _ => [] end
                      else []) ms.

(** The remote request that removes the membership pair of [rid] in [group_id]. *)
Definition membership_delete (table : string) (group_id rid : value) : event :=
  EDelete table (Some [("recipient_id", rid); ("group_id", group_id)]).

(** The next id as the specification words it for [load]: one plus the
    largest numeric value over every column ending in [_id], 1 without rows. *)
Definition next_id_spec (E : Env) (rows : list row) : Z :=
  match rows with
  | [] => 1
  | _ => base_dao.max_any_id E rows + 1
  end.

(** The integers a column holds, as [int(r.get(pk) or 0)] reads them; a value
    that does not convert is left out. *)
Definition column_values (E : Env) (pk : string) (rows : list row) : list Z :=
  flat_map (fun r => match base_dao.int_or_0 E (get r pk) with
                     | Ok v => [v]
                     | Raise _ => []
                     end) rows.

(** [m] is the largest of 0 and the members of [vals]. *)
Definition largest_or_0 (m : Z) (vals : list Z) : Prop :=
  (m = 0 \/ In m vals) /\ 0 <= m /\ forall v, In v vals -> v <= m.

(** The first value a field is given by the sources, in the order of precedence. *)
Definition first_provided (at_source : supabase_client.source -> option string) : option string :=
  match find (fun s => supabase_client.provided (at_source s)) supabase_client.precedence with
  | Some s => at_source s
  | None => None
  end.

(** No row carries this id under [key]; every row has the key. *)
Definition id_absent (key : string) (id : value) (rows : list row) : bool :=
  forallb (fun r => match lookup key r with
                    | Some v => negb (value_eqb v id)
                    | None => false
                    end) rows.

(** No group row carries this id ([g.get("group_id")] reads a missing key
    as [None]). *)
Definition group_id_absent (id : value) (rows : list row) : bool :=
  forallb (fun g => negb (value_eqb (get g "group_id") id)) rows.

(** The test of [find_by_id] and of [RecipientGroupDao.update] on a row. *)
Definition has_id (group_id : value) (g : row) : bool :=
  value_eqb (get g "group_id") group_id.

(** The legacy member-id list of the group [group_id], as [find_by_id] shows
    it; [None] when the group is missing or holds no list. *)
Definition legacy_list (group_id : value) (d : BaseDao) : option (list Z) :=
  match RecipientGroupDao.find_by_id group_id (items d) with
  | Ok (Some g) =>
      match RecipientGroupModel.recipients g with
      | VList l => Some l
      | _ => None
      end
  | _ => None
  end.

(** A well-formed membership row: both columns hold integers. *)
Definition membership_row (item : row) : bool :=
  match get item "recipient_id", get item "group_id" with
  | VInt _, VInt _ => true
  | _, _ => false
  end.

(** The row is the membership pair [(r, g)]. *)
Definition pair_is (r g : Z) (item : row) : bool :=
  value_eqb (get item "recipient_id") (VInt r) && value_eqb (get item "group_id") (VInt g).

(** ** Concrete environments, for the examples *)

Module Examples.

Definition lower_char (c : ascii) : ascii :=
  let n := nat_of_ascii c in
  if ((65 <=? n) && (n <=? 90))%nat then ascii_of_nat (n + 32) else c.

Fixpoint lower_ascii (s : string) : string :=
  match s with
  | EmptyString => EmptyString
  | String c s' => String (lower_char c) (lower_ascii s')
  end.

Fixpoint digits (s : string) (acc : Z) : option Z :=
  match s with
  | EmptyString => Some acc
  | String c s' =>
      let n := nat_of_ascii c in
      if ((48 <=? n) && (n <=? 57))%nat then digits s' (10 * acc + Z.of_nat (n - 48)) else None
  end.

Definition decimal (s : string) : option Z :=
  match s with
  | EmptyString => None
  | _ => digits s 0
  end.

(** A backend that answers an upsert with the rows it was sent, a fetch with
    [table], and accepts every delete. *)
Definition echo_http (table : list row) (h : history) : http_response :=
  match h with
  | EPost _ rows :: _ => Response 201 (Some rows)
  | EGet _ :: _ => Response 200 (Some table)
  | EDelete _ _ :: _ | EDeleteExpr _ _ _ :: _ => Response 204 None
  | _ => NoResponse
  end.

Definition echo (table : list row) : Env :=
  mkEnv lower_ascii decimal (echo_http table) (fun _ => false) (fun _ => None).

(** A backend that cannot be reached, over a disk holding [snap]. *)
Definition offline (snap : option snapshot) : Env :=
  mkEnv lower_ascii decimal (fun _ => NoResponse) (fun _ => false) (fun _ => snap).

(** A backend that answers the first upsert 409 and then behaves as [echo]. *)
Definition conflict_http (table : list row) (h : history) : http_response :=
  match h with
  | [EPost _ _] => Response 409 None
  | _ => echo_http table h
  end.

Definition conflict (table : list row) : Env :=
  mkEnv lower_ascii decimal (conflict_http table) (fun _ => false) (fun _ => None).

(** The settings name an endpoint but no key, and the environment holds
    both. *)
Definition split_config : supabase_client.config_state :=
  supabase_client.mkConfig (Ok None)
    [("url", "https://a.example")]
    [("SUPABASE_URL", "https://b.example/"); ("SUPABASE_KEY", "env-key")].

(** Every field comes from the settings. *)
Definition settings_config : supabase_client.config_state :=
  supabase_client.mkConfig (Ok None)
    [("url", "https://a.example/"); ("key", "settings-key")]
    [("SUPABASE_URL", "https://b.example"); ("SUPABASE_KEY", "env-key")].

(** A sender table whose rows carry two columns ending in [_id]. *)
Definition two_id_columns : list row :=
  [[("sender_id", VInt 1); ("app_password_id", VInt 7); ("address", VStr "a@example.com")]].

(** Supabase enabled in the settings, with the table map of [config/settings.py]. *)
Definition shipped_settings : base_dao.remote_config :=
  base_dao.mkRemoteConfig false true false
    [("senders", "sender"); ("app_passwords", "app_password");
     ("recipients", "recipient"); ("groups", "recipient_group")].

(** A snapshot of two senders. *)
Definition two_senders : snapshot :=
  mkSnapshot (Some 3)
    (Some [[("sender_id", VInt 1); ("app_password_id", VNone); ("address", VStr "a@example.com")];
           [("sender_id", VInt 2); ("app_password_id", VNone); ("address", VStr "b@example.com")]]).

Definition three_recipients : list row :=
  [[("recipient_id", VInt 1); ("address", VStr "x@example.com"); ("group_id", VInt 1)];
   [("recipient_id", VInt 2); ("address", VStr "y@example.com"); ("group_id", VInt 1)];
   [("recipient_id", VInt 3); ("address", VStr "z@example.com"); ("group_id", VInt 2)]].

Definition two_groups : list row :=
  [[("group_id", VInt 1); ("name", VStr "A"); ("recipients", VList [1; 2])];
   [("group_id", VInt 2); ("name", VStr "B"); ("recipients", VList [2])]].

(** Recipient 1 is in group 1 only, recipient 2 in groups 1 and 2. *)
Definition memberships : list row :=
  [RecipientGroupMembershipDao.entry (VInt 1) (VInt 1);
   RecipientGroupMembershipDao.entry (VInt 2) (VInt 1);
   RecipientGroupMembershipDao.entry (VInt 2) (VInt 2)].

Definition local_dao (name : string) (n : Z) (l : list row) : BaseDao :=
  mkDao "data.json" name false false name n l.

Definition remote_dao (name : string) (remote_only : bool) (n : Z) (l : list row) : BaseDao :=
  mkDao "data.json" name true remote_only name n l.

(** The controller over the three tables above, on a remote backend. *)
Definition controller : RecipientGroupController :=
  mkController (remote_dao "recipients" true 4 three_recipients)
               (remote_dao "groups" false 3 two_groups)
               (remote_dao "recipient_group_membership" false 4 memberships).

End Examples.

(** * The rest of the store: configuration, lookups, controllers *)

(** ** [config/supabase.py]: the saved configuration *)

Module config_supabase.
Import supabase_client.

(** [d[k] = v] on a dict of strings. *)
Fixpoint sset (k v : string) (d : sdict) : sdict :=
  match d with
  | [] => [(k, v)]
  | (k', v') :: d' => if String.eqb k' k then (k', v) :: d' else (k', v') :: sset k v d'
  end.

(** [d.pop(k, None)]. *)
Definition spop (k : string) (d : sdict) : sdict :=
  filter (fun kv : string * string => negb (String.eqb (fst kv) k)) d.

(** What the three functions read and write: the process environment and
    the content of [config/supabase.json] ([None] when there is no file). *)
Record files : Type := mkFiles {
  os_environ : sdict;
  supabase_json : option sdict
}.

(** [if data:] on what [load_json] read: an empty dict is falsy. *)
Definition nonempty (o : option sdict) : option sdict :=
  match o with
  | Some [] => None
  | _ => o
  end.

(** The environment [load_config] leaves: the two variables are set when
    the values came from the file. *)
Definition load_config_environ (f : files) : sdict :=
  let url := sget CONFIG_URL_NAME (os_environ f) in
  let key := sget CONFIG_KEY_NAME (os_environ f) in
  if provided url && provided key then os_environ f
  else
    match nonempty (supabase_json f) with
    | Some data =>
        let url := sget CONFIG_URL_NAME data in
        let key := sget CONFIG_KEY_NAME data in
        if provided url && provided key
        then sset CONFIG_KEY_NAME (text key) (sset CONFIG_URL_NAME (text url) (os_environ f))
        else os_environ f
    | None => os_environ f
    end.

(** [save_config(url, key)]; [written] tells whether [save_json] returned
    ([utils/files.py] is not among the sources): when it raises, the
    environment is left as it was. *)
Definition save_config (written : bool) (url key : string) (f : files) : result unit * files :=
  if written then
    (Ok tt,
     mkFiles (sset CONFIG_KEY_NAME key (sset CONFIG_URL_NAME url (os_environ f)))
             (Some [(CONFIG_URL_NAME, url); (CONFIG_KEY_NAME, key)]))
  else (Raise OSError, f).

(** [clear_config()]; [removed] tells whether [os.remove] returned: a failure
    is swallowed and the file stays. *)
Definition clear_config (removed : bool) (f : files) : files :=
  mkFiles (spop CONFIG_KEY_NAME (spop CONFIG_URL_NAME (os_environ f)))
          (match supabase_json f with
           | Some data => if removed then None else Some data
           | None => None
           end).

(** The configuration the client and [BaseDao] see after [load_config] ran
    on [f], next to the [SUPABASE] settings [st]. *)
Definition seen (st : sdict) (f : files) : config_state :=
  mkConfig (Ok (load_config (os_environ f) (nonempty (supabase_json f)))) st
           (load_config_environ f).

(** [cfg and cfg.get('SUPABASE_URL') and cfg.get('SUPABASE_KEY')], the
    [cfg_enabled] of [BaseDao.__init__]. *)
Definition cfg_enabled_of (c : config_state) : bool :=
  match cfg c with
  | Ok (Some d) =>
      match d with
      | [] => false
      | _ => provided (sget "SUPABASE_URL" d) && provided (sget "SUPABASE_KEY" d)
      end
  | _ => false
  end.

(** [bool(os.environ.get('SUPABASE_URL') and os.environ.get('SUPABASE_KEY'))]. *)
Definition env_enabled_of (c : config_state) : bool :=
  provided (sget "SUPABASE_URL" (environ c)) && provided (sget "SUPABASE_KEY" (environ c)).

End config_supabase.

(** [n] slashes. *)
Fixpoint slashes (n : nat) : string :=
  match n with
  | O => EmptyString
  | S n' => String "/"%char (slashes n')
  end.

(** ** Lookups of [dao/sender_dao.py] and [dao/recipient_group_dao.py] *)

Module SenderLookup.

Definition list_all (l : list row) : result (list SenderModel.t) :=
  rmap SenderModel.of_row l.

(** [s["sender_id"] == sender_id]. *)
Definition has_sender_id (sender_id : value) (s : row) : result bool :=
  rbind (getitem s "sender_id") (fun i => Ok (value_eqb i sender_id)).

Definition find_by_id (sender_id : value) (l : list row) : result (option SenderModel.t) :=
  first_where (has_sender_id sender_id) SenderModel.of_row l.

End SenderLookup.

Module GroupLookup.

Definition list_all (l : list row) : result (list RecipientGroupModel.t) :=
  rmap RecipientGroupModel.of_row l.

End GroupLookup.

(** ** Identifiers *)

(** Every integer the column [pk] holds, as [int] reads it, is below [n]. *)
Definition ids_below (E : Env) (pk : string) (n : Z) (rows : list row) : bool :=
  forallb (fun r => match base_dao.py_int E (get r pk) with
                    | Ok z => z <? n
                    | Raise _ => true
                    end) rows.

(** The next id is positive and above every id of the column [pk]. *)
Definition fresh_ids (E : Env) (pk : string) (d : BaseDao) : bool :=
  (1 <=? next_id d) && ids_below E pk (next_id d) (items d).

(** One step of the scan of [_save] and [upsert_one] over the items of a row. *)
Definition id_step (E : Env) (max_id : Z) (kv : string * value) : Z :=
  if endswith (fst kv) "_id" then
    match base_dao.py_int E (snd kv) with
    | Ok vi => if vi >? max_id then vi else max_id
    | Raise _ => max_id
    end
  else max_id.

(** A property of the cache that every recomputation of the next id keeps. *)
Definition kept_by_saves (E : Env) (I : BaseDao -> Prop) : Prop :=
  forall d rows, I d -> I (base_dao.recompute_next_id E rows (set_items rows d)).

(** The requests of a history, without the local reads and writes. *)
Definition is_request (ev : event) : bool :=
  match ev with
  | EGet _ | EPost _ _ | EDelete _ _ | EDeleteExpr _ _ _ => true
  | ESaveJson _ _ _ _ | ELoadJson _ => false
  end.

(** The requests among the events [sent]. *)
Definition requests (sent : list event) : list event := filter is_request sent.

(** What an outcome reached from the history [h] added to it: the events
    [sent], of which the requests are [reqs]. *)
Definition sent_requests {A S : Type} (h : history) (reqs : list event)
           (out : result A * S * history) : Prop :=
  exists sent, history_of out = sent ++ h /\ requests sent = reqs.

(** Every row holds [id] under [key]. *)
Definition all_have_id (key : string) (id : value) (rows : list row) : bool :=
  forallb (fun r => match lookup key r with
                    | Some v => value_eqb v id
                    | None => false
                    end) rows.

(** ** [utils/fernet_crypto.py], [models/app_password_model.py] and
    [dao/app_password_dao.py] *)

(** The keyring and Fernet, as the code calls them: [keyring.get_password],
    [Fernet(key).encrypt(plain.encode()).decode()], whose token changes from
    one call to the next (it is a function of the history here), and
    [Fernet(key).decrypt(token.encode()).decode()]. *)
Record Keyring : Type := mkKeyring {
  get_password : string -> value -> result (option string);
  fernet_encrypt : string -> value -> history -> result string;
  fernet_decrypt : string -> value -> result string
}.

Module fernet_crypto.

Definition DEFAULT_KEY_ID : string := "local-v1".
Definition DEFAULT_SCHEME : string := "fernet:v1".

Section Crypto.
Variable K : Keyring.

Definition __get_master_key (service_name : string) (key_id : value) : result string :=
  rbind (get_password K service_name key_id) (fun key =>
  match key with
  | Some k => Ok k
  | None => Raise (RuntimeError "Master key not found in keyring")
  end).

Definition encrypt_password (service_name : string) (plain key_id : value) (h : history)
  : result string :=
  rbind (__get_master_key service_name key_id) (fun key => fernet_encrypt K key plain h).

Definition decrypt_password (service_name : string) (crypto_scheme ciphertext key_id : value)
  : result string :=
  if negb (value_eqb crypto_scheme (VStr DEFAULT_SCHEME))
  then Raise (ValueError "Unsupported crypto scheme")
  else rbind (__get_master_key service_name key_id) (fun key => fernet_decrypt K key ciphertext).

End Crypto.
End fernet_crypto.

Module AppPasswordModel.
Record t : Type := mk {
  app_password_id : value;
  sender_id : value;
  ciphertext : value;
  crypto_scheme : value;
  key_id : value
}.

Definition fields : list string :=
  ["app_password_id"; "sender_id"; "ciphertext"; "crypto_scheme"; "key_id"].

Definition of_row (ap : row) : result t :=
  if accepts fields ap
  then Ok (mk (get ap "app_password_id") (get ap "sender_id") (get ap "ciphertext")
              (get ap "crypto_scheme") (get ap "key_id"))
  else Raise TypeError.

Definition __dict__ (m : t) : row :=
  [("app_password_id", app_password_id m); ("sender_id", sender_id m);
   ("ciphertext", ciphertext m); ("crypto_scheme", crypto_scheme m); ("key_id", key_id m)].
End AppPasswordModel.

Module AppPasswordDao.
Section Dao.
Variable E : Env.
Variable K : Keyring.

Definition list_all (l : list row) : result (list AppPasswordModel.t) :=
  rmap AppPasswordModel.of_row l.

(** [ap["app_password_id"] == app_password_id]. *)
Definition has_app_password_id (app_password_id : value) (ap : row) : result bool :=
  rbind (getitem ap "app_password_id") (fun i => Ok (value_eqb i app_password_id)).

Definition find_by_id (app_password_id : value) (l : list row)
  : result (option AppPasswordModel.t) :=
  first_where (has_app_password_id app_password_id) AppPasswordModel.of_row l.

(** The head of [add]: a secret that comes without a scheme is encrypted
    under the default key, or kept as it is and marked [plain] when the
    encryption raises. *)
Definition encrypted (app_password : AppPasswordModel.t) (h : history) : AppPasswordModel.t :=
  if truthy (AppPasswordModel.ciphertext app_password)
     && negb (truthy (AppPasswordModel.crypto_scheme app_password))
  then
    match fernet_crypto.encrypt_password K "enviador_de_email"
            (AppPasswordModel.ciphertext app_password)
            (VStr fernet_crypto.DEFAULT_KEY_ID) h with
    | Ok token =>
        AppPasswordModel.mk (AppPasswordModel.app_password_id app_password)
          (AppPasswordModel.sender_id app_password) (VStr token)
          (VStr fernet_crypto.DEFAULT_SCHEME) (VStr fernet_crypto.DEFAULT_KEY_ID)
    | Raise _ =>
        AppPasswordModel.mk (AppPasswordModel.app_password_id app_password)
          (AppPasswordModel.sender_id app_password)
          (AppPasswordModel.ciphertext app_password) (VStr "plain") VNone
    end
  else app_password.

(** [existing] is a model built from the row: the three assignments change
    the model that is returned, not the row of the cache. *)
Definition add (app_password : AppPasswordModel.t) : M BaseDao AppPasswordModel.t :=
  h <- (fun s h => (Ok h, s, h)) ;;
  let app_password := encrypted app_password h in
  l <- gets items ;;
  existing <- lift (find_by_id (AppPasswordModel.app_password_id app_password) l) ;;
  match existing with
  | Some existing =>
      if negb (value_eqb (AppPasswordModel.ciphertext existing)
                         (AppPasswordModel.ciphertext app_password))
      then
        base_dao._save E ;;
        ret (AppPasswordModel.mk (AppPasswordModel.app_password_id existing)
               (AppPasswordModel.sender_id existing)
               (AppPasswordModel.ciphertext app_password)
               (AppPasswordModel.crypto_scheme app_password)
               (AppPasswordModel.key_id app_password))
      else ret existing
  | None =>
      new_id <- gets next_id ;;
      let app_password :=
        AppPasswordModel.mk (VInt new_id) (AppPasswordModel.sender_id app_password)
          (AppPasswordModel.ciphertext app_password)
          (AppPasswordModel.crypto_scheme app_password)
          (AppPasswordModel.key_id app_password) in
      modify (fun d => set_items (items d ++ [AppPasswordModel.__dict__ app_password]) d) ;;
      modify (fun d => set_next_id (next_id d + 1) d) ;;
      persist_one E (AppPasswordModel.__dict__ app_password) ;;
      ret app_password
  end.

Definition delete (app_password_id : value) : M BaseDao bool :=
  delete_where E (fun s => rbind (getitem s "app_password_id") (fun i =>
                           Ok (negb (value_eqb i app_password_id)))).

End Dao.
End AppPasswordDao.

(** ** [controller/email_controller.py]: the password of the sender *)

Module email_controller.
Section Controller.
Variable K : Keyring.

(** The first [try] of [EmailController.__init__]: the secret as it is when
    the scheme is [plain], decrypted otherwise; [None] is what
    [get_password_for_sender] gives when it finds no record. *)
Definition password (app_password : option AppPasswordModel.t) : result value :=
  match app_password with
  | None => Raise AttributeError
  | Some ap =>
      if value_eqb (AppPasswordModel.crypto_scheme ap) (VStr "plain")
      then Ok (AppPasswordModel.ciphertext ap)
      else rbind (fernet_crypto.decrypt_password K "enviador_de_email"
                    (AppPasswordModel.crypto_scheme ap) (AppPasswordModel.ciphertext ap)
                    (AppPasswordModel.key_id ap))
                 (fun plain => Ok (VStr plain))
  end.

End Controller.
End email_controller.

(** ** [controller/sender_controller.py] *)

Module sender_controller.

Record SenderController : Type := mk {
  sender_dao : BaseDao;
  app_password_dao : BaseDao
}.

Section Controller.
Variable E : Env.

Definition on_sender_dao {A : Type} (m : M BaseDao A) : M SenderController A :=
  zoom sender_dao (fun d c => mk d (app_password_dao c)) m.

Definition on_app_password_dao {A : Type} (m : M BaseDao A) : M SenderController A :=
  zoom app_password_dao (fun d c => mk (sender_dao c) d) m.

Definition list_senders (c : SenderController) : result (list SenderModel.t) :=
  SenderLookup.list_all (items (sender_dao c)).

Definition delete_sender (sender_id : value) : M SenderController bool :=
  try_except
    (l <- gets (fun c => items (sender_dao c)) ;;
     sender <- lift (SenderLookup.find_by_id sender_id l) ;;
     match sender with
     | None => raise (ValueError "Sender with id not found.")
     | Some sender =>
         on_app_password_dao (AppPasswordDao.delete E (SenderModel.app_password_id sender)) ;;
         on_sender_dao (SenderDao.delete E sender_id)
     end)
    (fun e => raise (EmailServiceError e)).

(** [for ap in list_all(): if ap.sender_id == sender.sender_id: return ap]
    inside its [try]: a row that cannot be built hides every record. *)
Definition by_sender_id (sender_id : value) (l : list row) : option AppPasswordModel.t :=
  match AppPasswordDao.list_all l with
  | Ok all => find (fun ap => value_eqb (AppPasswordModel.sender_id ap) sender_id) all
  | Raise _ => None
  end.

(** [get_password_for_sender]; the sender may be [None]. *)
Definition get_password_for_sender (sender : option SenderModel.t) (c : SenderController)
  : result (option AppPasswordModel.t) :=
  match sender with
  | None => Ok None
  | Some sender =>
      let l := items (app_password_dao c) in
      rbind (if truthy (SenderModel.app_password_id sender)
             then AppPasswordDao.find_by_id (SenderModel.app_password_id sender) l
             else Ok None) (fun ap =>
      match ap with
      | Some ap => Ok (Some ap)
      | None => Ok (by_sender_id (SenderModel.sender_id sender) l)
      end)
  end.

End Controller.
End sender_controller.

(** ** The rest of [controller/recipient_group_controller.py] *)

(** [v is None]. *)
Definition is_none (v : value) : bool :=
  match v with
  | VNone => true
  | _ => false
  end.

(** [EmailServiceError] is built from a text: [EmailServiceError (cause)]
    stands for the error built from [str(cause)], and an error raised with a
    text of its own for the one built from an exception of that text. *)
Definition with_text (text : string) : exn := EmailServiceError (RuntimeError text).

Module group_controller.
Import recipient_group_controller.
Section Controller.
Variable E : Env.

Definition list_groups (c : RecipientGroupController) : result (list RecipientGroupModel.t) :=
  GroupLookup.list_all (items (group_dao c)).

(** [next((r for r in self.recipient_dao.list_all()
          if r.recipient_id == recipient_id), None)]. *)
Definition recipient_with_id (recipient_id : Z)
  : M RecipientGroupController (option RecipientModel.t) :=
  rs <- gets (fun c => items (recipient_dao c)) ;;
  all <- lift (RecipientDao.list_all rs) ;;
  ret (find (fun r => value_eqb (RecipientModel.recipient_id r) (VInt recipient_id)) all).

(** [existing.group_id = group_id], then [self.recipient_dao.update(existing)]. *)
Definition move_to_group (group_id : value) (existing : RecipientModel.t)
  : M RecipientGroupController RecipientModel.t :=
  on_recipient_dao
    (RecipientDao.update E (RecipientModel.mk (RecipientModel.recipient_id existing)
                                              (RecipientModel.address existing) group_id)).

(** The handler of a failed update of [existing]: reload the recipients and
    try once more; nothing of it is raised. *)
Definition retry_after_reload (recipient_id : Z) (group_id : value)
  : M RecipientGroupController unit :=
  swallow
    (on_recipient_dao (base_dao._load E) ;;
     existing2 <- recipient_with_id recipient_id ;;
     match existing2 with
     | Some existing2 => swallow (move_to_group group_id existing2)
     | None => ret tt
     end).

(** The end of the legacy path: the recipient's own group id, then the
    member list of the group, whose failure alone is raised. *)
Definition assign_and_list (recipient_id : Z) (group_id : value)
  : M RecipientGroupController bool :=
  swallow (on_recipient_dao
             (RecipientDao.update E (RecipientModel.mk (VInt recipient_id) VNone group_id))) ;;
  try_except
    (on_group_dao (RecipientGroupDao.add_recipient_to_group E group_id recipient_id))
    (fun e => raise (EmailServiceError e)) ;;
  ret true.

(** The legacy path, taken when the membership table raised. *)
Definition legacy (recipient_id : Z) (group_id : value) : M RecipientGroupController bool :=
  existing <- recipient_with_id recipient_id ;;
  match existing with
  | Some existing =>
      if value_eqb (RecipientModel.group_id existing) group_id then
        swallow (on_group_dao
                   (RecipientGroupDao.add_recipient_to_group E group_id recipient_id)) ;;
        ret true
      else
        try_except (move_to_group group_id existing ;; ret tt)
                   (fun _ => retry_after_reload recipient_id group_id) ;;
        assign_and_list recipient_id group_id
  | None => assign_and_list recipient_id group_id
  end.

Definition add_recipient_to_group (recipient_id : Z) (group_id : value)
  : M RecipientGroupController bool :=
  try_except
    (added <- try_except
                (added <- on_membership_dao
                            (RecipientGroupMembershipDao.add_membership E
                               (VInt recipient_id) group_id) ;;
                 ret (Some added))
                (fun _ => ret None) ;;
     match added with
     | Some added => ret added
     | None => legacy recipient_id group_id
     end)
    (fun e => match e with
              | EmailServiceError _ => raise e
              | _ => raise (EmailServiceError e)
              end).

(** [{r.recipient_id: r for r in all}.get(rid)]: a list is not hashable, and
    of two recipients under one id the later one stays. *)
Definition by_recipient_id (all : list RecipientModel.t)
  : result (Z -> option RecipientModel.t) :=
  if existsb (fun r => match RecipientModel.recipient_id r with
                       | VList _ => true
                       | _ => false
                       end) all
  then Raise TypeError
  else Ok (fun rid => find (fun r => value_eqb (RecipientModel.recipient_id r) (VInt rid))
                           (rev all)).

(** The members by the membership table: [None] when the table names none;
    a raise sends to the legacy field as well. *)
Definition members_by_table (group_id : value) (c : RecipientGroupController)
  : result (option (list RecipientModel.t)) :=
  rbind (RecipientGroupMembershipDao.list_group_members E group_id (items (membership_dao c)))
    (fun member_ids =>
  match member_ids with
  | [] => Ok None
  | _ =>
      rbind (RecipientDao.list_all (items (recipient_dao c))) (fun all =>
      rbind (by_recipient_id all) (fun all_recipients =>
      Ok (Some (flat_map (fun rid => match all_recipients rid with
                                     | Some r => [r]
                                     | None => []
                                     end) member_ids))))
  end).

(** The members by the legacy field of the recipients. *)
Definition members_by_field (group_id : value) (c : RecipientGroupController)
  : result (list RecipientModel.t) :=
  rbind (RecipientDao.list_all (items (recipient_dao c))) (fun all =>
  Ok (filter (fun r => value_eqb (RecipientModel.group_id r) group_id) all)).

Definition list_group_recipients (group_id : value) (c : RecipientGroupController)
  : result (list RecipientModel.t) :=
  rbind (RecipientGroupDao.find_by_id group_id (items (group_dao c))) (fun grp =>
  match grp with
  | None => Raise (with_text "Grupo nao encontrado")
  | Some _ =>
      match members_by_table group_id c with
      | Ok (Some members) => Ok members
      | _ => members_by_field group_id c
      end
  end).

End Controller.
End group_controller.

(** ** [controller/recipient_controller.py] *)

Module recipient_controller.

Record RecipientController : Type := mk {
  recipient_dao : BaseDao;
  group_dao : BaseDao;
  membership_dao : BaseDao
}.

Section Controller.
Variable E : Env.

Definition on_recipient_dao {A : Type} (m : M BaseDao A) : M RecipientController A :=
  zoom recipient_dao (fun d c => mk d (group_dao c) (membership_dao c)) m.

Definition on_group_dao {A : Type} (m : M BaseDao A) : M RecipientController A :=
  zoom group_dao (fun d c => mk (recipient_dao c) d (membership_dao c)) m.

Definition on_membership_dao {A : Type} (m : M BaseDao A) : M RecipientController A :=
  zoom membership_dao (fun d c => mk (recipient_dao c) (group_dao c) d) m.

(** The association of a new recipient with its group: the membership
    table, and the legacy list of the group when the table raises; nothing
    of it is raised.  The legacy list holds integers ([VList]): the
    fallback is modelled for a record whose id is an integer, and there is
    no outcome ([None]) where the code would hand another kind of id to the
    list. *)
Definition associate (group_id : value) (rec : RecipientModel.t)
  : RecipientController -> history -> option (result unit * RecipientController * history) :=
  fun c h =>
    match on_membership_dao
            (RecipientGroupMembershipDao.add_membership E
               (RecipientModel.recipient_id rec) group_id) c h with
    | (Ok _, c1, h1) => Some (Ok tt, c1, h1)
    | (Raise _, c1, h1) =>
        match RecipientModel.recipient_id rec with
        | VInt recipient_id =>
            Some (swallow (on_group_dao
                             (RecipientGroupDao.add_recipient_to_group E group_id recipient_id))
                          c1 h1)
        | _ => None
        end
    end.

Definition add_recipient (address group_id : value)
  : RecipientController -> history
    -> option (result RecipientModel.t * RecipientController * history) :=
  fun c h =>
    match on_recipient_dao (RecipientDao.add E (RecipientModel.mk VNone address group_id)) c h with
    | (Ok rec, c1, h1) =>
        if truthy group_id && negb (is_none (RecipientModel.recipient_id rec)) then
          match associate group_id rec c1 h1 with
          | Some (_, c2, h2) => Some (Ok rec, c2, h2)
          | None => None
          end
        else Some (Ok rec, c1, h1)
    | (Raise e, c1, h1) => Some (Raise (EmailServiceError e), c1, h1)
    end.

Definition list_recipients (c : RecipientController) : result (list RecipientModel.t) :=
  RecipientDao.list_all (items (recipient_dao c)).

Definition update_recipient (recipient_id address group_id : value)
  : M RecipientController RecipientModel.t :=
  try_except
    (on_recipient_dao (RecipientDao.update E (RecipientModel.mk recipient_id address group_id)))
    (fun e => raise (EmailServiceError e)).

Definition delete_recipient (recipient_id : value) : M RecipientController bool :=
  try_except
    (on_recipient_dao (RecipientDao.delete E recipient_id))
    (fun e => raise (EmailServiceError e)).

End Controller.
End recipient_controller.

(** ** [core/email_service.py]: the repositories the controllers share *)

Module email_service.

(** [EmailService.__init__] hands its recipient and group repositories to
    both controllers; each controller builds a membership repository of its
    own, and the sender controller its application passwords. *)
Record EmailService : Type := mk {
  recipient_dao : BaseDao;
  sender_dao : BaseDao;
  group_dao : BaseDao;
  app_password_dao : BaseDao;
  recipient_controller_membership_dao : BaseDao;
  group_controller_membership_dao : BaseDao
}.

(** The three repositories [RecipientController] holds. *)
Definition as_recipient_controller (s : EmailService)
  : recipient_controller.RecipientController :=
  recipient_controller.mk (recipient_dao s) (group_dao s)
                          (recipient_controller_membership_dao s).

Definition set_recipient_controller (c : recipient_controller.RecipientController)
           (s : EmailService) : EmailService :=
  mk (recipient_controller.recipient_dao c) (sender_dao s) (recipient_controller.group_dao c)
     (app_password_dao s) (recipient_controller.membership_dao c)
     (group_controller_membership_dao s).

(** The three repositories [RecipientGroupController] holds. *)
Definition as_group_controller (s : EmailService) : RecipientGroupController :=
  mkController (recipient_dao s) (group_dao s) (group_controller_membership_dao s).

Definition set_group_controller (c : RecipientGroupController) (s : EmailService)
  : EmailService :=
  let '(mkController recipients groups memberships) := c in
  mk recipients (sender_dao s) groups (app_password_dao s)
     (recipient_controller_membership_dao s) memberships.

Section Service.
Variable E : Env.

(** [self.recipient_controller.add_recipient(address, group_id)]. *)
Definition add_recipient (address group_id : value)
  : EmailService -> history -> option (result RecipientModel.t * EmailService * history) :=
  fun s h =>
    match recipient_controller.add_recipient E address group_id (as_recipient_controller s) h with
    | Some (r, c, h') => Some (r, set_recipient_controller c s, h')
    | None => None
    end.

(** [self.group_controller.delete_group(group_id)]. *)
Definition delete_group (group_id : value) : M EmailService bool :=
  zoom as_group_controller set_group_controller
       (recipient_group_controller.delete_group E group_id).

(** [self.recipient_controller.delete_recipient(recipient_id)]. *)
Definition delete_recipient (recipient_id : value) : M EmailService bool :=
  zoom as_recipient_controller set_recipient_controller
       (recipient_controller.delete_recipient E recipient_id).

(** [self.group_controller.list_group_recipients(group_id)]. *)
Definition list_group_recipients (group_id : value) (s : EmailService)
  : result (list RecipientModel.t) :=
  group_controller.list_group_recipients E group_id (as_group_controller s).

End Service.

End email_service.

(** ** More examples *)

Module Examples2.

(** A service at the start of a session: one group, no recipient, and the
    two membership repositories as they were loaded, empty. *)
Definition service : email_service.EmailService :=
  email_service.mk
    (Examples.remote_dao "recipients" true 1 [])
    (Examples.remote_dao "senders" false 1 [])
    (Examples.remote_dao "groups" false 2 [[("group_id", VInt 1); ("name", VStr "A");
                                            ("recipients", VList [])]])
    (Examples.remote_dao "app_passwords" false 1 [])
    (Examples.remote_dao "recipient_group_membership" false 1 [])
    (Examples.remote_dao "recipient_group_membership" false 1 []).

(** A service over the three tables of the examples; both controllers have
    loaded the same memberships. *)
Definition stocked_service : email_service.EmailService :=
  email_service.mk
    (Examples.remote_dao "recipients" true 4 Examples.three_recipients)
    (Examples.remote_dao "senders" false 1 [])
    (Examples.remote_dao "groups" false 3 Examples.two_groups)
    (Examples.remote_dao "app_passwords" false 1 [])
    (Examples.remote_dao "recipient_group_membership" false 4 Examples.memberships)
    (Examples.remote_dao "recipient_group_membership" false 4 Examples.memberships).

(** What a step that has an outcome gives, and a raise where it has none. *)
Definition outcome {A S : Type} (s : S) (o : option (result A * S * history))
  : result A * S * history :=
  match o with
  | Some out => out
  | None => (Raise TypeError, s, [])
  end.

End Examples2.

(** ** [controller/email_controller.py] and [gui/workers/email_worker.py]:
    sending to a list *)

Module EmailController.

(** What [send_email] meets while it builds and sends the message (the
    message and the SMTP server are outside the sources): it is sent, an
    [SMTPAuthenticationError] is raised, or another exception whose
    [str(e)] is [text]. *)
Inductive sending : Type :=
| Sent
| Refused
| Failed (text : string).

(** What the run does that can be seen from outside, newest first. *)
Inductive mail_event : Type :=
| Attempt (recipient : string)
| Sleep (seconds : Z)
| Emit (i : Z).

(** The exceptions of this module, by class; [RateLimitExceeded] and
    [DailyLimitExceeded] are the two that are [EmailServiceError]s. *)
Inductive error : Type :=
| ValueError_
| RateLimitExceeded
| DailyLimitExceeded
| Exception.

(** [sub in s]. *)
Fixpoint contains (sub s : string) : bool :=
  String.prefix sub s ||
  match s with
  | EmptyString => false
  | String _ s' => contains sub s'
  end.

(** [send_email]: [True], or the exception its handlers raise. *)
Definition send_email (a : sending) : bool + error :=
  match a with
  | Sent => inl true
  | Refused => inr ValueError_
  | Failed text =>
      if contains "4.2.1" text then inr RateLimitExceeded
      else if contains "5.4.5" text then inr DailyLimitExceeded
      else inr Exception
  end.

(** The dict [send_mass_emails] returns; [canceled] is [False] where the
    dict has no such key. *)
Record report : Type := mkReport {
  total : Z;
  success : Z;
  failed : Z;
  canceled : bool
}.

(** The counters and the log, as the loops carry them. *)
Record counters : Type := mkCounters {
  success_count : Z;
  failed_count : Z;
  log : list mail_event
}.

Section Sending.
(** What each attempt meets, given what was done so far: [None] when
    [EmailModel(...)] itself raises, and else what [send_email] meets. *)
Variable smtp : list mail_event -> option sending.
(** Whether [progress] is given, and [cancel_check]; both default to
    [None]. *)
Variable progress : bool.
Variable cancel_check : option (list mail_event -> bool).

(** The body of the inner [try], up to [result]. *)
Definition build_and_send (done : list mail_event) : bool + error :=
  match smtp done with
  | None => inr Exception
  | Some a => send_email a
  end.

(** [for j in range(attempt_limit)], with [left_over] passes to go: the
    counters at the end of the loop ([inl]), or a raise ([inr]) with the
    counters as they are then. *)
Fixpoint attempts (left_over : nat) (i : Z) (recipient : string) (c : counters)
  : counters + (error * counters) :=
  match left_over with
  | O => inl c
  | S left_over' =>
      let done := Attempt recipient :: log c in
      match build_and_send done with
      | inl _ =>
          if progress
          then inl (mkCounters (success_count c + 1) (failed_count c) (Emit i :: done))
          else inr (Exception, mkCounters (success_count c + 1) (failed_count c + 1) done)
      | inr RateLimitExceeded =>
          attempts left_over' i recipient
                   (mkCounters (success_count c) (failed_count c) (Sleep 100 :: done))
      | inr DailyLimitExceeded =>
          inr (DailyLimitExceeded, mkCounters (success_count c) (failed_count c) done)
      | inr _ =>
          inr (Exception, mkCounters (success_count c) (failed_count c + 1) done)
      end
  end.

(** [for i, recipient in enumerate(recipient_list, 1)]: the report of a
    cancelled run, the counters at the end of the list, or a raise. *)
Fixpoint each_recipient (n : Z) (i : Z) (l : list string) (c : counters)
  : (report * counters + counters) + (error * counters) :=
  match l with
  | [] => inl (inr c)
  | recipient :: l' =>
      if match cancel_check with
         | Some flag => flag (log c)
         | None => false
         end
      then inl (inl (mkReport n (success_count c) (failed_count c) true, c))
      else
        match attempts 5 i recipient c with
        | inl c1 => each_recipient n (i + 1) l' c1
        | inr e => inr e
        end
  end.

(** [send_mass_emails]: the report, or the class of what it raises, with
    the log.  Whatever the loops raise meets [except Exception] (the
    [SMTPAuthenticationError] clause before it has nothing to catch: inside
    the loops [send_email] has turned that error into a [ValueError]). *)
Definition send_mass_emails (recipient_list : list string)
  : (report + error) * list mail_event :=
  let n := Z.of_nat (List.length recipient_list) in
  match each_recipient n 1 recipient_list (mkCounters 0 0 []) with
  | inl (inl (r, c)) => (inl r, log c)
  | inl (inr c) => (inl (mkReport n (success_count c) (failed_count c) false), log c)
  | inr (_, c) => (inr Exception, log c)
  end.

End Sending.
End EmailController.

Module EmailWorker.

(** What [run] emits on [finished]: the flag and the text. *)
Inductive message : Type :=
| Cancelado_pelo_usuario
| Envio_cancelado_pelo_usuario
| Emails_enviados_com_sucesso
| enviados_falharam (success failed : Z)
| service_error
| Erro_inesperado.

(** [run]: [smtp] answers the attempts and [cancel_requested] is the flag
    [request_cancel] sets, as it reads at each moment. *)
Definition run (smtp : list EmailController.mail_event -> option EmailController.sending)
           (cancel_requested : list EmailController.mail_event -> bool)
           (recipients : list string) : bool * message :=
  match EmailController.send_mass_emails smtp true (Some cancel_requested) recipients with
  | (inl result, done) =>
      if cancel_requested done then (false, Cancelado_pelo_usuario)
      else if EmailController.canceled result then (false, Envio_cancelado_pelo_usuario)
      else if EmailController.failed result =? 0 then (true, Emails_enviados_com_sucesso)
      else (false, enviados_falharam (EmailController.success result)
                                     (EmailController.failed result))
  | (inr e, _) =>
      match e with
      | EmailController.RateLimitExceeded | EmailController.DailyLimitExceeded =>
          (false, service_error)
      | _ => (false, Erro_inesperado)
      end
  end.

End EmailWorker.

(** * Properties *)

(** Unfold the plumbing of [M]. *)
Ltac monad_unfold :=
  unfold bind, gets, lift, modify, ret, raise, try_except, perform, zoom, swallow in *;
  cbv beta in *.

(** ** Values and rows *)

Lemma value_eqb_eq (a b : value) : value_eqb a b = true <-> a = b.
Proof.
  destruct a, b; simpl; split; intro H; try discriminate; try reflexivity.
  - apply Z.eqb_eq in H. now subst.
  - inversion H. apply Z.eqb_refl.
  - apply String.eqb_eq in H. now subst.
  - inversion H. apply String.eqb_refl.
  - destruct (list_eq_dec Z.eq_dec l l0); [now subst | discriminate].
  - inversion H. destruct (list_eq_dec Z.eq_dec l0 l0); [reflexivity | contradiction].
Qed.

Lemma value_eqb_refl (a : value) : value_eqb a a = true.
Proof. now apply value_eqb_eq. Qed.

(** ** Credential resolution *)

Section Credentials.
Import supabase_client.

Lemma resolve_first_provided (c : config_state) (env_key settings_key : string)
      (at_source : source -> option string) :
  at_source SavedConfig = from_cfg c env_key ->
  at_source Settings = from_settings c settings_key ->
  at_source Environment = sget env_key (environ c) ->
  resolve c env_key settings_key = text (first_provided at_source).
Proof.
  intros Hc Hs He. unfold resolve, first_provided, precedence, from_environ.
  rewrite <- Hc, <- Hs, <- He. cbv zeta. cbn [find].
  destruct (provided (at_source SavedConfig)) eqn:P1; [now rewrite ?P1 |].
  destruct (provided (at_source Settings)) eqn:P2; [now rewrite ?P2 |].
  destruct (at_source Environment) as [v |] eqn:G; cbn [provided text].
  - destruct (String.eqb v "") eqn:V; cbn [negb text]; [| now rewrite ?G].
    apply String.eqb_eq in V. now subst.
  - reflexivity.
Qed.

(** As [load_config] is written, the dict it returns holds neither
    [SUPABASE_URL] nor [SUPABASE_KEY]: the saved configuration is passed
    over for both fields. *)
Lemma load_config_provides_nothing (environ file_environ : sdict) (file : option sdict)
      (st : sdict) (k : string) :
  k = "SUPABASE_URL" \/ k = "SUPABASE_KEY" ->
  from_cfg (mkConfig (Ok (load_config file_environ file)) st environ) k = None.
Proof.
  intro K. unfold from_cfg, load_config. cbn [cfg].
  destruct (provided (sget CONFIG_URL_NAME file_environ)
            && provided (sget CONFIG_KEY_NAME file_environ)).
  - destruct K as [-> | ->]; reflexivity.
  - destruct file as [data |]; [| reflexivity].
    destruct (provided (sget CONFIG_URL_NAME data) && provided (sget CONFIG_KEY_NAME data));
      [| reflexivity].
    destruct K as [-> | ->]; reflexivity.
Qed.

(** C7, as stated, fails: with an endpoint in the settings and both fields in
    the environment, the first source providing both is the environment, but
    the endpoint used is the one of the settings and the key the one of the
    environment. *)
Lemma C7_counterexample :
  resolve_pair_spec Examples.split_config
  <> Some (_base_url Examples.split_config, api_key Examples.split_config).
Proof. vm_compute. discriminate. Qed.

(** C7, amended: the endpoint and the key are resolved one by one, each from
    the first source (saved configuration, settings, environment) that
    provides that field, the empty string when none does; when the first
    source that provides either field provides both, the pair is the one of
    that single source. *)
Theorem C7_fields_resolved_independently (c : config_state) :
  _base_url c = rstrip_slash (text (first_provided (url_at c))) /\
  api_key c = text (first_provided (key_at c)) /\
  forall s,
    find (fun s => provided (url_at c s) || provided (key_at c s)) precedence = Some s ->
    provided (url_at c s) && provided (key_at c s) = true ->
    resolve_pair_spec c = Some (_base_url c, api_key c).
Proof.
  assert (U : resolve c "SUPABASE_URL" "url" = text (first_provided (url_at c)))
    by (now apply resolve_first_provided).
  assert (K : resolve c "SUPABASE_KEY" "key" = text (first_provided (key_at c)))
    by (now apply resolve_first_provided).
  unfold _base_url, api_key. rewrite U, K.
  split; [reflexivity | split; [reflexivity |]].
  intros s F B. unfold resolve_pair_spec, first_provided, precedence in *.
  cbn [find] in *.
  destruct (provided (url_at c SavedConfig)) eqn:U1;
    destruct (provided (key_at c SavedConfig)) eqn:K1; cbn [orb andb] in *;
    try (inversion F; subst s; rewrite ?U1, ?K1 in B; discriminate B);
    [reflexivity |].
  destruct (provided (url_at c Settings)) eqn:U2;
    destruct (provided (key_at c Settings)) eqn:K2; cbn [orb andb] in *;
    try (inversion F; subst s; rewrite ?U2, ?K2 in B; discriminate B);
    [reflexivity |].
  destruct (provided (url_at c Environment)) eqn:U3;
    destruct (provided (key_at c Environment)) eqn:K3; cbn [orb andb] in *;
    try (inversion F; subst s; rewrite ?U3, ?K3 in B; discriminate B);
    reflexivity.
Qed.

Lemma C7_fields_resolved_independently_witness :
  resolve_pair_spec Examples.settings_config
  = Some (_base_url Examples.settings_config, api_key Examples.settings_config).
Proof.
  apply (proj2 (proj2 (C7_fields_resolved_independently Examples.settings_config)) Settings);
    reflexivity.
Defined.

End Credentials.

(** ** [BaseDao._load] *)

Section Load.
Variable E : Env.

Lemma max_pk_from (pk : string) (rows : list row) (acc : Z) :
  let step := fun max_id r =>
                match base_dao.int_or_0 E (get r pk) with
                | Ok v => if v >? max_id then v else max_id
                | Raise _ => max_id
                end in
  let m := fold_left step rows acc in
  (m = acc \/ In m (column_values E pk rows)) /\ acc <= m /\
  forall v, In v (column_values E pk rows) -> v <= m.
Proof.
  intros step. revert acc. induction rows as [| r rows IH]; intro acc; cbv zeta; simpl.
  - split; [now left | split; [lia | contradiction]].
  - destruct (base_dao.int_or_0 E (get r pk)) as [v | e] eqn:V; simpl.
    + destruct (v >? acc) eqn:C.
      * assert (S : step acc r = v) by (unfold step; now rewrite V, C).
        rewrite S. destruct (IH v) as (H1 & H2 & H3). split; [| split].
        -- right. destruct H1 as [H1 | H1]; [left; now rewrite H1 | now right].
        -- lia.
        -- intros w [W | W]; [subst w; exact H2 | now apply H3].
      * assert (S : step acc r = acc) by (unfold step; now rewrite V, C).
        rewrite S. destruct (IH acc) as (H1 & H2 & H3). split; [| split].
        -- destruct H1 as [H1 | H1]; [now left | right; now right].
        -- exact H2.
        -- intros w [W | W]; [subst w; lia | now apply H3].
    + assert (S : step acc r = acc) by (unfold step; now rewrite V).
      rewrite S. apply IH.
Qed.

Lemma max_pk_largest (pk : string) (rows : list row) :
  largest_or_0 (base_dao.max_pk E pk rows) (column_values E pk rows).
Proof.
  destruct (max_pk_from pk rows 0) as (H1 & H2 & H3).
  unfold largest_or_0, base_dao.max_pk. auto.
Qed.

Lemma get_all_ok {S : Type} (s : S) (h : history) (table : string)
      (status_code : Z) (rows : list row) :
  http E (EGet table :: h) = Response status_code (Some rows) ->
  (400 <=? status_code) && (status_code <? 600) = false ->
  supabase_client.get_all E table s h = (Ok rows, s, EGet table :: h).
Proof.
  intros R Hs. unfold supabase_client.get_all, supabase_client.checked_json,
    supabase_client.raise_for_status, bind, perform, lift, ret.
  rewrite R, Hs. reflexivity.
Qed.

(** C5, amended: after a remote load that returns rows, the next id is one
    plus the largest positive integer of ONE column, the first column of the
    first row whose name ends in [_id], over all the rows; it is 1 when there
    are no rows, when the first row has no such column, or when the column
    holds no positive integer. *)
Theorem C5_load_next_id_from_first_id_column
        (d : BaseDao) (h : history) (status_code : Z) (rows : list row) :
  _remote d = true ->
  http E (EGet (_table d) :: h) = Response status_code (Some rows) ->
  (400 <=? status_code) && (status_code <? 600) = false ->
  exists m,
    base_dao._load E d h = (Ok tt, set_data (m + 1) rows d, EGet (_table d) :: h) /\
    match rows with
    | [] => m = 0
    | first :: _ =>
        match base_dao.guess_pk first with
        | Some pk => largest_or_0 m (column_values E pk rows)
        | None => m = 0
        end
    end.
Proof.
  intros Hr R Hs.
  pose (m := match rows with
             | [] => 0
             | first :: _ => match base_dao.guess_pk first with
                             | Some pk => base_dao.max_pk E pk rows
                             | None => 0
                             end
             end).
  assert (M0 : 0 <= m).
  { subst m. destruct rows as [| first rows']; [lia |].
    destruct (base_dao.guess_pk first) as [pk |]; [| lia].
    destruct (max_pk_largest pk (first :: rows')) as (_ & H & _). exact H. }
  exists m. split.
  - unfold base_dao._load, bind, gets, try_except, modify. rewrite Hr.
    rewrite (get_all_ok d h (_table d) status_code rows R Hs).
    unfold base_dao.loaded_next_id. fold m.
    destruct (m =? 0) eqn:Z0; [apply Z.eqb_eq in Z0; now rewrite Z0 | reflexivity].
  - subst m. destruct rows as [| first rows']; [reflexivity |].
    destruct (base_dao.guess_pk first); [apply max_pk_largest | reflexivity].
Qed.

End Load.

Lemma C5_load_next_id_from_first_id_column_witness :
  exists m,
    base_dao._load (Examples.echo Examples.two_id_columns)
      (Examples.remote_dao "senders" false 1 []) []
    = (Ok tt, set_data (m + 1) Examples.two_id_columns
                (Examples.remote_dao "senders" false 1 []), [EGet "senders"]) /\
    largest_or_0 m (column_values (Examples.echo Examples.two_id_columns) "sender_id"
                      Examples.two_id_columns).
Proof.
  apply (C5_load_next_id_from_first_id_column (Examples.echo Examples.two_id_columns)
           (Examples.remote_dao "senders" false 1 []) [] 200 Examples.two_id_columns);
    reflexivity.
Defined.

(** C5, as stated, fails: the fetched row holds 1 under [sender_id] and 7
    under [app_password_id]; one plus the largest value over the columns
    ending in [_id] is 8, and [_load] sets the next id to 2. *)
Lemma C5_counterexample :
  next_id (state_of (base_dao._load (Examples.echo Examples.two_id_columns)
                       (Examples.remote_dao "senders" false 1 []) []))
  <> next_id_spec (Examples.echo Examples.two_id_columns) Examples.two_id_columns.
Proof. vm_compute. discriminate. Qed.

(** ** Construction when the fetch fails *)

Section Construction.
Variable E : Env.

Lemma checked_json_fails {S : Type} (s : S) (h : history) :
  fails (http E h) = true ->
  exists e, supabase_client.checked_json E h s h = (Raise e, s, h).
Proof.
  unfold fails, supabase_client.checked_json, supabase_client.raise_for_status, bind, lift,
    raise, ret.
  destruct (http E h) as [status_code json |]; intro F.
  - destruct ((400 <=? status_code) && (status_code <? 600)); [eauto |].
    destruct json; [discriminate | eauto].
  - eauto.
Qed.

Lemma get_all_fails {S : Type} (s : S) (h : history) (table : string) :
  fails (http E (EGet table :: h)) = true ->
  exists e, supabase_client.get_all E table s h = (Raise e, s, EGet table :: h).
Proof.
  intro F. destruct (checked_json_fails s (EGet table :: h) F) as [e He].
  exists e. unfold supabase_client.get_all, bind, perform. exact He.
Qed.

(** C6: when the remote fetch fails during construction, a repository that
    may fall back is built from the last local snapshot, or as the empty
    table with next id 1 when there is none; a remote-only repository, as
    the Recipients one is, raises. *)
Theorem C6_fetch_failure_falls_back_or_raises
        (rc : base_dao.remote_config) (p name : string) (remote_only : bool) (h : history) :
  base_dao.cfg_enabled rc || base_dao.settings_enabled rc || base_dao.env_enabled rc = true ->
  fails (http E (EGet (base_dao.table_of rc name) :: h)) = true ->
  let fetched := EGet (base_dao.table_of rc name) :: h in
  (remote_only = false ->
   exists d,
     base_dao.__init__ E rc p name false h = (Ok d, ELoadJson p :: fetched) /\
     (next_id d, items d) = snapshot_table (load_json E (ELoadJson p :: fetched))) /\
  (remote_only = true ->
   exists e, base_dao.__init__ E rc p name true h = (Raise e, fetched)) /\
  (name = "recipients" ->
   exists e, RecipientDao.__init__ E rc p h = (Raise e, fetched)).
Proof.
  intros En F fetched.
  assert (R : exists e, base_dao.__init__ E rc p name true h = (Raise e, fetched)).
  { unfold base_dao.__init__. rewrite En. simpl.
    unfold base_dao._load, bind, gets, try_except. simpl.
    destruct (get_all_fails (mkDao p name true true (base_dao.table_of rc name) 1 []) h _ F)
      as [e He].
    rewrite He. unfold raise. eauto. }
  split; [| split].
  - intros _. unfold base_dao.__init__. rewrite En. simpl.
    unfold base_dao._load, bind, gets, try_except. simpl.
    destruct (get_all_fails (mkDao p name true false (base_dao.table_of rc name) 1 []) h _ F)
      as [e He].
    rewrite He. unfold base_dao.load_local, bind, gets, perform, modify, ret. simpl.
    fold fetched.
    destruct (load_json E (ELoadJson p :: fetched)) as [data |]; simpl; eauto.
  - intros _. exact R.
  - intros ->. exact R.
Qed.

End Construction.

Lemma C6_fetch_failure_falls_back_or_raises_witness :
  (exists d,
     base_dao.__init__ (Examples.offline (Some Examples.two_senders)) Examples.shipped_settings
       "senders.json" "senders" false []
     = (Ok d, [ELoadJson "senders.json"; EGet "sender"]) /\
     (next_id d, items d) = snapshot_table (Some Examples.two_senders)) /\
  (exists e,
     base_dao.__init__ (Examples.offline (Some Examples.two_senders)) Examples.shipped_settings
       "recipients.json" "recipients" true []
     = (Raise e, [EGet "recipient"])).
Proof.
  split.
  - apply (proj1 (C6_fetch_failure_falls_back_or_raises
                    (Examples.offline (Some Examples.two_senders)) Examples.shipped_settings
                    "senders.json" "senders" false [] eq_refl eq_refl)).
    reflexivity.
  - apply (proj1 (proj2 (C6_fetch_failure_falls_back_or_raises
                    (Examples.offline (Some Examples.two_senders)) Examples.shipped_settings
                    "recipients.json" "recipients" true [] eq_refl eq_refl))).
    reflexivity.
Defined.

(** ** A missing id *)

Lemma set_items_same (d : BaseDao) : set_items (items d) d = d.
Proof. now destruct d. Qed.

Lemma rfilter_keeps_all {A : Type} (keep : A -> result bool) (l : list A) :
  (forall x, In x l -> keep x = Ok true) -> rfilter keep l = Ok l.
Proof.
  induction l as [| x l IH]; intro H; simpl; [reflexivity |].
  rewrite (H x (or_introl eq_refl)). simpl.
  rewrite IH; [reflexivity |]. intros y Hy. apply H. now right.
Qed.

Section MissingId.
Variable E : Env.

Lemma delete_where_keeps_all (keep : row -> result bool) (d : BaseDao) (h : history) :
  (forall r, In r (items d) -> keep r = Ok true) ->
  delete_where E keep d h = (Ok false, d, h).
Proof.
  intro H. unfold delete_where, bind, gets, lift, modify.
  rewrite (rfilter_keeps_all keep (items d) H).
  rewrite Nat.ltb_irrefl. unfold ret. now rewrite set_items_same.
Qed.

Lemma id_absent_keep (key : string) (id : value) (l : list row) :
  id_absent key id l = true ->
  forall r, In r l ->
    rbind (getitem r key) (fun i => Ok (negb (value_eqb i id))) = Ok true.
Proof.
  unfold id_absent. rewrite forallb_forall. intros H r Hr.
  specialize (H r Hr). unfold getitem.
  destruct (lookup key r); [simpl; now rewrite H | discriminate].
Qed.

Lemma sender_scan_absent (sender : SenderModel.t) (l : list row) :
  id_absent "sender_id" (SenderModel.sender_id sender) l = true ->
  SenderDao.replace_by_id sender l = Ok None.
Proof.
  induction l as [| s l IH]; simpl; [reflexivity |].
  unfold getitem. destruct (lookup "sender_id" s) as [v |]; [| discriminate].
  simpl. destruct (value_eqb v (SenderModel.sender_id sender)); simpl; [discriminate |].
  intro H. now rewrite (IH H).
Qed.

Lemma recipient_scan_absent (recipient : RecipientModel.t) (l : list row) :
  id_absent "recipient_id" (RecipientModel.recipient_id recipient) l = true ->
  RecipientDao.update_by_id recipient l = Ok None.
Proof.
  induction l as [| r l IH]; simpl; [reflexivity |].
  unfold getitem. destruct (lookup "recipient_id" r) as [v |]; [| discriminate].
  simpl. destruct (value_eqb v (RecipientModel.recipient_id recipient)); simpl; [discriminate |].
  intro H. now rewrite (IH H).
Qed.

Lemma group_scan_absent (group : RecipientGroupModel.t) (l : list row) :
  group_id_absent (RecipientGroupModel.group_id group) l = true ->
  RecipientGroupDao.update_by_id group l = None.
Proof.
  induction l as [| g l IH]; simpl; [reflexivity |].
  destruct (value_eqb (get g "group_id") (RecipientGroupModel.group_id group));
    simpl; [discriminate |].
  intro H. now rewrite (IH H).
Qed.

(** C8, amended: on an id that no row of the table carries, an update
    ([SenderDao.edit], [RecipientDao.update], [RecipientGroupDao.update])
    raises a [ValueError] to the caller, while a delete raises nothing: it
    returns [False]; both leave the table as it was and send no request. *)
Theorem C8_missing_id_update_raises_delete_returns_false (d : BaseDao) (h : history) :
  (forall sender,
      id_absent "sender_id" (SenderModel.sender_id sender) (items d) = true ->
      SenderDao.edit E sender d h = (Raise (ValueError "Sender with id not found."), d, h)) /\
  (forall recipient,
      id_absent "recipient_id" (RecipientModel.recipient_id recipient) (items d) = true ->
      RecipientDao.update E recipient d h = (Raise (ValueError "Recipient not found"), d, h)) /\
  (forall group,
      group_id_absent (RecipientGroupModel.group_id group) (items d) = true ->
      RecipientGroupDao.update E group d h = (Raise (ValueError "Group not found"), d, h)) /\
  (forall id,
      id_absent "sender_id" id (items d) = true ->
      SenderDao.delete E id d h = (Ok false, d, h)) /\
  (forall id,
      id_absent "recipient_id" id (items d) = true ->
      RecipientDao.delete E id d h = (Ok false, d, h)) /\
  (forall id,
      group_id_absent id (items d) = true ->
      RecipientGroupDao.delete E id d h = (Ok false, d, h)).
Proof.
  repeat split.
  - intros sender H. unfold SenderDao.edit, bind, gets, lift.
    now rewrite (sender_scan_absent sender (items d) H).
  - intros recipient H. unfold RecipientDao.update, bind, gets, lift.
    now rewrite (recipient_scan_absent recipient (items d) H).
  - intros group H. unfold RecipientGroupDao.update, bind, gets.
    now rewrite (group_scan_absent group (items d) H).
  - intros id H. apply delete_where_keeps_all. now apply id_absent_keep.
  - intros id H. apply delete_where_keeps_all. now apply id_absent_keep.
  - intros id H. apply delete_where_keeps_all.
    unfold group_id_absent in H. rewrite forallb_forall in H.
    intros g Hg. now rewrite (H g Hg).
Qed.

End MissingId.

Lemma C8_missing_id_update_raises_delete_returns_false_witness :
  RecipientDao.update (Examples.echo []) (RecipientModel.mk (VInt 9) (VStr "q@example.com") VNone)
    (Examples.remote_dao "recipients" true 4 Examples.three_recipients) []
  = (Raise (ValueError "Recipient not found"),
     Examples.remote_dao "recipients" true 4 Examples.three_recipients, []) /\
  RecipientDao.delete (Examples.echo []) (VInt 9)
    (Examples.remote_dao "recipients" true 4 Examples.three_recipients) []
  = (Ok false, Examples.remote_dao "recipients" true 4 Examples.three_recipients, []).
Proof.
  pose proof (C8_missing_id_update_raises_delete_returns_false (Examples.echo [])
                (Examples.remote_dao "recipients" true 4 Examples.three_recipients) [])
    as (_ & U & _ & _ & D & _).
  split; [apply U | apply D]; reflexivity.
Defined.

(** C8, as stated, fails for delete: deleting the id 9 from a recipient
    table that holds the ids 1, 2 and 3 raises nothing. *)
Lemma C8_counterexample :
  ~ exists e,
      result_of (RecipientDao.delete (Examples.echo []) (VInt 9)
                   (Examples.remote_dao "recipients" true 4 Examples.three_recipients) [])
      = Raise e.
Proof. intros [e H]. vm_compute in H. discriminate. Qed.

(** ** The conflict path of [RecipientDao.add] *)


Section Conflict.
Variable E : Env.

Lemma upsert_one_conflict (d : BaseDao) (h : history) (item : row) (json : option (list row)) :
  _remote d = true ->
  _remote_only d = true ->
  http E (EPost (_table d) [item] :: h) = Response 409 json ->
  base_dao.upsert_one E item d h = (Raise (HTTPError 409), d, EPost (_table d) [item] :: h).
Proof.
  intros Hr Ho Hp.
  unfold base_dao.upsert_one, supabase_client.upsert_rows, supabase_client.checked_json,
    supabase_client.raise_for_status.
  monad_unfold. rewrite Hr, Ho. cbn. rewrite Hp. reflexivity.
Qed.

Lemma load_ok (d : BaseDao) (h : history) (status_code : Z) (rows : list row) :
  _remote d = true ->
  http E (EGet (_table d) :: h) = Response status_code (Some rows) ->
  (400 <=? status_code) && (status_code <? 600) = false ->
  base_dao._load E d h
  = (Ok tt, set_data (base_dao.loaded_next_id E rows) rows d, EGet (_table d) :: h).
Proof.
  intros Hr Hg Hs.
  unfold base_dao._load, supabase_client.get_all, supabase_client.checked_json,
    supabase_client.raise_for_status.
  monad_unfold. rewrite Hr. cbn. rewrite Hg, Hs. reflexivity.
Qed.

(** C9: when the upsert of a new recipient is answered 409, the table is
    fetched again from the backend and the address looked up in what came
    back; the recipient found there is the one returned, not the one built
    locally, and the reloaded table is the one held afterwards. *)
Theorem C9_conflict_reloads_and_returns_existing
        (d : BaseDao) (h : history) (recipient existing : RecipientModel.t)
        (json : option (list row)) (status_code : Z) (rows : list row) :
  _remote d = true ->
  _remote_only d = true ->
  RecipientDao.find_by_address E (RecipientModel.address recipient) (items d) = Ok None ->
  let local := RecipientModel.mk (VInt (next_id d)) (RecipientModel.address recipient)
                                 (RecipientModel.group_id recipient) in
  let posted := EPost (_table d) [RecipientModel.__dict__ local] :: h in
  let fetched := EGet (_table d) :: posted in
  http E posted = Response 409 json ->
  http E fetched = Response status_code (Some rows) ->
  (400 <=? status_code) && (status_code <? 600) = false ->
  RecipientDao.find_by_address E (RecipientModel.address recipient) rows = Ok (Some existing) ->
  RecipientDao.add E recipient d h
  = (Ok existing, set_data (base_dao.loaded_next_id E rows) rows d, fetched).
Proof.
  intros Hr Ho Hn local posted fetched Hp Hg Hs Hf.
  unfold RecipientDao.add.
  unfold bind at 1, gets at 1. unfold bind at 1, lift at 1. rewrite Hn.
  unfold bind at 1, gets at 1. unfold bind at 1, modify at 1. unfold bind at 1, modify at 1.
  unfold bind at 1. unfold try_except at 1. unfold bind at 1.
  rewrite (upsert_one_conflict _ h _ json); [| exact Hr | exact Ho | exact Hp].
  unfold RecipientDao.on_upsert_error. cbn [is_conflict Z.eqb Pos.eqb].
  unfold bind at 1. unfold try_except at 1. unfold bind at 1.
  rewrite (load_ok _ _ status_code rows); [| exact Hr | exact Hg | exact Hs].
  unfold bind at 1, gets at 1, lift at 1.
  cbn [items set_data set_items set_next_id RecipientModel.address path data_name
       _remote _remote_only _table next_id].
  rewrite Hf. reflexivity.
Qed.

End Conflict.

Lemma C9_conflict_reloads_and_returns_existing_witness :
  RecipientDao.add
    (Examples.conflict [[("recipient_id", VInt 7); ("address", VStr "x@example.com");
                         ("group_id", VInt 1)]])
    (RecipientModel.mk VNone (VStr "X@Example.com") (VInt 0))
    (Examples.remote_dao "recipients" true 1 []) []
  = (Ok (RecipientModel.mk (VInt 7) (VStr "x@example.com") (VInt 1)),
     set_data 8 [[("recipient_id", VInt 7); ("address", VStr "x@example.com");
                  ("group_id", VInt 1)]]
       (Examples.remote_dao "recipients" true 1 []),
     [EGet "recipients";
      EPost "recipients" [[("recipient_id", VInt 1); ("address", VStr "X@Example.com");
                           ("group_id", VInt 0)]]]).
Proof.
  apply (C9_conflict_reloads_and_returns_existing
           (Examples.conflict [[("recipient_id", VInt 7); ("address", VStr "x@example.com");
                                ("group_id", VInt 1)]])
           (Examples.remote_dao "recipients" true 1 []) []
           (RecipientModel.mk VNone (VStr "X@Example.com") (VInt 0))
           (RecipientModel.mk (VInt 7) (VStr "x@example.com") (VInt 1))
           None 200
           [[("recipient_id", VInt 7); ("address", VStr "x@example.com"); ("group_id", VInt 1)]]);
    reflexivity.
Defined.

(** ** Persistence: [_save], [upsert_one] and what they leave behind *)

Lemma set_data_same (d : BaseDao) : set_data (next_id d) (items d) d = d.
Proof. now destruct d. Qed.

Lemma set_data_twice (n n' : Z) (l l' : list row) (d : BaseDao) :
  set_data n' l' (set_data n l d) = set_data n' l' d.
Proof. reflexivity. Qed.

Section Persistence.
Variable E : Env.

Lemma checked_json_post {S : Type} (s : S) (h : history) (table : string) (rows : list row) :
  let h0 := EPost table rows :: h in
  (exists e, supabase_client.checked_json E h0 s h0 = (Raise e, s, h0) /\
             (single_writer E -> is_conflict e = false)) \/
  (exists rows', supabase_client.checked_json E h0 s h0 = (Ok rows', s, h0) /\
                 (faithful_backend E -> rows' = rows)).
Proof.
  intro h0. unfold supabase_client.checked_json, supabase_client.raise_for_status.
  monad_unfold.
  destruct (http E h0) as [status_code json |] eqn:R.
  - destruct ((400 <=? status_code) && (status_code <? 600)) eqn:St.
    + left. exists (HTTPError status_code). split; [reflexivity |].
      intro W. simpl. apply Z.eqb_neq. intros ->. exact (W h table rows json R).
    + destruct json as [rows' |].
      * right. exists rows'. split; [reflexivity |].
        intro F. destruct (F h table rows) as [Fl | [st Fr]].
        -- fold h0 in Fl. rewrite R in Fl. simpl in Fl. rewrite St in Fl. discriminate.
        -- fold h0 in Fr. rewrite R in Fr. now inversion Fr.
      * left. exists JSONDecodeError. split; [reflexivity | reflexivity].
  - left. exists ConnectionError. split; reflexivity.
Qed.

Lemma save_local_eq (d : BaseDao) (h : history) :
  let h0 := ESaveJson (path d) (data_name d) (next_id d) (items d) :: h in
  base_dao.save_local E d h
  = (if save_json_fails E h0 then Raise OSError else Ok tt, d, h0).
Proof.
  intro h0. unfold base_dao.save_local. monad_unfold. fold h0.
  now destruct (save_json_fails E h0).
Qed.


Ltac sent_events :=
  first [ exists (@nil event); split; reflexivity
        | eexists [_]; split; reflexivity
        | eexists [_; _]; split; reflexivity
        | eexists [_; _; _]; split; reflexivity
        | eexists [_; _; _; _]; split; reflexivity ].

Ltac persisted_leaf :=
  unfold persisted, same_config, state_of, result_of, history_of;
  cbn [fst snd path data_name _remote _remote_only _table items next_id
       set_data set_items set_next_id base_dao.recompute_next_id];
  repeat match goal with
         | |- _ /\ _ => split
         | |- _ = _ => reflexivity
         | |- exists sent, _ = sent ++ _ /\ _ => sent_events
         | |- _ -> _ => intro
         end;
  try solve [ eauto
            | congruence
            | left; congruence
            | match goal with
              | H : faithful_backend E, Cf : faithful_backend E -> _ = _ |- _ \/ _ =>
                  right; specialize (Cf H); inversion Cf; reflexivity
              end
            | match goal with
              | H : disk_writable E, F : save_json_fails E _ = true |- _ =>
                  rewrite H in F; discriminate F
              end
            | match goal with
              | H : _ = Raise _ |- _ => inversion H; subst; reflexivity
              end
            | match goal with
              | H : single_writer E, C : single_writer E -> _ |- is_conflict _ = false =>
                  match goal with
                  | H' : Raise _ = Raise _ |- _ => inversion H'; subst; now apply C
                  end
              end ].

Ltac destruct_fails :=
  match goal with
  | |- context [if save_json_fails E ?x then _ else _] =>
      destruct (save_json_fails E x) eqn:?
  end.

(** Save locally, and once more from the handler when the first write raises. *)
Ltac save_twice :=
  rewrite save_local_eq;
  match goal with
  | |- context [save_json_fails E ?h0] =>
      destruct (save_json_fails E h0) eqn:?;
      [ rewrite save_local_eq;
        match goal with
        | |- context [save_json_fails E (?ev :: h0)] =>
            destruct (save_json_fails E (ev :: h0)) eqn:?
        end
      | ]
  end.

Lemma save_persisted (d : BaseDao) (h : history) :
  persisted E d h (fun l' => l' = items d) (base_dao._save E d h).
Proof.
  unfold base_dao._save. unfold bind at 1, gets at 1.
  destruct (_remote d) eqn:Hr.
  - unfold try_except, bind at 1, supabase_client.upsert_rows.
    destruct (items d) as [| r0 l0] eqn:Hl.
    + unfold ret at 1. unfold bind at 1, ret at 1.
      destruct (_remote_only d) eqn:Ho.
      * unfold ret. persisted_leaf.
      * save_twice; persisted_leaf.
    + unfold bind at 1, perform at 1.
      destruct (checked_json_post d h (_table d) (r0 :: l0)) as [(e & C & Cw) | (rows' & C & Cf)];
        rewrite C.
      * destruct (_remote_only d) eqn:Ho.
        -- unfold raise. persisted_leaf.
        -- rewrite save_local_eq. rewrite Hl.
           destruct (save_json_fails E _) eqn:F; persisted_leaf.
      * destruct rows' as [| r1 l1].
        -- unfold bind at 1, ret at 1. destruct (_remote_only d) eqn:Ho.
           ++ unfold ret. persisted_leaf.
           ++ save_twice; rewrite ?Hl; persisted_leaf.
        -- unfold bind at 1, modify at 1. destruct (_remote_only d) eqn:Ho.
           ++ unfold ret. persisted_leaf.
           ++ save_twice; persisted_leaf.
  - rewrite save_local_eq. destruct (save_json_fails E _) eqn:F; persisted_leaf.
Qed.

Lemma persisted_after {A B : Type} (d d1 : BaseDao) (h h1 : history)
      (P : list row -> Prop) (r1 : result A) (out : result B * BaseDao * history) :
  persisted E d h P (r1, d1, h1) ->
  persisted E d1 h1 (fun l' => l' = items d1) out ->
  persisted E d h P out.
Proof.
  unfold persisted, same_config, state_of, result_of, history_of. cbn [fst snd].
  intros ((C1 & C2 & C3 & C4 & C5) & (s1 & Hs1 & Ns1) & F1 & _ & _)
         ((D1 & D2 & D3 & D4 & D5) & (s2 & Hs2 & Ns2) & F2 & W2 & X2).
  repeat split; try congruence.
  - exists (s2 ++ s1). split.
    + rewrite Hs2, Hs1. now rewrite app_assoc.
    + rewrite filter_app, Ns1, Ns2. reflexivity.
  - intro F. rewrite (F2 F). exact (F1 F).
  - intros W Ho. apply W2; congruence.
  - exact X2.
Qed.

Lemma upsert_one_persisted (item : row) (d : BaseDao) (h : history) :
  persisted E d h (fun l' => l' = items d \/ l' = base_dao.merge_row item (items d))
            (base_dao.upsert_one E item d h).
Proof.
  unfold base_dao.upsert_one. unfold bind at 1, gets at 1.
  destruct (_remote d) eqn:Hr; cbn [negb].
  - unfold try_except, bind at 1, supabase_client.upsert_rows.
    unfold bind at 1, perform at 1.
    destruct (checked_json_post d h (_table d) [item]) as [(e & C & Cw) | (rows' & C & Cf)];
      rewrite C.
    + destruct (_remote_only d) eqn:Ho.
      * unfold raise. persisted_leaf.
      * unfold bind at 1. rewrite save_local_eq.
        destruct_fails; unfold ret; persisted_leaf.
    + destruct rows' as [| r1 l1].
      * unfold ret. persisted_leaf.
      * unfold bind at 1, modify at 1. unfold bind at 1.
        destruct (_remote_only d) eqn:Ho.
        -- unfold ret. persisted_leaf.
        -- rewrite save_local_eq. destruct_fails.
           ++ unfold bind at 1. rewrite save_local_eq.
              destruct_fails; unfold ret; persisted_leaf.
           ++ unfold ret. persisted_leaf.
  - unfold bind at 1.
    pose proof (save_persisted d h) as P.
    destruct (base_dao._save E d h) as [[r d1] h1].
    destruct r as [[] | e]; unfold ret.
    + destruct P as (C & S & F & W & X). repeat split; try apply C; try exact S.
      * intro Hf. left. exact (F Hf).
      * intros; eexists; reflexivity.
      * intros _ e He. discriminate He.
    + destruct P as (C & S & F & W & X). repeat split; try apply C; try exact S.
      * intro Hf. left. exact (F Hf).
      * intros Hw Ho. destruct (W Hw Ho) as [a Ha]. discriminate Ha.
      * intros Hx e0 He0. inversion He0; subst e0. now apply (X Hx).
Qed.

Lemma persist_one_persisted (item : row) (d : BaseDao) (h : history) :
  persisted E d h (fun l' => l' = items d \/ l' = base_dao.merge_row item (items d))
            (persist_one E item d h).
Proof.
  unfold persist_one, try_except, bind at 1.
  pose proof (upsert_one_persisted item d h) as P.
  destruct (base_dao.upsert_one E item d h) as [[r d1] h1].
  destruct r as [o | e].
  - unfold ret. destruct P as (C & S & F & W & X). repeat split; try apply C; try exact S.
    + exact F.
    + intros; eexists; reflexivity.
    + intros _ e He. discriminate He.
  - eapply persisted_after; [exact P | apply save_persisted].
Qed.

End Persistence.

(** ** The legacy member list of a group *)

Lemma lookup_setitem_same (k : string) (v : value) (r : row) :
  lookup k (setitem k v r) = Some v.
Proof.
  induction r as [| [k' v'] r IH]; simpl.
  - now rewrite String.eqb_refl.
  - destruct (String.eqb k' k) eqn:K; simpl; rewrite K; [reflexivity | exact IH].
Qed.

Lemma lookup_setitem_other (k k' : string) (v : value) (r : row) :
  k <> k' -> lookup k' (setitem k v r) = lookup k' r.
Proof.
  intro N. induction r as [| [k0 v0] r IH]; simpl.
  - destruct (String.eqb k k') eqn:K; [apply String.eqb_eq in K; contradiction | reflexivity].
  - destruct (String.eqb k0 k) eqn:K; simpl.
    + apply String.eqb_eq in K. subst k0.
      destruct (String.eqb k k') eqn:K'; [apply String.eqb_eq in K'; contradiction | reflexivity].
    + destruct (String.eqb k0 k'); [reflexivity | exact IH].
Qed.

Lemma get_setitem_same (k : string) (v : value) (r : row) : get (setitem k v r) k = v.
Proof. unfold get. now rewrite lookup_setitem_same. Qed.

Lemma get_setitem_other (k k' : string) (v : value) (r : row) :
  k <> k' -> get (setitem k v r) k' = get r k'.
Proof. intro N. unfold get. now rewrite lookup_setitem_other. Qed.

Lemma accepts_setitem (fields : list string) (k : string) (v : value) (r : row) :
  In k fields -> accepts fields r = true -> accepts fields (setitem k v r) = true.
Proof.
  intros Hk. unfold accepts. induction r as [| [k' v'] r IH]; simpl.
  - intros _. rewrite andb_true_r. apply existsb_exists. exists k. split; [exact Hk |].
    apply String.eqb_refl.
  - intro H. apply andb_true_iff in H as [H1 H2].
    destruct (String.eqb k' k); simpl; rewrite H1; simpl; [exact H2 | now apply IH].
Qed.

Lemma get_set_unless_none_other (k k' : string) (v : value) (r : row) :
  k <> k' -> get (RecipientDao.set_unless_none k v r) k' = get r k'.
Proof.
  intro N. destruct v; simpl; try reflexivity; now apply get_setitem_other.
Qed.

Lemma accepts_set_unless_none (fields : list string) (k : string) (v : value) (r : row) :
  In k fields -> accepts fields r = true ->
  accepts fields (RecipientDao.set_unless_none k v r) = true.
Proof.
  intros Hk H. destruct v; simpl; try exact H; now apply accepts_setitem.
Qed.

Section LegacyList.

Lemma find_by_id_find (group_id : value) (l : list row) :
  RecipientGroupDao.find_by_id group_id l
  = match find (has_id group_id) l with
    | Some g => rbind (RecipientGroupModel.of_row g) (fun m => Ok (Some m))
    | None => Ok None
    end.
Proof.
  unfold RecipientGroupDao.find_by_id, has_id.
  induction l as [| g l IH]; simpl; [reflexivity |].
  destruct (value_eqb (get g "group_id") group_id); [reflexivity | exact IH].
Qed.

Lemma update_by_id_find (group : RecipientGroupModel.t) (l : list row) (g : row) :
  find (has_id (RecipientGroupModel.group_id group)) l = Some g ->
  has_id (RecipientGroupModel.group_id group) (RecipientGroupDao.assign group g) = true ->
  exists l',
    RecipientGroupDao.update_by_id group l = Some (RecipientGroupDao.assign group g, l') /\
    find (has_id (RecipientGroupModel.group_id group)) l' = Some (RecipientGroupDao.assign group g).
Proof.
  intros F P. revert F. unfold has_id in *.
  induction l as [| g0 l IH]; simpl; [discriminate |].
  destruct (value_eqb (get g0 "group_id") (RecipientGroupModel.group_id group)) eqn:V.
  - intro F. inversion F; subst g0. eexists. split; [reflexivity |].
    simpl. now rewrite P.
  - intro F. destruct (IH F) as (l' & U & F'). rewrite U.
    eexists. split; [reflexivity |]. simpl. now rewrite V.
Qed.

Lemma find_replace_first (p : row -> bool) (pk : string) (g : row) (l l' : list row) :
  find p l = Some g -> p g = true ->
  base_dao.replace_first pk g l = Some l' ->
  find p l' = Some g.
Proof.
  intros F P. revert l' F. induction l as [| g0 l IH]; simpl; [discriminate |].
  intros l' F R.
  destruct (value_eqb (get g0 pk) (get g pk)) eqn:V.
  - inversion R; subst l'. simpl. now rewrite P.
  - destruct (base_dao.replace_first pk g l) as [l'' |]; [| discriminate].
    inversion R; subst l'. simpl.
    destruct (p g0) eqn:P0.
    + inversion F; subst g0. rewrite value_eqb_refl in V. discriminate.
    + now apply IH.
Qed.

Lemma find_merge_row (p : row -> bool) (g : row) (l : list row) :
  find p l = Some g -> p g = true -> find p (base_dao.merge_row g l) = Some g.
Proof.
  intros F P. unfold base_dao.merge_row.
  assert (A : find p (l ++ [g]) = Some g).
  { clear P. induction l as [| g0 l IH]; simpl in *; [discriminate |].
    destruct (p g0); [exact F | now apply IH]. }
  destruct (base_dao.guess_pk g) as [pk |]; [| exact A].
  destruct (base_dao.replace_first pk g l) as [l' |] eqn:R; [| exact A].
  now apply (find_replace_first p pk g l l').
Qed.

Lemma has_id_assign (group_id name : value) (l : list Z) (g : row) :
  has_id group_id g = true ->
  has_id group_id
    (RecipientGroupDao.assign (RecipientGroupModel.mk group_id name (VList l)) g) = true.
Proof.
  unfold has_id, RecipientGroupDao.assign. cbn [RecipientGroupModel.group_id
    RecipientGroupModel.name RecipientGroupModel.recipients].
  intro H. rewrite get_set_unless_none_other by discriminate.
  rewrite get_set_unless_none_other by discriminate.
  destruct group_id; simpl; try exact H; rewrite get_setitem_same; apply value_eqb_refl.
Qed.

Lemma of_row_assign (group_id name : value) (l : list Z) (g : row) :
  accepts RecipientGroupModel.fields g = true ->
  exists m,
    RecipientGroupModel.of_row
      (RecipientGroupDao.assign (RecipientGroupModel.mk group_id name (VList l)) g) = Ok m /\
    RecipientGroupModel.recipients m = VList l.
Proof.
  intro A. unfold RecipientGroupModel.of_row, RecipientGroupDao.assign.
  cbn [RecipientGroupModel.group_id RecipientGroupModel.name RecipientGroupModel.recipients].
  rewrite accepts_set_unless_none;
    [| simpl; tauto
     | apply accepts_set_unless_none; [simpl; tauto |];
       apply accepts_set_unless_none; [simpl; tauto | exact A]].
  eexists. split; [reflexivity |].
  cbn [RecipientGroupModel.recipients RecipientDao.set_unless_none].
  apply get_setitem_same.
Qed.

Variable E : Env.
Hypothesis backend : faithful_backend E.
Hypothesis disk : disk_writable E.

Lemma update_found (d : BaseDao) (h : history) (g : row) (group_id name : value) (l : list Z) :
  _remote_only d = false ->
  find (has_id group_id) (items d) = Some g ->
  accepts RecipientGroupModel.fields g = true ->
  exists d' h',
    RecipientGroupDao.update E (RecipientGroupModel.mk group_id name (VList l)) d h
    = (Ok (RecipientGroupModel.mk group_id name (VList l)), d', h') /\
    legacy_list group_id d' = Some l.
Proof.
  intros Ho F A.
  set (group := RecipientGroupModel.mk group_id name (VList l)).
  assert (P : has_id group_id (RecipientGroupDao.assign group g) = true).
  { apply has_id_assign. apply find_some in F. apply F. }
  destruct (update_by_id_find group (items d) g F P) as (l' & U & F').
  unfold RecipientGroupDao.update. unfold bind at 1, gets at 1.
  rewrite U. unfold bind at 1, modify at 1. unfold bind at 1.
  pose proof (persist_one_persisted E (RecipientGroupDao.assign group g) (set_items l' d) h)
    as (C & S & Fb & W & X).
  destruct (persist_one E (RecipientGroupDao.assign group g) (set_items l' d) h)
    as [[r d'] h'].
  unfold state_of, result_of, history_of in *. cbn [fst snd] in *.
  destruct (W disk Ho) as [[] ->]. unfold ret.
  exists d', h'. split; [reflexivity |].
  assert (F'' : find (has_id group_id) (items d') = Some (RecipientGroupDao.assign group g)).
  { destruct (Fb backend) as [-> | ->]; cbn [items set_items set_data].
    - exact F'.
    - now apply find_merge_row. }
  unfold legacy_list. rewrite find_by_id_find. fold (has_id group_id). rewrite F''.
  destruct (of_row_assign group_id name l g A) as (m & Hm & R).
  fold group in Hm. rewrite Hm. simpl. now rewrite R.
Qed.

End LegacyList.

Lemma filter_out_absent (r : Z) (l : list Z) :
  ~ In r l -> filter (fun rid => negb (rid =? r)) l = l.
Proof.
  induction l as [| x l IH]; simpl; [reflexivity |].
  intro N. destruct (x =? r) eqn:X; simpl.
  - apply Z.eqb_eq in X. subst x. exfalso. apply N. now left.
  - rewrite IH; [reflexivity |]. intro H. apply N. now right.
Qed.

Lemma filter_out_shorter (r : Z) (l : list Z) :
  In r l -> (List.length (filter (fun rid => negb (Z.eqb rid r)) l) < List.length l)%nat.
Proof.
  induction l as [| x l IH]; simpl; [contradiction |].
  intros [-> | H].
  - rewrite Z.eqb_refl. simpl.
    pose proof (filter_length_le (fun rid => negb (rid =? r)) l). lia.
  - destruct (x =? r); simpl.
    + pose proof (filter_length_le (fun rid => negb (rid =? r)) l). lia.
    + specialize (IH H). lia.
Qed.

Lemma existsb_eqb_In (r : Z) (l : list Z) : existsb (Z.eqb r) l = true <-> In r l.
Proof.
  rewrite existsb_exists. split.
  - intros (x & Hx & Ex). apply Z.eqb_eq in Ex. now subst.
  - intro H. exists r. split; [exact H | apply Z.eqb_refl].
Qed.

(** C10: for a group held by the Group repository with a legacy member list
    [l], [add_recipient_to_group] appends the recipient once and returns
    [True] when it is not in [l], and returns [False] leaving everything as
    it was when it is; [remove_recipient_from_group] removes every
    occurrence and returns [True] when it is in [l], and returns [False]
    leaving everything as it was when it is not; a list without duplicates
    stays so; both raise [ValueError("Group not found")] when no group has
    the id.  The backend answers an upsert with the rows sent or fails, and
    local snapshots can be written. *)
Theorem C10_legacy_member_list_stays_duplicate_free
        (E : Env) (d : BaseDao) (h : history) (group_id : value) (recipient_id : Z) :
  faithful_backend E ->
  disk_writable E ->
  _remote_only d = false ->
  let added := RecipientGroupDao.add_recipient_to_group E group_id recipient_id d h in
  let removed := RecipientGroupDao.remove_recipient_from_group E group_id recipient_id d h in
  (RecipientGroupDao.find_by_id group_id (items d) = Ok None ->
   added = (Raise (ValueError "Group not found"), d, h) /\
   removed = (Raise (ValueError "Group not found"), d, h)) /\
  (forall g l,
      RecipientGroupDao.find_by_id group_id (items d) = Ok (Some g) ->
      RecipientGroupModel.recipients g = VList l ->
      (In recipient_id l ->
       added = (Ok false, d, h) /\
       result_of removed = Ok true /\
       legacy_list group_id (state_of removed)
       = Some (filter (fun rid => negb (rid =? recipient_id)) l) /\
       ~ In recipient_id (filter (fun rid => negb (rid =? recipient_id)) l) /\
       (NoDup l -> NoDup (filter (fun rid => negb (rid =? recipient_id)) l))) /\
      (~ In recipient_id l ->
       removed = (Ok false, d, h) /\
       result_of added = Ok true /\
       legacy_list group_id (state_of added) = Some (l ++ [recipient_id]) /\
       (NoDup l -> NoDup (l ++ [recipient_id])))).
Proof.
  intros backend disk Ho added removed. split.
  - intro N. subst added removed.
    unfold RecipientGroupDao.add_recipient_to_group,
      RecipientGroupDao.remove_recipient_from_group.
    monad_unfold. now rewrite N.
  - intros g l F R.
    pose proof F as F0. rewrite find_by_id_find in F0.
    destruct (find (has_id group_id) (items d)) as [g0 |] eqn:Fg; [| discriminate].
    assert (A : accepts RecipientGroupModel.fields g0 = true).
    { unfold RecipientGroupModel.of_row in F0.
      destruct (accepts RecipientGroupModel.fields g0); [reflexivity | discriminate]. }
    unfold RecipientGroupModel.of_row in F0. rewrite A in F0. simpl in F0.
    inversion F0 as [G]. clear F0.
    assert (I : get g0 "group_id" = group_id).
    { apply find_some in Fg. apply value_eqb_eq. apply Fg. }
    assert (Gi : RecipientGroupModel.group_id g = group_id) by (now subst g).
    split.
    + intro H. split; [| split; [| split; [| split]]].
      * subst added. unfold RecipientGroupDao.add_recipient_to_group.
        unfold bind at 1, gets at 1. unfold bind at 1, lift at 1. rewrite F.
        unfold bind at 1, lift at 1. rewrite R. cbn [RecipientGroupDao.contains].
        rewrite (proj2 (existsb_eqb_In recipient_id l) H). reflexivity.
      * subst removed. unfold RecipientGroupDao.remove_recipient_from_group.
        unfold bind at 1, gets at 1. unfold bind at 1, lift at 1. rewrite F.
        unfold bind at 1, lift at 1. rewrite R. cbn [RecipientGroupDao.without].
        rewrite (proj2 (Nat.ltb_lt _ _) (filter_out_shorter recipient_id l H)).
        rewrite Gi. unfold bind at 1.
        destruct (update_found E backend disk d h g0 group_id (RecipientGroupModel.name g)
                    (filter (fun rid => negb (rid =? recipient_id)) l) Ho Fg A)
          as (d' & h' & U & L).
        rewrite U. reflexivity.
      * subst removed. unfold RecipientGroupDao.remove_recipient_from_group.
        unfold bind at 1, gets at 1. unfold bind at 1, lift at 1. rewrite F.
        unfold bind at 1, lift at 1. rewrite R. cbn [RecipientGroupDao.without].
        rewrite (proj2 (Nat.ltb_lt _ _) (filter_out_shorter recipient_id l H)).
        rewrite Gi. unfold bind at 1.
        destruct (update_found E backend disk d h g0 group_id (RecipientGroupModel.name g)
                    (filter (fun rid => negb (rid =? recipient_id)) l) Ho Fg A)
          as (d' & h' & U & L).
        rewrite U. exact L.
      * intro C. apply filter_In in C as [_ C]. rewrite Z.eqb_refl in C. discriminate.
      * intro D. now apply NoDup_filter.
    + intro H. split; [| split; [| split]].
      * subst removed. unfold RecipientGroupDao.remove_recipient_from_group.
        unfold bind at 1, gets at 1. unfold bind at 1, lift at 1. rewrite F.
        unfold bind at 1, lift at 1. rewrite R. cbn [RecipientGroupDao.without].
        rewrite (filter_out_absent recipient_id l H). rewrite Nat.ltb_irrefl. reflexivity.
      * subst added. unfold RecipientGroupDao.add_recipient_to_group.
        unfold bind at 1, gets at 1. unfold bind at 1, lift at 1. rewrite F.
        unfold bind at 1, lift at 1. rewrite R. cbn [RecipientGroupDao.contains].
        destruct (existsb (Z.eqb recipient_id) l) eqn:X;
          [apply existsb_eqb_In in X; contradiction |].
        cbn [negb]. rewrite Gi. unfold bind at 1.
        destruct (update_found E backend disk d h g0 group_id (RecipientGroupModel.name g)
                    (l ++ [recipient_id]) Ho Fg A) as (d' & h' & U & L).
        rewrite U. reflexivity.
      * subst added. unfold RecipientGroupDao.add_recipient_to_group.
        unfold bind at 1, gets at 1. unfold bind at 1, lift at 1. rewrite F.
        unfold bind at 1, lift at 1. rewrite R. cbn [RecipientGroupDao.contains].
        destruct (existsb (Z.eqb recipient_id) l) eqn:X;
          [apply existsb_eqb_In in X; contradiction |].
        cbn [negb]. rewrite Gi. unfold bind at 1.
        destruct (update_found E backend disk d h g0 group_id (RecipientGroupModel.name g)
                    (l ++ [recipient_id]) Ho Fg A) as (d' & h' & U & L).
        rewrite U. exact L.
      * intro D. apply NoDup_app; [exact D | repeat constructor; intros [] | ].
        intros x Hx [<- | []]. contradiction.
Qed.

(** The example backend meets what the theorems assume. *)
Lemma echo_faithful (table : list row) : faithful_backend (Examples.echo table).
Proof. intros h t rows. right. now exists 201. Qed.

Lemma echo_single_writer (table : list row) : single_writer (Examples.echo table).
Proof. intros h t rows json. discriminate. Qed.

Lemma echo_disk_writable (table : list row) : disk_writable (Examples.echo table).
Proof. intro h. reflexivity. Qed.


Lemma C10_legacy_member_list_stays_duplicate_free_witness :
  result_of (RecipientGroupDao.add_recipient_to_group (Examples.echo []) (VInt 2) 5
               (Examples.remote_dao "groups" false 3 Examples.two_groups) []) = Ok true /\
  legacy_list (VInt 2)
    (state_of (RecipientGroupDao.add_recipient_to_group (Examples.echo []) (VInt 2) 5
                 (Examples.remote_dao "groups" false 3 Examples.two_groups) []))
  = Some [2; 5].
Proof.
  pose proof (C10_legacy_member_list_stays_duplicate_free (Examples.echo [])
                (Examples.remote_dao "groups" false 3 Examples.two_groups) [] (VInt 2) 5
                (echo_faithful []) (echo_disk_writable []) eq_refl) as [_ H].
  destruct (H (RecipientGroupModel.mk (VInt 2) (VStr "B") (VList [2])) [2] eq_refl eq_refl)
    as [_ N].
  destruct N as (_ & R & L & _).
  - intros [E | []]. discriminate E.
  - split; [exact R | exact L].
Defined.

(** ** Membership pairs *)

(** C4 fails on the code when the repository is remote: with the pair (1, 1)
    held and a backend that answers an upsert with the row it stored, adding
    (1, 2) merges the returned row over the first row of recipient 1, so the
    table holds the pair (1, 2) twice and has lost (1, 1); the second add
    returns [False] and leaves these two rows. *)
Theorem C4_remote_add_leaves_the_pair_twice :
  let E := Examples.echo [] in
  let d := Examples.remote_dao "recipient_group_membership" false 2
             [RecipientGroupMembershipDao.entry (VInt 1) (VInt 1)] in
  let first := RecipientGroupMembershipDao.add_membership E (VInt 1) (VInt 2) d [] in
  let second := RecipientGroupMembershipDao.add_membership E (VInt 1) (VInt 2)
                  (state_of first) (history_of first) in
  result_of first = Ok true /\
  items (state_of first)
  = [RecipientGroupMembershipDao.entry (VInt 1) (VInt 2);
     RecipientGroupMembershipDao.entry (VInt 1) (VInt 2)] /\
  second = (Ok false, state_of first, history_of first) /\
  List.length (filter (pair_is 1 2) (items (state_of second))) = 2%nat.
Proof. vm_compute. repeat split. Qed.

(** ** Adding twice *)

Lemma first_where_none {A : Type} (test : row -> result bool) (build : row -> result A)
      (l : list row) :
  first_where test build l = Ok None -> forall r, In r l -> test r = Ok false.
Proof.
  induction l as [| r0 l IH]; simpl; [contradiction |].
  destruct (test r0) as [[|] | e] eqn:T; simpl; try discriminate.
  - destruct (build r0); discriminate.
  - intros H r [<- | Hr]; [exact T | now apply IH].
Qed.

Lemma first_where_found {A : Type} (test : row -> result bool) (build : row -> result A)
      (item : row) (m : A) (l : list row) :
  test item = Ok true ->
  build item = Ok m ->
  (forall r, In r l -> test r = Ok false \/ r = item) ->
  In item l ->
  first_where test build l = Ok (Some m).
Proof.
  intros T B. induction l as [| r0 l IH]; simpl; [contradiction |].
  intros H I. destruct (H r0 (or_introl eq_refl)) as [F | ->].
  - rewrite F. simpl. apply IH.
    + intros r Hr. apply H. now right.
    + destruct I as [-> | I]; [congruence | exact I].
  - rewrite T. simpl. now rewrite B.
Qed.


Lemma replace_first_rows (pk : string) (item : row) (l l' : list row) :
  base_dao.replace_first pk item l = Some l' ->
  In item l' /\ forall r, In r l' -> In r l \/ r = item.
Proof.
  revert l'. induction l as [| r0 l IH]; simpl; [discriminate |].
  intros l' R. destruct (value_eqb (get r0 pk) (get item pk)).
  - inversion R; subst l'. split; [now left |].
    intros r [<- | Hr]; [now right | left; now right].
  - destruct (base_dao.replace_first pk item l) as [l'' |]; [| discriminate].
    inversion R; subst l'. destruct (IH l'' eq_refl) as [I H]. split; [now right |].
    intros r [<- | Hr]; [left; now left |].
    destruct (H r Hr) as [Hl | ->]; [left; now right | now right].
Qed.

Lemma merge_row_rows (item : row) (l : list row) :
  In item (base_dao.merge_row item l) /\
  forall r, In r (base_dao.merge_row item l) -> In r l \/ r = item.
Proof.
  assert (A : In item (l ++ [item]) /\ forall r, In r (l ++ [item]) -> In r l \/ r = item).
  { split; [apply in_or_app; right; now left |].
    intros r Hr. apply in_app_or in Hr as [Hr | [<- | []]]; [now left | now right]. }
  unfold base_dao.merge_row.
  destruct (base_dao.guess_pk item) as [pk |]; [| exact A].
  destruct (base_dao.replace_first pk item l) as [l' |] eqn:R; [| exact A].
  now apply (replace_first_rows pk item l l').
Qed.

Section AddTwice.
Variable E : Env.
Hypothesis backend : faithful_backend E.
Hypothesis alone : single_writer E.

(** After the new row was appended and persisted, a scan that found nothing
    before finds the new row. *)
Lemma appended_is_found {A : Type} (test : row -> result bool) (build : row -> result A)
      (item : row) (m : A) (l l1 : list row) :
  first_where test build l = Ok None ->
  test item = Ok true ->
  build item = Ok m ->
  l1 = l ++ [item] \/ l1 = base_dao.merge_row item (l ++ [item]) ->
  first_where test build l1 = Ok (Some m).
Proof.
  intros N T B H. pose proof (first_where_none test build l N) as Nl.
  assert (A0 : forall r, In r (l ++ [item]) -> test r = Ok false \/ r = item).
  { intros r Hr. apply in_app_or in Hr as [Hr | [<- | []]]; [left; now apply Nl | now right]. }
  apply (first_where_found test build item m); try assumption.
  - destruct H as [-> | ->]; [exact A0 |].
    intros r Hr. destruct (proj2 (merge_row_rows item (l ++ [item])) r Hr) as [Hl | ->];
      [now apply A0 | now right].
  - destruct H as [-> | ->]; [apply in_or_app; right; now left |].
    apply merge_row_rows.
Qed.










End AddTwice.




(** ** The cascade *)

Lemma swallow_eq {S A : Type} (m : M S A) (s : S) (h : history) :
  swallow m s h = (Ok tt, state_of (m s h), history_of (m s h)).
Proof.
  unfold swallow, try_except, bind, ret, state_of, history_of.
  now destruct (m s h) as [[[a | e] s'] h'].
Qed.

Lemma same_config_refl (d : BaseDao) : same_config d d.
Proof. unfold same_config. tauto. Qed.

Lemma same_config_trans (d d1 d2 : BaseDao) :
  same_config d d1 -> same_config d1 d2 -> same_config d d2.
Proof. unfold same_config. intuition congruence. Qed.

Section Cascade.
Variable E : Env.

Lemma persisted_touched {A : Type} (d : BaseDao) (h : history) (P : list row -> Prop)
      (out : result A * BaseDao * history) :
  persisted E d h P out -> touched E d h P out.
Proof. intros (C & S & F & _). unfold touched. auto. Qed.

Lemma delete_where_touched (keep : row -> result bool) (d : BaseDao) (h : history) :
  touched E d h (fun l' => l' = kept keep (items d)) (delete_where E keep d h).
Proof.
  unfold delete_where, kept. unfold bind at 1, gets at 1. unfold bind at 1, lift at 1.
  destruct (rfilter keep (items d)) as [l' | e] eqn:R.
  - unfold bind at 1, modify at 1.
    destruct (List.length l' <? List.length (items d))%nat.
    + unfold bind.
      pose proof (save_persisted E (set_items l' d) h) as (C & S & F & _).
      destruct (base_dao._save E (set_items l' d) h) as [[r d1] h1].
      assert (T : touched E d h (fun l0 => l0 = l') (r, d1, h1)).
      { repeat split; try apply C; try exact S. exact F. }
      destruct r as [[] | e]; exact T.
    + unfold ret. repeat split.
      * exists []. split; reflexivity.
  - repeat split. exists []. split; reflexivity.
Qed.

Lemma swallow_seq {S A B : Type} (m1 : M S A) (m2 : M S B) (s : S) (h : history) :
  (swallow m1 ;; swallow m2) s h
  = (Ok tt, state_of (m2 (state_of (m1 s h)) (history_of (m1 s h))),
     history_of (m2 (state_of (m1 s h)) (history_of (m1 s h)))).
Proof. unfold bind. rewrite swallow_eq. now rewrite swallow_eq. Qed.

Lemma zoom_state {S T A : Type} (proj : S -> T) (upd : T -> S -> S) (m : M T A)
      (s : S) (h : history) :
  state_of (zoom proj upd m s h) = upd (state_of (m (proj s) h)) s.
Proof. unfold zoom, state_of. now destruct (m (proj s) h) as [[r t] h']. Qed.

Lemma zoom_history {S T A : Type} (proj : S -> T) (upd : T -> S -> S) (m : M T A)
      (s : S) (h : history) :
  history_of (zoom proj upd m s h) = history_of (m (proj s) h).
Proof. unfold zoom, history_of. now destruct (m (proj s) h) as [[r t] h']. Qed.

Lemma zoom_result {S T A : Type} (proj : S -> T) (upd : T -> S -> S) (m : M T A)
      (s : S) (h : history) :
  result_of (zoom proj upd m s h) = result_of (m (proj s) h).
Proof. unfold zoom, result_of. now destruct (m (proj s) h) as [[r t] h']. Qed.

Lemma delete_by_filters_sent {S : Type} (table : S -> string) (filters : row)
      (s : S) (h : history) :
  let m := t <- gets table ;; supabase_client.delete_by_filters E t filters in
  state_of (m s h) = s /\ history_of (m s h) = EDelete (table s) (Some filters) :: h.
Proof.
  unfold supabase_client.delete_by_filters, supabase_client.raise_for_status.
  monad_unfold. unfold state_of, history_of.
  destruct (http E (EDelete (table s) (Some filters) :: h)) as [status_code json |]; simpl;
    [| now split].
  destruct ((400 <=? status_code) && (status_code <? 600)); now split.
Qed.

Lemma remove_member_eq (group_id rid : value) (c : RecipientGroupController) (h : history) :
  let out := RecipientGroupMembershipDao.remove_membership E rid group_id (membership_dao c) h in
  recipient_group_controller.remove_member E group_id rid c h
  = (Ok tt, mkController (recipient_dao c) (group_dao c) (state_of out),
     membership_delete (_table (state_of out)) group_id rid :: history_of out).
Proof.
  intro out. unfold recipient_group_controller.remove_member.
  rewrite swallow_eq, swallow_seq.
  unfold recipient_group_controller.on_membership_dao.
  rewrite zoom_state, zoom_history. fold out.
  destruct (delete_by_filters_sent (fun c0 => _table (membership_dao c0))
              [("recipient_id", rid); ("group_id", group_id)]
              (mkController (recipient_dao c) (group_dao c) (state_of out)) (history_of out))
    as [S H].
  cbv zeta in S, H. rewrite S, H. reflexivity.
Qed.

(** The first loop: it returns, touches the membership table only, sends
    the remote membership delete of every member in turn, and leaves the
    rows its filters leave. *)
Lemma remove_members_loop (group_id : value) (ids : list value) :
  forall (c : RecipientGroupController) (h : history),
  exists m1 sent,
    for_each ids (recipient_group_controller.remove_member E group_id) c h
    = (Ok tt, mkController (recipient_dao c) (group_dao c) m1, sent ++ h) /\
    same_config (membership_dao c) m1 /\
    filter is_delete sent
    = rev (map (membership_delete (_table (membership_dao c)) group_id) ids) /\
    (faithful_backend E ->
     items m1 = fold_left (fun l rid => kept (keep_other_pairs E group_id rid) l) ids
                          (items (membership_dao c))).
Proof.
  induction ids as [| rid ids IH]; intros c h.
  - exists (membership_dao c), []. simpl. unfold ret.
    repeat split; try reflexivity. now destruct c.
  - cbn [for_each]. unfold bind. rewrite remove_member_eq.
    cbv zeta.
    set (out := RecipientGroupMembershipDao.remove_membership E rid group_id
                  (membership_dao c) h).
    assert (T : touched E (membership_dao c) h
                  (fun l' => l' = kept (keep_other_pairs E group_id rid)
                                       (items (membership_dao c))) out)
      by exact (delete_where_touched (keep_other_pairs E group_id rid) (membership_dao c) h).
    destruct T as (C & (s0 & Hs0 & Ns0) & F).
    destruct (IH (mkController (recipient_dao c) (group_dao c) (state_of out))
                 (membership_delete (_table (state_of out)) group_id rid :: history_of out))
      as (m1 & sent & L & C1 & D & F1).
    cbn [recipient_dao group_dao membership_dao] in *.
    exists m1, (sent ++ membership_delete (_table (state_of out)) group_id rid :: s0).
    split; [| split; [| split]].
    + rewrite L. rewrite Hs0. now rewrite <- app_assoc.
    + now apply (same_config_trans _ (state_of out)).
    + rewrite filter_app. cbn [filter membership_delete is_delete]. rewrite Ns0, D.
      cbn [map rev]. destruct C as (_ & _ & _ & _ & T). now rewrite T.
    + intro B. rewrite (F1 B), (F B). reflexivity.
Qed.

Lemma delete_row_state {S : Type} (table : S -> string) (pk_col : string) (pk_val : value)
      (s : S) (h : history) :
  state_of ((t <- gets table ;; supabase_client.delete_row E t pk_col pk_val) s h) = s.
Proof.
  unfold supabase_client.delete_row, supabase_client.raise_for_status.
  monad_unfold. unfold state_of.
  destruct (http E (EDelete (table s) None :: h)) as [st1 j1 |]; simpl; [| reflexivity].
  destruct (http E (EDeleteExpr (table s) pk_col pk_val :: EDelete (table s) None :: h))
    as [st2 j2 |]; simpl; [| reflexivity].
  now destruct ((400 <=? st2) && (st2 <? 600)).
Qed.

Lemma reclaim_orphan_step (group_id rid : value) (c : RecipientGroupController) (h : history) :
  exists r' h',
    recipient_group_controller.reclaim_orphan E group_id rid c h
    = (Ok tt, mkController r' (group_dao c) (membership_dao c), h') /\
    same_config (recipient_dao c) r' /\
    (faithful_backend E ->
     items r' = if is_orphan E group_id rid (items (membership_dao c))
                then kept (keep_other_recipients rid) (items (recipient_dao c))
                else items (recipient_dao c)).
Proof.
  assert (Same : forall h0 : history, exists (r' : BaseDao) (h' : history),
             (@Ok unit tt, c, h0) = (Ok tt, mkController r' (group_dao c) (membership_dao c), h') /\
             same_config (recipient_dao c) r' /\
             (faithful_backend E -> items r' = items (recipient_dao c))).
  { intro h0. exists (recipient_dao c), h0. repeat split. now destruct c. }
  unfold recipient_group_controller.reclaim_orphan, is_orphan. rewrite swallow_eq.
  set (reclaim := swallow (recipient_group_controller.on_recipient_dao (RecipientDao.delete E rid)) ;;
                  swallow (t <- gets (fun c0 : RecipientGroupController => _table (recipient_dao c0)) ;;
                           supabase_client.delete_row E t "recipient_id" rid)).
  match goal with
  | |- context [state_of (?m c h)] =>
      assert (Inner : m c h
                = match RecipientGroupMembershipDao.list_recipient_groups E rid
                          (items (membership_dao c)) with
                  | Ok other_groups =>
                      match recipient_group_controller.only_this_group E group_id other_groups with
                      | Ok true => reclaim c h
                      | Ok false => (Ok tt, c, h)
                      | Raise e => (Raise e, c, h)
                      end
                  | Raise e => (Raise e, c, h)
                  end)
  end.
  { unfold bind at 1, gets at 1. unfold bind at 1, lift at 1.
    destruct (RecipientGroupMembershipDao.list_recipient_groups E rid (items (membership_dao c)))
      as [other_groups | e]; [| reflexivity].
    unfold bind at 1, lift at 1.
    now destruct (recipient_group_controller.only_this_group E group_id other_groups)
      as [[|] | e]. }
  rewrite Inner. clear Inner.
  destruct (RecipientGroupMembershipDao.list_recipient_groups E rid (items (membership_dao c)))
    as [other_groups | e]; [| apply Same].
  destruct (recipient_group_controller.only_this_group E group_id other_groups)
    as [[|] | e]; [| apply Same | apply Same].
  subst reclaim. rewrite swallow_seq. unfold recipient_group_controller.on_recipient_dao.
  rewrite zoom_state, zoom_history.
  set (out := RecipientDao.delete E rid (recipient_dao c) h).
  assert (T : touched E (recipient_dao c) h
                (fun l' => l' = kept (keep_other_recipients rid) (items (recipient_dao c))) out)
    by exact (delete_where_touched (keep_other_recipients rid) (recipient_dao c) h).
  destruct T as (C & _ & F).
  unfold state_of at 1. cbn [fst snd]. rewrite delete_row_state.
  eexists. eexists. split; [reflexivity |]. cbn [group_dao membership_dao]. split; [exact C |].
  exact F.
Qed.

(** The second loop: it returns, touches the recipient table only, and
    leaves the rows its filters leave; the membership rows it tests are the
    ones it started with. *)
Lemma reclaim_orphans_loop (group_id : value) (ids : list value) :
  forall (c : RecipientGroupController) (h : history),
  exists r2 h2,
    for_each ids (recipient_group_controller.reclaim_orphan E group_id) c h
    = (Ok tt, mkController r2 (group_dao c) (membership_dao c), h2) /\
    same_config (recipient_dao c) r2 /\
    (faithful_backend E ->
     items r2 = fold_left (fun l rid =>
                             if is_orphan E group_id rid (items (membership_dao c))
                             then kept (keep_other_recipients rid) l else l)
                          ids (items (recipient_dao c))).
Proof.
  induction ids as [| rid ids IH]; intros c h.
  - exists (recipient_dao c), h. simpl. unfold ret. repeat split. now destruct c.
  - cbn [for_each]. unfold bind.
    destruct (reclaim_orphan_step group_id rid c h) as (r' & h' & R & C & F).
    rewrite R.
    destruct (IH (mkController r' (group_dao c) (membership_dao c)) h')
      as (r2 & h2 & L & C2 & F2).
    cbn [recipient_dao group_dao membership_dao] in *.
    exists r2, h2. split; [exact L | split].
    + now apply (same_config_trans _ r').
    + intro B. rewrite (F2 B), (F B). reflexivity.
Qed.

Lemma member_ids_pure (group_id : value) (c : RecipientGroupController) (h : history) :
  state_of (recipient_group_controller.member_ids E group_id c h) = c /\
  history_of (recipient_group_controller.member_ids E group_id c h) = h.
Proof.
  unfold recipient_group_controller.member_ids. monad_unfold. unfold state_of, history_of.
  destruct (RecipientGroupMembershipDao.list_group_members E group_id (items (membership_dao c)));
    simpl; [now split |].
  destruct (RecipientDao.list_all (items (recipient_dao c))); simpl; now split.
Qed.





End Cascade.


(** ** Orphan reclamation on well-formed tables *)

Lemma rfilter_ok {A : Type} (keep : A -> result bool) (p : A -> bool) (l : list A) :
  (forall x, In x l -> keep x = Ok (p x)) -> rfilter keep l = Ok (filter p l).
Proof.
  induction l as [| x l IH]; intro H; simpl; [reflexivity |].
  rewrite (H x (or_introl eq_refl)). simpl.
  rewrite IH by (intros y Hy; apply H; now right). simpl. now destruct (p x).
Qed.

Lemma filter_filter {A : Type} (p q : A -> bool) (l : list A) :
  filter q (filter p l) = filter (fun x => p x && q x) l.
Proof.
  induction l as [| x l IH]; simpl; [reflexivity |].
  destruct (p x); simpl; [destruct (q x); now rewrite IH | exact IH].
Qed.

Lemma forallb_filter {A : Type} (w p : A -> bool) (l : list A) :
  forallb w l = true -> forallb w (filter p l) = true.
Proof.
  rewrite !forallb_forall. intros H x Hx. apply filter_In in Hx. now apply H.
Qed.

Section Reclamation.
Variable E : Env.

Lemma int_or_0_int (z : Z) : base_dao.int_or_0 E (VInt z) = Ok z.
Proof.
  unfold base_dao.int_or_0. simpl. destruct (z =? 0) eqn:Z0; simpl; [| reflexivity].
  apply Z.eqb_eq in Z0. now subst.
Qed.

Lemma membership_row_ints (it : row) :
  membership_row it = true ->
  exists x y, get it "recipient_id" = VInt x /\ get it "group_id" = VInt y.
Proof.
  unfold membership_row.
  destruct (get it "recipient_id") as [| x | |]; try discriminate.
  destruct (get it "group_id") as [| y | |]; try discriminate. eauto.
Qed.

Lemma is_pair_wf (z g : Z) (it : row) :
  membership_row it = true ->
  RecipientGroupMembershipDao.is_pair E (VInt z) (VInt g) it = Ok (pair_is z g it).
Proof.
  intro W. destruct (membership_row_ints it W) as (x & y & X & Y).
  unfold RecipientGroupMembershipDao.is_pair, RecipientGroupMembershipDao.column_is, pair_is.
  rewrite X, Y, !int_or_0_int. simpl. now destruct (x =? z).
Qed.

Lemma kept_pairs_wf (z g : Z) (l : list row) :
  forallb membership_row l = true ->
  kept (keep_other_pairs E (VInt g) (VInt z)) l = filter (fun it => negb (pair_is z g it)) l.
Proof.
  intro W. unfold kept.
  rewrite (rfilter_ok _ (fun it => negb (pair_is z g it))); [reflexivity |].
  intros it Hit. unfold keep_other_pairs. rewrite is_pair_wf; [reflexivity |].
  rewrite forallb_forall in W. now apply W.
Qed.

Lemma list_group_members_wf (g : Z) (l : list row) :
  forallb membership_row l = true ->
  RecipientGroupMembershipDao.list_group_members E (VInt g) l = Ok (members_of g l).
Proof.
  induction l as [| it l IH]; simpl; [reflexivity |].
  intro W. apply andb_true_iff in W as [Wi Wl].
  destruct (membership_row_ints it Wi) as (x & y & X & Y).
  unfold RecipientGroupMembershipDao.column_is, in_group.
  rewrite X, Y, int_or_0_int. simpl. rewrite (IH Wl).
  destruct (y =? g); simpl; reflexivity.
Qed.

Lemma list_recipient_groups_wf (z : Z) (l : list row) :
  forallb membership_row l = true ->
  RecipientGroupMembershipDao.list_recipient_groups E (VInt z) l = Ok (groups_of z l).
Proof.
  induction l as [| it l IH]; simpl; [reflexivity |].
  intro W. apply andb_true_iff in W as [Wi Wl].
  destruct (membership_row_ints it Wi) as (x & y & X & Y).
  unfold RecipientGroupMembershipDao.column_is.
  rewrite X, Y, int_or_0_int. simpl. rewrite (IH Wl).
  destruct (x =? z); simpl; reflexivity.
Qed.

(** The first loop on well-formed rows: what is left is the rows that are
    not a pair of one of the ids with the group. *)
Lemma remove_pairs_fold (g : Z) (zs : list Z) :
  forall l,
    forallb membership_row l = true ->
    fold_left (fun l rid => kept (keep_other_pairs E (VInt g) rid) l) (map VInt zs) l
    = filter (fun it => negb (existsb (fun z => pair_is z g it) zs)) l.
Proof.
  induction zs as [| z zs IH]; intros l W; simpl.
  - clear W. induction l as [| it l IHl]; simpl; [reflexivity | now rewrite <- IHl].
  - rewrite kept_pairs_wf by exact W.
    rewrite IH by (now apply forallb_filter).
    rewrite filter_filter. apply filter_ext. intro it. now rewrite negb_orb.
Qed.

Lemma members_of_In (g z : Z) (l : list row) :
  In z (members_of g l) <-> exists it, In it l /\ pair_is z g it = true.
Proof.
  unfold members_of, pair_is, in_group. rewrite in_flat_map. split.
  - intros (it & Hit & Hz). exists it. split; [exact Hit |].
    destruct (value_eqb (get it "group_id") (VInt g)); [| contradiction].
    destruct (get it "recipient_id") as [| x | |]; try contradiction.
    destruct Hz as [<- | []]. simpl. now rewrite Z.eqb_refl.
  - intros (it & Hit & P). exists it. split; [exact Hit |].
    apply andb_true_iff in P as [P1 P2]. rewrite P2.
    apply value_eqb_eq in P1. rewrite P1. now left.
Qed.

Lemma removed_pairs_are_the_group (g : Z) (l : list row) :
  forallb membership_row l = true ->
  filter (fun it => negb (existsb (fun z => pair_is z g it) (members_of g l))) l
  = filter (fun it => negb (in_group g it)) l.
Proof.
  intro W. apply filter_ext_in. intros it Hit. f_equal.
  destruct (in_group g it) eqn:G.
  - rewrite forallb_forall in W.
    destruct (membership_row_ints it (W it Hit)) as (x & y & X & Y).
    apply existsb_exists. exists x. split.
    + apply members_of_In. exists it. split; [exact Hit |].
      unfold pair_is. rewrite X. simpl. rewrite Z.eqb_refl. exact G.
    + unfold pair_is. rewrite X. simpl. rewrite Z.eqb_refl. exact G.
  - destruct (existsb (fun z => pair_is z g it) (members_of g l)) eqn:X; [| reflexivity].
    apply existsb_exists in X as (z & _ & P). unfold pair_is in P.
    apply andb_true_iff in P as [_ P]. unfold in_group in G. congruence.
Qed.

Lemma groups_of_In (z y : Z) (l : list row) :
  In y (groups_of z l) <-> exists it, In it l /\ pair_is z y it = true.
Proof.
  unfold groups_of, pair_is. rewrite in_flat_map. split.
  - intros (it & Hit & Hy). exists it. split; [exact Hit |].
    destruct (value_eqb (get it "recipient_id") (VInt z)); [| contradiction].
    destruct (get it "group_id") as [| x | |]; try contradiction.
    destruct Hy as [<- | []]. simpl. apply Z.eqb_refl.
  - intros (it & Hit & P). exists it. split; [exact Hit |].
    apply andb_true_iff in P as [P1 P2]. rewrite P1.
    apply value_eqb_eq in P2. rewrite P2. now left.
Qed.

(** The test of the second loop, once the rows of the group are gone: the
    member is an orphan when each of its membership rows was in the group. *)
Lemma is_orphan_wf (g z : Z) (ms : list row) :
  forallb membership_row ms = true ->
  is_orphan E (VInt g) (VInt z) (filter (fun it => negb (in_group g it)) ms)
  = forallb (fun it => negb (value_eqb (get it "recipient_id") (VInt z)) || in_group g it) ms.
Proof.
  intro W. unfold is_orphan.
  rewrite list_recipient_groups_wf by (now apply forallb_filter).
  pose proof (groups_of_In z) as G.
  set (ms1 := filter (fun it => negb (in_group g it)) ms) in *.
  destruct (groups_of z ms1) as [| y og] eqn:Og.
  - simpl. symmetry. apply forallb_forall. intros it Hit.
    destruct (value_eqb (get it "recipient_id") (VInt z)) eqn:R; [| reflexivity].
    destruct (in_group g it) eqn:I; [reflexivity |]. exfalso.
    rewrite forallb_forall in W.
    destruct (membership_row_ints it (W it Hit)) as (x & y & X & Y).
    assert (Hy : In y (groups_of z ms1)).
    { apply G. exists it. split.
      - apply filter_In. split; [exact Hit | now rewrite I].
      - unfold pair_is. rewrite R, Y. simpl. apply Z.eqb_refl. }
    rewrite Og in Hy. contradiction.
  - assert (Hy : In y (groups_of z ms1)) by (rewrite Og; now left).
    apply G in Hy as (it & Hit & P).
    apply filter_In in Hit as [Hit I]. apply negb_true_iff in I.
    unfold pair_is in P. apply andb_true_iff in P as [P1 P2].
    assert (Ny : (y =? g) = false).
    { apply value_eqb_eq in P2. unfold in_group in I. rewrite P2 in I. exact I. }
    unfold recipient_group_controller.only_this_group. cbn [base_dao.py_int rbind forallb].
    rewrite Ny. cbn [andb].
    symmetry.
    destruct (forallb (fun it0 => negb (value_eqb (get it0 "recipient_id") (VInt z))
                                  || in_group g it0) ms) eqn:F; [| reflexivity].
    rewrite forallb_forall in F. specialize (F it Hit). rewrite P1, I in F. discriminate F.
Qed.

Lemma kept_recipients_keyed (rid : value) (l : list row) :
  forallb (has_key "recipient_id") l = true ->
  kept (keep_other_recipients rid) l
  = filter (fun r => negb (value_eqb (get r "recipient_id") rid)) l.
Proof.
  intro K. unfold kept.
  rewrite (rfilter_ok _ (fun r => negb (value_eqb (get r "recipient_id") rid)));
    [reflexivity |].
  intros r Hr. rewrite forallb_forall in K. specialize (K r Hr).
  unfold keep_other_recipients, getitem, get, has_key in *.
  now destruct (lookup "recipient_id" r).
Qed.

(** The second loop on rows that all carry an id: what is left is the rows
    of no orphan among the ids. *)
Lemma reclaim_fold (orphan : value -> bool) (zs : list Z) :
  forall l,
    forallb (has_key "recipient_id") l = true ->
    fold_left (fun l rid => if orphan rid then kept (keep_other_recipients rid) l else l)
              (map VInt zs) l
    = filter (fun r => negb (existsb (fun z => orphan (VInt z) &&
                                               value_eqb (get r "recipient_id") (VInt z)) zs)) l.
Proof.
  induction zs as [| z zs IH]; intros l K; simpl.
  - clear K. induction l as [| r l IHl]; simpl; [reflexivity | now rewrite <- IHl].
  - destruct (orphan (VInt z)); simpl.
    + rewrite kept_recipients_keyed by exact K.
      rewrite IH by (now apply forallb_filter).
      rewrite filter_filter. apply filter_ext. intro r. now rewrite negb_orb.
    + now apply IH.
Qed.

Lemma reclaimed_is_only_in_group (g : Z) (ms : list row) (r : row) :
  forallb membership_row ms = true ->
  existsb (fun z =>
             forallb (fun it => negb (value_eqb (get it "recipient_id") (VInt z))
                                || in_group g it) ms &&
             value_eqb (get r "recipient_id") (VInt z)) (members_of g ms)
  = only_in_group g ms r.
Proof.
  intro W. unfold only_in_group, membership_of. apply eq_true_iff_eq. split.
  - intro H. apply existsb_exists in H as (z & Hz & H).
    apply andb_true_iff in H as [F R]. apply value_eqb_eq in R. rewrite R.
    apply andb_true_iff. split; [| exact F].
    apply members_of_In in Hz as (it & Hit & P).
    apply existsb_exists. exists it. split; [exact Hit |].
    unfold pair_is, in_group in *. exact P.
  - intro H. apply andb_true_iff in H as [X F].
    apply existsb_exists in X as (it & Hit & P).
    apply andb_true_iff in P as [P1 P2].
    rewrite forallb_forall in W.
    destruct (membership_row_ints it (W it Hit)) as (x & y & Hx & Hy).
    rewrite Hx in P1. apply value_eqb_eq in P1.
    apply existsb_exists. exists x. split.
    + apply members_of_In. exists it. split; [exact Hit |].
      unfold pair_is. rewrite Hx. simpl. rewrite Z.eqb_refl. exact P2.
    + rewrite <- P1 in F. rewrite F. rewrite <- P1. simpl. apply Z.eqb_refl.
Qed.
End Reclamation.

(** ** Group deletion on well-formed tables *)

Lemma existsb_ext {A : Type} (f f' : A -> bool) (l : list A) :
  (forall x, f x = f' x) -> existsb f l = existsb f' l.
Proof. intro H. induction l as [| x l IH]; simpl; [reflexivity | now rewrite H, IH]. Qed.

Lemma filter_split_length {A : Type} (p : A -> bool) (l : list A) :
  (List.length (filter (fun x => negb (p x)) l) + List.length (filter p l)
   = List.length l)%nat.
Proof.
  induction l as [| x l IH]; simpl; [reflexivity |].
  destruct (p x); simpl; lia.
Qed.

Section GroupDeletion.
Variable E : Env.

Lemma delete_record_others (group_id : value) (c : RecipientGroupController) (h : history) :
  recipient_dao (state_of (recipient_group_controller.delete_record E group_id c h))
  = recipient_dao c /\
  membership_dao (state_of (recipient_group_controller.delete_record E group_id c h))
  = membership_dao c.
Proof.
  assert (Eq : state_of (recipient_group_controller.delete_record E group_id c h)
               = mkController (recipient_dao c)
                   (state_of (RecipientGroupDao.delete E group_id (group_dao c) h))
                   (membership_dao c)).
  { unfold recipient_group_controller.delete_record.
    unfold bind at 1. unfold recipient_group_controller.on_group_dao, zoom.
    destruct (RecipientGroupDao.delete E group_id (group_dao c) h) as [[[deleted | e] g'] h'];
      [| reflexivity].
    unfold bind at 1. rewrite swallow_eq. rewrite delete_row_state. reflexivity. }
  rewrite Eq. now split.
Qed.

(** The tables [delete_group] leaves, when the backend is faithful: the
    membership rows its first loop leaves, and the recipient rows its second
    loop leaves, tested against those membership rows. *)
Lemma delete_group_tables (group_id : value) (ids : list value)
      (c : RecipientGroupController) (h : history) :
  faithful_backend E ->
  result_of (recipient_group_controller.member_ids E group_id c h) = Ok ids ->
  let c' := state_of (recipient_group_controller.delete_group E group_id c h) in
  let ms1 := fold_left (fun l rid => kept (keep_other_pairs E group_id rid) l) ids
                       (items (membership_dao c)) in
  items (membership_dao c') = ms1 /\
  items (recipient_dao c')
  = fold_left (fun l rid => if is_orphan E group_id rid ms1
                            then kept (keep_other_recipients rid) l else l)
              ids (items (recipient_dao c)).
Proof.
  intros B Hm.
  destruct (member_ids_pure E group_id c h) as [Ms Mh].
  destruct (recipient_group_controller.member_ids E group_id c h) as [[rm cm] hm] eqn:Em.
  unfold result_of, state_of, history_of in Hm, Ms, Mh. cbn [fst snd] in Hm, Ms, Mh.
  subst rm cm hm.
  destruct (remove_members_loop E group_id ids c h) as (m1 & sent & L1 & _ & _ & F1).
  destruct (reclaim_orphans_loop E group_id ids
              (mkController (recipient_dao c) (group_dao c) m1) (sent ++ h))
    as (r2 & h2 & L2 & _ & F2).
  cbn [recipient_dao group_dao membership_dao] in L2, F2.
  destruct (delete_record_others group_id (mkController r2 (group_dao c) m1) h2) as [Or Om].
  cbn [recipient_dao membership_dao] in Or, Om.
  assert (Dg : state_of (recipient_group_controller.delete_group E group_id c h)
               = state_of (recipient_group_controller.delete_record E group_id
                             (mkController r2 (group_dao c) m1) h2)).
  { unfold recipient_group_controller.delete_group, recipient_group_controller.cleanup.
    unfold try_except, bind. rewrite Em, L1, L2. unfold raise.
    now destruct (recipient_group_controller.delete_record E group_id
                    (mkController r2 (group_dao c) m1) h2) as [[[deleted | e] c3] h3]. }
  cbv zeta. rewrite Dg, Or, Om. rewrite (F2 B), (F1 B). now split.
Qed.

End GroupDeletion.

(** C1: when the backend is faithful (an upsert answers with the rows sent,
    or fails), the membership rows hold integers and every recipient row
    carries an id, [delete_group] leaves no membership row of the group and
    keeps the others; it removes from the Recipient repository exactly the
    recipients that were members of the group and of no other group, and
    keeps every other recipient, members of another group among them; so
    the recipients decrease by the number of those removed, and the
    membership rows by the number of rows of the group. *)
Theorem C1_delete_group_reclaims_orphans
        (E : Env) (c : RecipientGroupController) (h : history) (g : Z) :
  faithful_backend E ->
  forallb membership_row (items (membership_dao c)) = true ->
  forallb (has_key "recipient_id") (items (recipient_dao c)) = true ->
  let ms := items (membership_dao c) in
  let rs := items (recipient_dao c) in
  let c' := state_of (recipient_group_controller.delete_group E (VInt g) c h) in
  result_of (recipient_group_controller.member_ids E (VInt g) c h)
  = Ok (map VInt (members_of g ms)) /\
  items (membership_dao c') = filter (fun it => negb (in_group g it)) ms /\
  items (recipient_dao c') = filter (fun r => negb (only_in_group g ms r)) rs /\
  (forall r, In r rs -> only_in_group g ms r = true -> ~ In r (items (recipient_dao c'))) /\
  (forall r, In r rs -> only_in_group g ms r = false -> In r (items (recipient_dao c'))) /\
  (List.length (items (recipient_dao c')) + List.length (filter (only_in_group g ms) rs)
   = List.length rs)%nat /\
  (List.length (items (membership_dao c')) + List.length (filter (in_group g) ms)
   = List.length ms)%nat.
Proof.
  intros B W K ms rs c'.
  assert (Hm : result_of (recipient_group_controller.member_ids E (VInt g) c h)
               = Ok (map VInt (members_of g ms))).
  { unfold recipient_group_controller.member_ids. monad_unfold. fold ms.
    now rewrite (list_group_members_wf E g ms W). }
  destruct (delete_group_tables E (VInt g) (map VInt (members_of g ms)) c h B Hm) as [Tm Tr].
  fold c' ms rs in Tm, Tr.
  rewrite (remove_pairs_fold E g (members_of g ms) ms W) in Tm, Tr.
  rewrite (removed_pairs_are_the_group g ms W) in Tm, Tr.
  assert (Tr' : items (recipient_dao c') = filter (fun r => negb (only_in_group g ms r)) rs).
  { rewrite Tr.
    rewrite (reclaim_fold (fun rid => is_orphan E (VInt g) rid
                                        (filter (fun it => negb (in_group g it)) ms))
               (members_of g ms) rs K).
    apply filter_ext. intro r. f_equal.
    rewrite <- (reclaimed_is_only_in_group g ms r W).
    apply existsb_ext. intro z. now rewrite (is_orphan_wf E g z ms W). }
  split; [exact Hm | split; [exact Tm | split; [exact Tr' |]]].
  rewrite Tr', Tm. split; [| split; [| split]].
  - intros r _ O Hr. apply filter_In in Hr as [_ Hr]. rewrite O in Hr. discriminate Hr.
  - intros r Hr O. apply filter_In. split; [exact Hr | now rewrite O].
  - apply filter_split_length.
  - apply filter_split_length.
Qed.

Lemma C1_delete_group_reclaims_orphans_witness :
  items (recipient_dao
           (state_of (recipient_group_controller.delete_group (Examples.echo []) (VInt 1)
                        Examples.controller [])))
  = filter (fun r => negb (only_in_group 1 Examples.memberships r)) Examples.three_recipients /\
  items (membership_dao
           (state_of (recipient_group_controller.delete_group (Examples.echo []) (VInt 1)
                        Examples.controller [])))
  = filter (fun it => negb (in_group 1 it)) Examples.memberships.
Proof.
  pose proof (C1_delete_group_reclaims_orphans (Examples.echo []) Examples.controller [] 1
                (echo_faithful []) eq_refl eq_refl) as (_ & Tm & Tr & _).
  split; [exact Tr | exact Tm].
Defined.



(** ** Membership pairs in a local repository *)

Section LocalMembership.
Variable E : Env.

Lemma has_pair_wf (r g : Z) (l : list row) :
  forallb membership_row l = true ->
  RecipientGroupMembershipDao.has_pair E (VInt r) (VInt g) l = Ok (existsb (pair_is r g) l).
Proof.
  induction l as [| it l IH]; simpl; [reflexivity |].
  intro W. apply andb_true_iff in W as [Wi Wl].
  rewrite (is_pair_wf E r g it Wi). simpl.
  destruct (pair_is r g it); [reflexivity | now apply IH].
Qed.

Lemma persist_one_local (item : row) (d : BaseDao) (h : history) :
  disk_writable E ->
  _remote d = false ->
  persist_one E item d h
  = (Ok tt, d, ESaveJson (path d) (data_name d) (next_id d) (items d) :: h).
Proof.
  intros Dw Hr. unfold persist_one, base_dao.upsert_one.
  unfold try_except, bind, gets. rewrite Hr. cbn [negb].
  unfold base_dao._save. unfold try_except, bind, gets. rewrite Hr.
  rewrite save_local_eq. rewrite Dw. reflexivity.
Qed.

(** Where the membership table is local, C4 holds: the first add of a pair
    that is not there appends one row, and the second add returns [False]
    and changes nothing. *)
Lemma add_membership_twice_local (d : BaseDao) (h : history) (r g : Z) :
  disk_writable E ->
  _remote d = false ->
  forallb membership_row (items d) = true ->
  existsb (pair_is r g) (items d) = false ->
  let first := RecipientGroupMembershipDao.add_membership E (VInt r) (VInt g) d h in
  result_of first = Ok true /\
  items (state_of first) = items d ++ [RecipientGroupMembershipDao.entry (VInt r) (VInt g)] /\
  RecipientGroupMembershipDao.add_membership E (VInt r) (VInt g) (state_of first)
    (history_of first)
  = (Ok false, state_of first, history_of first) /\
  List.length (filter (pair_is r g) (items (state_of first))) = 1%nat.
Proof.
  intros Dw Hr W N first.
  assert (F : first
              = (Ok true,
                 set_data (next_id d + 1)
                   (items d ++ [RecipientGroupMembershipDao.entry (VInt r) (VInt g)]) d,
                 ESaveJson (path d) (data_name d) (next_id d + 1)
                   (items d ++ [RecipientGroupMembershipDao.entry (VInt r) (VInt g)]) :: h)).
  { subst first. unfold RecipientGroupMembershipDao.add_membership.
    unfold bind at 1, gets at 1. unfold bind at 1, lift at 1.
    rewrite (has_pair_wf r g (items d) W), N.
    unfold bind at 1, gets at 1. unfold bind at 1, modify at 1.
    unfold bind at 1, modify at 1. unfold bind at 1.
    rewrite persist_one_local by (assumption || exact Hr). reflexivity. }
  rewrite F. unfold result_of, state_of, history_of. cbn [fst snd items set_data].
  assert (P : pair_is r g (RecipientGroupMembershipDao.entry (VInt r) (VInt g)) = true).
  { unfold pair_is. simpl. now rewrite !Z.eqb_refl. }
  assert (W' : forallb membership_row
                 (items d ++ [RecipientGroupMembershipDao.entry (VInt r) (VInt g)]) = true).
  { rewrite forallb_app, W. reflexivity. }
  split; [reflexivity | split; [reflexivity | split]].
  - unfold RecipientGroupMembershipDao.add_membership.
    unfold bind at 1, gets at 1. unfold bind at 1, lift at 1. cbn [items set_data].
    rewrite (has_pair_wf r g _ W'), existsb_app. simpl. rewrite P, orb_true_r. reflexivity.
  - rewrite filter_app. simpl. rewrite P. rewrite length_app. simpl.
    assert (Z0 : filter (pair_is r g) (items d) = []).
    { clear - N. induction (items d) as [| it l IH]; simpl in *; [reflexivity |].
      apply orb_false_iff in N as [N1 N2]. rewrite N1. now apply IH. }
    now rewrite Z0.
Qed.

End LocalMembership.

(** * The rest of the store *)

(** ** The endpoint and the saved configuration *)

Lemma endswith_cons (c : ascii) (s suffix : string) :
  (String.length suffix <= String.length s)%nat ->
  endswith (String c s) suffix = endswith s suffix.
Proof.
  intro L. unfold endswith. cbn [String.length].
  replace (S (String.length s) - String.length suffix)%nat
    with (S (String.length s - String.length suffix)) by lia.
  cbn [substring].
  replace (String.length suffix <=? S (String.length s))%nat with true
    by (symmetry; apply Nat.leb_le; lia).
  replace (String.length suffix <=? String.length s)%nat with true
    by (symmetry; apply Nat.leb_le; lia).
  reflexivity.
Qed.

Lemma rstrip_slash_no_slash (s : string) : endswith (rstrip_slash s) "/" = false.
Proof.
  induction s as [| c s IH]; [reflexivity |].
  cbn [rstrip_slash]. destruct (rstrip_slash s) as [| a t] eqn:R.
  - destruct (Ascii.eqb c "/") eqn:C; [reflexivity |].
    unfold endswith. cbn. destruct (Ascii.eqb_spec c "/"%char); [discriminate |].
    destruct (String.eqb_spec (String c "") "/"); [| reflexivity].
    congruence.
  - rewrite endswith_cons; [exact IH |]. cbn. lia.
Qed.

Lemma rstrip_slash_slashes (s : string) : exists n, s = (rstrip_slash s ++ slashes n)%string.
Proof.
  induction s as [| c s (n & IH)]; [exists O; reflexivity |].
  cbn [rstrip_slash]. destruct (rstrip_slash s) as [| a t] eqn:R.
  - destruct (Ascii.eqb_spec c "/"%char) as [-> | N].
    + exists (S n). cbn. now rewrite IH at 1.
    + exists n. cbn. now rewrite IH at 1.
  - exists n. cbn. now rewrite IH at 1.
Qed.

(** X1: whatever the configuration, the endpoint [_base_url] computes does
    not end in a slash, and it is the resolved address with nothing but
    trailing slashes taken off. *)
Theorem X1_base_url_drops_the_trailing_slashes (c : supabase_client.config_state) :
  endswith (supabase_client._base_url c) "/" = false /\
  exists n, supabase_client.resolve c "SUPABASE_URL" "url"
            = (supabase_client._base_url c ++ slashes n)%string.
Proof.
  unfold supabase_client._base_url. split.
  - apply rstrip_slash_no_slash.
  - apply rstrip_slash_slashes.
Qed.

Section SavedConfiguration.
Import supabase_client config_supabase.

Lemma sget_sset_same (k v : string) (d : sdict) : sget k (sset k v d) = Some v.
Proof.
  induction d as [| [k' v'] d IH]; cbn.
  - now rewrite String.eqb_refl.
  - destruct (String.eqb k' k) eqn:K; cbn; rewrite K; [reflexivity | exact IH].
Qed.

Lemma sget_sset_other (k k' v : string) (d : sdict) :
  k <> k' -> sget k' (sset k v d) = sget k' d.
Proof.
  intro N. induction d as [| [k0 v0] d IH]; cbn.
  - destruct (String.eqb_spec k k'); [contradiction | reflexivity].
  - destruct (String.eqb_spec k0 k) as [-> | N0]; cbn.
    + destruct (String.eqb_spec k k'); [contradiction | reflexivity].
    + destruct (String.eqb k0 k'); [reflexivity | exact IH].
Qed.

Lemma sget_spop_same (k : string) (d : sdict) : sget k (spop k d) = None.
Proof.
  unfold spop. induction d as [| [k' v'] d IH]; cbn; [reflexivity |].
  destruct (String.eqb k' k) eqn:K; cbn; [exact IH |]. now rewrite K.
Qed.

Lemma sget_spop_other (k k' : string) (d : sdict) :
  k <> k' -> sget k' (spop k d) = sget k' d.
Proof.
  intro N. unfold spop. induction d as [| [k0 v0] d IH]; cbn; [reflexivity |].
  destruct (String.eqb_spec k0 k) as [-> | N0]; cbn.
  - destruct (String.eqb_spec k k'); [contradiction | exact IH].
  - destruct (String.eqb k0 k'); [reflexivity | exact IH].
Qed.

Lemma config_names_differ : CONFIG_URL_NAME <> CONFIG_KEY_NAME.
Proof. discriminate. Qed.

(** X2: as [load_config] is written, the dict it returns never holds
    [SUPABASE_URL] or [SUPABASE_KEY]: whatever the environment and the saved
    file, [BaseDao] finds the saved configuration disabled, and the endpoint
    and the key are the ones resolved without a saved configuration. *)
Theorem X2_saved_configuration_is_never_used (st : sdict) (f : files) :
  let c := seen st f in
  cfg_enabled_of c = false /\
  _base_url c = _base_url (mkConfig (Ok None) st (environ c)) /\
  api_key c = api_key (mkConfig (Ok None) st (environ c)).
Proof.
  intro c.
  assert (U : from_cfg c "SUPABASE_URL" = None)
    by (apply load_config_provides_nothing; now left).
  assert (K : from_cfg c "SUPABASE_KEY" = None)
    by (apply load_config_provides_nothing; now right).
  split; [| split].
  - unfold cfg_enabled_of, c, seen, load_config. cbn [cfg].
    destruct (provided (sget CONFIG_URL_NAME (os_environ f))
              && provided (sget CONFIG_KEY_NAME (os_environ f))); [reflexivity |].
    destruct (nonempty (supabase_json f)) as [data |]; [| reflexivity].
    destruct (provided (sget CONFIG_URL_NAME data) && provided (sget CONFIG_KEY_NAME data));
      reflexivity.
  - unfold _base_url, resolve. rewrite U. reflexivity.
  - unfold api_key, resolve. rewrite K. reflexivity.
Qed.

(** X3: [save_config] followed by [load_config] gives back the two values
    when both are non-empty and nothing when one is empty; after
    [clear_config] nothing is loaded when the file could be removed, and the
    saved values are loaded again when it could not. *)
Theorem X3_save_load_clear_configuration (url key : string) (removed : bool) (f : files) :
  let saved := if provided (Some url) && provided (Some key)
               then Some [(CONFIG_URL_NAME, url); (CONFIG_KEY_NAME, key)]
               else None in
  let f1 := snd (save_config true url key f) in
  let f2 := clear_config removed f1 in
  load_config (os_environ f1) (nonempty (supabase_json f1)) = saved /\
  load_config (os_environ f2) (nonempty (supabase_json f2))
  = if removed then None else saved.
Proof.
  pose proof config_names_differ as N.
  assert (N' : CONFIG_KEY_NAME <> CONFIG_URL_NAME) by congruence.
  cbn zeta. unfold save_config, clear_config, load_config.
  cbn [snd os_environ supabase_json nonempty].
  rewrite sget_sset_same, (sget_sset_other _ _ _ _ N'), sget_sset_same.
  rewrite sget_spop_same, (sget_spop_other _ _ _ N'), sget_spop_same.
  cbn [provided andb text].
  assert (Su : sget CONFIG_URL_NAME [(CONFIG_URL_NAME, url); (CONFIG_KEY_NAME, key)] = Some url)
    by reflexivity.
  assert (Sk : sget CONFIG_KEY_NAME [(CONFIG_URL_NAME, url); (CONFIG_KEY_NAME, key)] = Some key)
    by reflexivity.
  split.
  - destruct (negb (String.eqb url "") && negb (String.eqb key "")) eqn:B; [reflexivity |].
    rewrite Su, Sk. cbn [provided]. now rewrite B.
  - destruct removed; cbn [nonempty]; [reflexivity |].
    rewrite Su, Sk. cbn [provided text].
    destruct (negb (String.eqb url "") && negb (String.eqb key "")); reflexivity.
Qed.

End SavedConfiguration.

(** ** What a save leaves in the cache *)

(** Take every [match] and [if] of the goal apart. *)
Ltac split_cases :=
  repeat match goal with
         | |- context [match ?x with _ => _ end] =>
             match x with
             | context [match _ with _ => _ end] => fail 1
             | _ => destruct x eqn:?
             end
         end.

Lemma lookup_In (k : string) (r : row) (v : value) :
  lookup k r = Some v -> In (k, v) r.
Proof.
  induction r as [| [k' v'] r IH]; cbn; [discriminate |].
  destruct (String.eqb_spec k' k) as [-> | N].
  - intro H. inversion H. now left.
  - intro H. right. now apply IH.
Qed.

Lemma state_of_case {A S : Type} (P : S -> Prop) (x : result A * S * history) :
  (forall r s h, x = (r, s, h) -> P s) -> P (state_of x).
Proof. destruct x as [[r s] h]. intro H. exact (H r s h eq_refl). Qed.

Section SavedStates.
Variable E : Env.

Lemma id_step_le (m : Z) (kv : string * value) : m <= id_step E m kv.
Proof.
  unfold id_step. destruct (endswith (fst kv) "_id"); [| lia].
  destruct (base_dao.py_int E (snd kv)) as [vi |]; [| lia].
  destruct (vi >? m) eqn:G; [| lia]. apply Z.gtb_lt in G. lia.
Qed.

Lemma row_max_le (r : row) (m : Z) : m <= fold_left (id_step E) r m.
Proof.
  revert m. induction r as [| kv r IH]; intro m; cbn; [lia |].
  pose proof (id_step_le m kv). pose proof (IH (id_step E m kv)). lia.
Qed.

Lemma row_max_bound (r : row) (m : Z) (k : string) (v : value) (z : Z) :
  In (k, v) r -> endswith k "_id" = true -> base_dao.py_int E v = Ok z ->
  z <= fold_left (id_step E) r m.
Proof.
  revert m. induction r as [| kv r IH]; intros m I K P; [destruct I |].
  cbn. destruct I as [-> | I].
  - pose proof (row_max_le r (id_step E m (k, v))) as L.
    assert (z <= id_step E m (k, v)); [| lia].
    unfold id_step. cbn [fst snd]. rewrite K, P.
    destruct (z >? m) eqn:G; [lia |]. rewrite Z.gtb_ltb in G. apply Z.ltb_ge in G. lia.
  - now apply IH.
Qed.

Lemma max_any_id_fold (rows : list row) (m : Z) :
  fold_left (fun max_id r => fold_left (id_step E) r max_id) rows m
  = fold_left
      (fun max_id r =>
         fold_left
           (fun max_id (kv : string * value) =>
              if endswith (fst kv) "_id" then
                match base_dao.py_int E (snd kv) with
                | Ok vi => if vi >? max_id then vi else max_id
                | Raise _ => max_id
                end
              else max_id)
           r max_id)
      rows m.
Proof. reflexivity. Qed.

Lemma rows_max_le (rows : list row) (m : Z) :
  m <= fold_left (fun max_id r => fold_left (id_step E) r max_id) rows m.
Proof.
  revert m. induction rows as [| r rows IH]; intro m; cbn; [lia |].
  pose proof (row_max_le r m). pose proof (IH (fold_left (id_step E) r m)). lia.
Qed.

Lemma rows_max_bound (rows : list row) (m : Z) (r : row) (k : string) (v : value) (z : Z) :
  In r rows -> In (k, v) r -> endswith k "_id" = true -> base_dao.py_int E v = Ok z ->
  z <= fold_left (fun max_id r => fold_left (id_step E) r max_id) rows m.
Proof.
  revert m. induction rows as [| r0 rows IH]; intros m I Ik K P; [destruct I |].
  cbn. destruct I as [-> | I].
  - pose proof (rows_max_le rows (fold_left (id_step E) r m)).
    pose proof (row_max_bound r m k v z Ik K P). lia.
  - now apply IH.
Qed.

(** The largest id [_save] and [upsert_one] compute is not negative, and no
    integer of a column ending in [_id] is above it. *)
Lemma max_any_id_bound (rows : list row) :
  0 <= base_dao.max_any_id E rows /\
  forall r k z, In r rows -> endswith k "_id" = true ->
                base_dao.py_int E (get r k) = Ok z -> z <= base_dao.max_any_id E rows.
Proof.
  unfold base_dao.max_any_id. rewrite <- max_any_id_fold. split.
  - apply rows_max_le.
  - intros r k z I K P. unfold get in P.
    destruct (lookup k r) as [v |] eqn:L; [| discriminate P].
    apply (rows_max_bound rows 0 r k v z I (lookup_In k r v L) K P).
Qed.

(** The cache after [_save]: as it was, or the rows the backend returned
    with the next id recomputed from them. *)
Lemma save_state (d : BaseDao) (h : history) :
  state_of (base_dao._save E d h) = d \/
  exists rows, state_of (base_dao._save E d h)
               = base_dao.recompute_next_id E rows (set_items rows d).
Proof.
  apply (state_of_case (fun s => s = d \/ exists rows,
           s = base_dao.recompute_next_id E rows (set_items rows d))).
  intros r s h0.
  unfold base_dao._save, base_dao.save_local, supabase_client.upsert_rows,
    supabase_client.checked_json.
  monad_unfold.
  split_cases; intro Q; inversion Q; first [now left | right; eexists; reflexivity].
Qed.

(** The same for [upsert_one], where the rows are the cache with the
    returned row merged in. *)
Lemma upsert_one_state (item : row) (d : BaseDao) (h : history) :
  state_of (base_dao.upsert_one E item d h) = d \/
  exists rows, state_of (base_dao.upsert_one E item d h)
               = base_dao.recompute_next_id E rows (set_items rows d).
Proof.
  apply (state_of_case (fun s => s = d \/ exists rows,
           s = base_dao.recompute_next_id E rows (set_items rows d))).
  intros r s h0. unfold base_dao.upsert_one. unfold bind at 1, gets at 1.
  destruct (_remote d) eqn:R; cbn [negb].
  - unfold base_dao.save_local, supabase_client.upsert_rows, supabase_client.checked_json.
    monad_unfold.
    split_cases; intro Q; inversion Q; first [now left | right; eexists; reflexivity].
  - unfold bind, ret. pose proof (save_state d h) as S. unfold state_of in S.
    destruct (base_dao._save E d h) as [[[] d1] h1]; cbn [fst snd] in S;
      intro Q; inversion Q; subst; exact S.
Qed.

Lemma save_keeps (I : BaseDao -> Prop) (d : BaseDao) (h : history) :
  kept_by_saves E I -> I d -> I (state_of (base_dao._save E d h)).
Proof.
  intros K H. destruct (save_state d h) as [-> | [rows ->]]; [exact H | now apply K].
Qed.

Lemma upsert_one_keeps (I : BaseDao -> Prop) (item : row) (d : BaseDao) (h : history) :
  kept_by_saves E I -> I d -> I (state_of (base_dao.upsert_one E item d h)).
Proof.
  intros K H. destruct (upsert_one_state item d h) as [-> | [rows ->]]; [exact H | now apply K].
Qed.

Lemma persist_one_keeps (I : BaseDao -> Prop) (item : row) (d : BaseDao) (h : history) :
  kept_by_saves E I -> I d -> I (state_of (persist_one E item d h)).
Proof.
  intros K H. unfold persist_one, try_except, bind, ret.
  pose proof (upsert_one_keeps I item d h K H) as U. unfold state_of in *.
  destruct (base_dao.upsert_one E item d h) as [[[o | e] d1] h1]; cbn [fst snd] in *.
  - exact U.
  - apply (save_keeps I d1 h1 K U).
Qed.

Lemma ids_below_spec (pk : string) (n : Z) (rows : list row) :
  ids_below E pk n rows = true <->
  forall r z, In r rows -> base_dao.py_int E (get r pk) = Ok z -> z < n.
Proof.
  unfold ids_below. rewrite forallb_forall. split.
  - intros H r z I P. specialize (H r I). rewrite P in H. now apply Z.ltb_lt.
  - intros H r I. destruct (base_dao.py_int E (get r pk)) as [z |] eqn:P; [| reflexivity].
    apply Z.ltb_lt. now apply (H r).
Qed.

Lemma fresh_ids_spec (pk : string) (d : BaseDao) :
  fresh_ids E pk d = true <->
  1 <= next_id d /\
  forall r z, In r (items d) -> base_dao.py_int E (get r pk) = Ok z -> z < next_id d.
Proof.
  unfold fresh_ids. rewrite andb_true_iff, Z.leb_le, ids_below_spec. tauto.
Qed.

Lemma fresh_ids_kept (pk : string) :
  endswith pk "_id" = true -> kept_by_saves E (fun d => fresh_ids E pk d = true).
Proof.
  intros P d rows F. apply fresh_ids_spec in F. destruct F as [N _].
  apply fresh_ids_spec. unfold base_dao.recompute_next_id.
  cbn [next_id items set_next_id set_items set_data].
  destruct (max_any_id_bound rows) as [M0 M].
  destruct (base_dao.max_any_id E rows =? 0) eqn:Z0.
  - apply Z.eqb_eq in Z0. split; [exact N |].
    intros r z I Pz. pose proof (M r pk z I P Pz). lia.
  - split; [lia |]. intros r z I Pz. pose proof (M r pk z I P Pz). lia.
Qed.

(** Appending a row that carries the next id, and moving the next id on. *)
Lemma fresh_ids_appended (pk : string) (item : row) (d : BaseDao) :
  get item pk = VInt (next_id d) ->
  fresh_ids E pk d = true ->
  fresh_ids E pk (set_next_id (next_id d + 1) (set_items (items d ++ [item]) d)) = true.
Proof.
  intros G F. apply fresh_ids_spec in F. destruct F as [N F]. apply fresh_ids_spec.
  cbn [next_id items set_next_id set_items set_data]. split; [lia |].
  intros r z I P. apply in_app_or in I. destruct I as [I | [<- | []]].
  - pose proof (F r z I P). lia.
  - rewrite G in P. cbn in P. inversion P. lia.
Qed.

End SavedStates.

(** ** The next id stays fresh *)

Section FreshIds.
Variable E : Env.

Lemma sender_add_state (sender : SenderModel.t) (d : BaseDao) (h : history) :
  let item := SenderModel.__dict__
                (SenderModel.mk (VInt (next_id d)) (SenderModel.app_password_id sender)
                                (SenderModel.address sender)) in
  let d2 := set_next_id (next_id d + 1) (set_items (items d ++ [item]) d) in
  state_of (SenderDao.add E sender d h) = d \/
  state_of (SenderDao.add E sender d h) = state_of (persist_one E item d2 h).
Proof.
  intros item d2.
  apply (state_of_case (fun s => s = d \/ s = state_of (persist_one E item d2 h))).
  intros r s h0. unfold SenderDao.add. monad_unfold.
  destruct (SenderDao.find_by_address E (SenderModel.address sender) (items d))
    as [[m |] | e]; try (intro Q; inversion Q; now left).
  fold item. change (next_id (set_items (items d ++ [item]) d)) with (next_id d).
  fold d2. unfold state_of.
  destruct (persist_one E item d2 h) as [[[u | e] d3] h3]; intro Q; inversion Q; now right.
Qed.

Lemma group_add_state (group : RecipientGroupModel.t) (d : BaseDao) (h : history) :
  let item := RecipientGroupModel.__dict__
                (RecipientGroupModel.mk (VInt (next_id d)) (RecipientGroupModel.name group)
                                        (RecipientGroupModel.recipients group)) in
  let d2 := set_next_id (next_id d + 1) (set_items (items d ++ [item]) d) in
  state_of (RecipientGroupDao.add E group d h) = d \/
  state_of (RecipientGroupDao.add E group d h) = state_of (persist_one E item d2 h).
Proof.
  intros item d2.
  apply (state_of_case (fun s => s = d \/ s = state_of (persist_one E item d2 h))).
  intros r s h0. unfold RecipientGroupDao.add. monad_unfold.
  destruct (RecipientGroupDao.find_by_name E (RecipientGroupModel.name group) (items d))
    as [[m |] | e]; try (intro Q; inversion Q; now left).
  fold item. change (next_id (set_items (items d ++ [item]) d)) with (next_id d).
  fold d2. unfold state_of.
  destruct (persist_one E item d2 h) as [[[u | e] d3] h3]; intro Q; inversion Q; now right.
Qed.

End FreshIds.

(** X4: whatever the backend and the disk do, [add] of a sender or of a
    group keeps the next id positive and above every id its table holds: an
    id handed out is never the id of a row already there. *)
Theorem X4_add_keeps_the_next_id_fresh
        (E : Env) (d : BaseDao) (h : history)
        (sender : SenderModel.t) (group : RecipientGroupModel.t) :
  (fresh_ids E "sender_id" d = true ->
   fresh_ids E "sender_id" (state_of (SenderDao.add E sender d h)) = true) /\
  (fresh_ids E "group_id" d = true ->
   fresh_ids E "group_id" (state_of (RecipientGroupDao.add E group d h)) = true).
Proof.
  split; intro F.
  - destruct (sender_add_state E sender d h) as [-> | ->]; [exact F |].
    apply (persist_one_keeps E (fun d => fresh_ids E "sender_id" d = true)).
    + now apply fresh_ids_kept.
    + now apply fresh_ids_appended.
  - destruct (group_add_state E group d h) as [-> | ->]; [exact F |].
    apply (persist_one_keeps E (fun d => fresh_ids E "group_id" d = true)).
    + now apply fresh_ids_kept.
    + now apply fresh_ids_appended.
Qed.

Lemma X4_add_keeps_the_next_id_fresh_witness :
  let d := Examples.remote_dao "senders" false 3
             [[("sender_id", VInt 1); ("app_password_id", VNone); ("address", VStr "a@example.com")];
              [("sender_id", VInt 2); ("app_password_id", VNone); ("address", VStr "b@example.com")]] in
  let g := Examples.remote_dao "groups" false 3 Examples.two_groups in
  let E := Examples.conflict [] in
  fresh_ids E "sender_id"
    (state_of (SenderDao.add E (SenderModel.mk VNone VNone (VStr "c@example.com")) d [])) = true /\
  fresh_ids E "group_id"
    (state_of (RecipientGroupDao.add E (RecipientGroupModel.mk VNone (VStr "C") (VList [])) g []))
  = true.
Proof.
  cbv zeta. split.
  - apply (proj1 (X4_add_keeps_the_next_id_fresh _ _ _ _
                    (RecipientGroupModel.mk VNone VNone VNone))). reflexivity.
  - apply (proj2 (X4_add_keeps_the_next_id_fresh _ _ _
                    (SenderModel.mk VNone VNone VNone) _)). reflexivity.
Defined.

(** ** What a save sends *)

Lemma outcome_case {A S : Type} (P : result A * S * history -> Prop)
      (x : result A * S * history) :
  (forall r s h, x = (r, s, h) -> P (r, s, h)) -> P x.
Proof. destruct x as [[r s] h]. intro H. exact (H r s h eq_refl). Qed.

Ltac sent_list :=
  first [ exists (@nil event); split; reflexivity
        | eexists [_]; split; reflexivity
        | eexists [_; _]; split; reflexivity
        | eexists [_; _; _]; split; reflexivity
        | eexists [_; _; _; _]; split; reflexivity ].

Section SentBySaves.
Variable E : Env.

(** [_save] sends nothing, or one upsert of the whole cache. *)
Lemma save_requests (d : BaseDao) (h : history) :
  sent_requests h [] (base_dao._save E d h) \/
  (_remote d = true /\ items d <> [] /\
   sent_requests h [EPost (_table d) (items d)] (base_dao._save E d h)).
Proof.
  apply (outcome_case (fun out => sent_requests h [] out \/
           (_remote d = true /\ items d <> [] /\
            sent_requests h [EPost (_table d) (items d)] out))).
  intros r s h0.
  unfold base_dao._save, base_dao.save_local, supabase_client.upsert_rows,
    supabase_client.checked_json.
  monad_unfold. unfold sent_requests, history_of.
  destruct (_remote d) eqn:R; destruct (items d) as [| r0 l0] eqn:L;
    split_cases; intro Q; inversion Q; cbn [fst snd];
    first [ left; sent_list
          | right; split; [reflexivity | split; [discriminate | sent_list]] ].
Qed.

(** A save of a remote-only table without rows sends nothing and touches
    nothing. *)
Lemma save_nothing (d : BaseDao) (h : history) :
  _remote d = true -> _remote_only d = true -> items d = [] ->
  base_dao._save E d h = (Ok tt, d, h).
Proof.
  intros R O L. unfold base_dao._save, supabase_client.upsert_rows. monad_unfold.
  now rewrite R, O, L.
Qed.

(** The requests of a filtering [delete]: none, or one upsert of the rows
    that remain. *)
Lemma delete_where_requests (keep : row -> result bool) (d : BaseDao) (h : history) :
  sent_requests h [] (delete_where E keep d h) \/
  sent_requests h [EPost (_table d) (kept keep (items d))] (delete_where E keep d h).
Proof.
  apply (outcome_case (fun out => sent_requests h [] out \/
           sent_requests h [EPost (_table d) (kept keep (items d))] out)).
  intros r s h0. unfold delete_where, kept. monad_unfold.
  destruct (rfilter keep (items d)) as [l' | e] eqn:R.
  - destruct (List.length l' <? List.length (items d))%nat.
    + pose proof (save_requests (set_items l' d) h) as S.
      destruct (base_dao._save E (set_items l' d) h) as [[[u | e] d1] h1];
        intro Q; inversion Q; subst;
        (destruct S as [S | (_ & _ & S)]; [left | right]; exact S).
    + intro Q; inversion Q. left. exists []. split; reflexivity.
  - intro Q; inversion Q. left. exists []. split; reflexivity.
Qed.

Lemma requests_no_delete (sent reqs : list event) :
  requests sent = reqs -> filter is_delete reqs = [] -> filter is_delete sent = [].
Proof.
  intros <- H. unfold requests in H.
  induction sent as [| ev sent IH]; [reflexivity |].
  cbn in *. destruct ev; cbn in *; try (apply IH; exact H); discriminate H.
Qed.

End SentBySaves.

(** X5: whatever the backend answers, the [delete] of a sender, a recipient
    or a group and [remove_membership] send no [DELETE]: the only request
    they can send is one upsert of the rows that remain in their table. *)
Theorem X5_dao_delete_never_sends_a_delete
        (E : Env) (d : BaseDao) (h : history) (id rid gid : value) :
  let upsert_or_nothing {A : Type} (out : result A * BaseDao * history) :=
    exists sent, history_of out = sent ++ h /\ filter is_delete sent = [] /\
                 (requests sent = [] \/
                  exists rows, requests sent = [EPost (_table d) rows] /\
                               forall r, In r rows -> In r (items d)) in
  upsert_or_nothing (SenderDao.delete E id d h) /\
  upsert_or_nothing (RecipientDao.delete E id d h) /\
  upsert_or_nothing (RecipientGroupDao.delete E id d h) /\
  upsert_or_nothing (RecipientGroupMembershipDao.remove_membership E rid gid d h).
Proof.
  assert (K : forall keep r, In r (kept keep (items d)) -> In r (items d)).
  { intros keep r. unfold kept.
    destruct (rfilter keep (items d)) as [l' | e] eqn:R; [| auto].
    revert l' R. induction (items d) as [| x l IH]; intros l' R; cbn in R.
    - inversion R. auto.
    - destruct (keep x) as [b |]; cbn in R; [| discriminate R].
      destruct (rfilter keep l) as [ys |]; cbn in R; [| discriminate R].
      inversion R. destruct b; cbn.
      + intros [-> | I]; [now left | right; now apply (IH ys)].
      + intro I. right. now apply (IH ys). }
  assert (G : forall keep,
             let out := delete_where E keep d h in
             exists sent, history_of out = sent ++ h /\ filter is_delete sent = [] /\
                 (requests sent = [] \/
                  exists rows, requests sent = [EPost (_table d) rows] /\
                               forall r, In r rows -> In r (items d))).
  { intros keep out.
    destruct (delete_where_requests E keep d h) as [(sent & H & Q) | (sent & H & Q)];
      exists sent; (split; [exact H |]); split.
    - now apply (requests_no_delete sent []).
    - now left.
    - now apply (requests_no_delete sent _ Q).
    - right. eexists. split; [exact Q | apply K]. }
  cbv zeta. repeat split; apply G.
Qed.

Lemma all_have_id_filtered (key : string) (id : value) (l : list row) :
  all_have_id key id l = true ->
  rfilter (fun r => rbind (getitem r key) (fun i => Ok (negb (value_eqb i id)))) l = Ok [].
Proof.
  induction l as [| r l IH]; intro A; [reflexivity |].
  cbn [all_have_id forallb] in A. apply andb_true_iff in A. destruct A as [A1 A2].
  cbn [rfilter]. unfold getitem at 1.
  destruct (lookup key r) as [v |]; [| discriminate A1].
  cbn [rbind]. rewrite A1. rewrite (IH A2). reflexivity.
Qed.

(** X6: in a remote-only table, a [delete] that removes every row returns
    [True] and sends nothing at all: the backend is not told. *)
Theorem X6_deleting_every_row_tells_the_backend_nothing
        (E : Env) (d : BaseDao) (h : history) (id : value) :
  _remote d = true -> _remote_only d = true -> items d <> [] ->
  all_have_id "recipient_id" id (items d) = true ->
  RecipientDao.delete E id d h = (Ok true, set_items [] d, h).
Proof.
  intros R O N A. unfold RecipientDao.delete, delete_where.
  pose proof (all_have_id_filtered "recipient_id" id (items d) A) as F.
  monad_unfold. rewrite F.
  destruct (items d) as [| r l] eqn:L; [contradiction |]. cbn [List.length Nat.ltb Nat.leb].
  rewrite save_nothing; [| assumption | assumption | reflexivity ]. reflexivity.
Qed.

Lemma X6_deleting_every_row_tells_the_backend_nothing_witness :
  RecipientDao.delete (Examples.echo [])
    (VInt 1) (Examples.remote_dao "recipients" true 2
                [[("recipient_id", VInt 1); ("address", VStr "x@example.com"); ("group_id", VNone)]])
    []
  = (Ok true,
     set_items [] (Examples.remote_dao "recipients" true 2
                [[("recipient_id", VInt 1); ("address", VStr "x@example.com"); ("group_id", VNone)]]),
     []).
Proof.
  apply X6_deleting_every_row_tells_the_backend_nothing;
    [reflexivity | reflexivity | discriminate | reflexivity].
Defined.

(** ** Senders: models, rows and lookups *)

Lemma sender_of_row_dict (m : SenderModel.t) :
  SenderModel.of_row (SenderModel.__dict__ m) = Ok m.
Proof. now destruct m. Qed.

(** X7: [list_all] rebuilds the senders from the rows their [__dict__]
    gave, and raises [TypeError] as soon as one row carries a column
    [SenderModel] has no keyword for. *)
Theorem X7_list_all_rebuilds_the_senders_or_raises (l : list row) :
  (forall ms, SenderLookup.list_all (map SenderModel.__dict__ ms) = Ok ms) /\
  (existsb (fun r => negb (accepts SenderModel.fields r)) l = true ->
   SenderLookup.list_all l = Raise TypeError).
Proof.
  unfold SenderLookup.list_all. split.
  - induction ms as [| m ms IH]; [reflexivity |].
    cbn [map rmap]. rewrite sender_of_row_dict. cbn [rbind]. now rewrite IH.
  - induction l as [| r l IH]; [discriminate |].
    cbn [existsb rmap]. unfold SenderModel.of_row at 1.
    destruct (accepts SenderModel.fields r); cbn [negb orb rbind]; [| reflexivity].
    intro H. now rewrite (IH H).
Qed.

Lemma X7_list_all_rebuilds_the_senders_or_raises_witness :
  SenderLookup.list_all
    [[("sender_id", VInt 1); ("app_password_id", VNone); ("address", VStr "a@example.com");
      ("created_at", VStr "2024-01-01")]]
  = Raise TypeError.
Proof.
  apply (proj2 (X7_list_all_rebuilds_the_senders_or_raises _)). reflexivity.
Defined.

Section SenderRoundTrips.
Variable E : Env.

Lemma fresh_not_held (pk : string) (d : BaseDao) (r : row) :
  fresh_ids E pk d = true -> In r (items d) ->
  value_eqb (get r pk) (VInt (next_id d)) = false.
Proof.
  intros F I. apply fresh_ids_spec in F. destruct F as [_ F].
  destruct (value_eqb (get r pk) (VInt (next_id d))) eqn:V; [| reflexivity].
  apply value_eqb_eq in V. specialize (F r (next_id d) I). rewrite V in F.
  specialize (F eq_refl). lia.
Qed.

Lemma getitem_get (r : row) (k : string) :
  has_key k r = true -> getitem r k = Ok (get r k).
Proof.
  unfold has_key, getitem, get. now destruct (lookup k r).
Qed.

(** The filter of a [delete] by [key] drops the appended row that carries
    the fresh id and keeps the rest. *)
Lemma delete_appended (key : string) (item : row) (d : BaseDao) :
  fresh_ids E key d = true ->
  forallb (has_key key) (items d) = true ->
  lookup key item = Some (VInt (next_id d)) ->
  rfilter (fun s => rbind (getitem s key) (fun i => Ok (negb (value_eqb i (VInt (next_id d))))))
          (items d ++ [item])
  = Ok (items d).
Proof.
  intros F K L.
  assert (A : forall l, (forall r, In r l -> In r (items d)) ->
              rfilter (fun s => rbind (getitem s key)
                         (fun i => Ok (negb (value_eqb i (VInt (next_id d))))))
                      (l ++ [item]) = Ok l).
  { induction l as [| r l IH]; intro S.
    - cbn. unfold getitem. rewrite L. cbn. now rewrite Z.eqb_refl.
    - cbn [app rfilter]. rewrite forallb_forall in K.
      rewrite (getitem_get r key (K r (S r (or_introl eq_refl)))). cbn [rbind].
      rewrite (fresh_not_held key d r F (S r (or_introl eq_refl))). cbn [negb].
      rewrite IH; [reflexivity |]. intros x Hx. apply S. now right. }
  apply A. auto.
Qed.

(** X8: in a local table whose ids are fresh, adding a sender with a new
    address and deleting the id it was given leaves the rows as they were;
    only the next id has moved on, so the id is not handed out again. *)
Theorem X8_local_add_then_delete_restores_the_rows
        (d : BaseDao) (h : history) (sender : SenderModel.t) :
  disk_writable E ->
  _remote d = false ->
  fresh_ids E "sender_id" d = true ->
  forallb (has_key "sender_id") (items d) = true ->
  SenderDao.find_by_address E (SenderModel.address sender) (items d) = Ok None ->
  let added := SenderDao.add E sender d h in
  let deleted := SenderDao.delete E (VInt (next_id d)) (state_of added) (history_of added) in
  result_of added
  = Ok (SenderModel.mk (VInt (next_id d)) (SenderModel.app_password_id sender)
                       (SenderModel.address sender)) /\
  result_of deleted = Ok true /\
  state_of deleted = set_next_id (next_id d + 1) d.
Proof.
  intros Dw R F K N added deleted.
  set (item := SenderModel.__dict__
                 (SenderModel.mk (VInt (next_id d)) (SenderModel.app_password_id sender)
                                 (SenderModel.address sender))).
  set (d2 := set_next_id (next_id d + 1) (set_items (items d ++ [item]) d)).
  assert (A : added
              = (Ok (SenderModel.mk (VInt (next_id d)) (SenderModel.app_password_id sender)
                                    (SenderModel.address sender)),
                 d2, ESaveJson (path d2) (data_name d2) (next_id d2) (items d2) :: h)).
  { subst added. unfold SenderDao.add. monad_unfold. rewrite N.
    fold item. change (next_id (set_items (items d ++ [item]) d)) with (next_id d).
    fold d2. rewrite persist_one_local by (assumption || exact R). reflexivity. }
  subst deleted. rewrite A. unfold result_of, state_of, history_of. cbn [fst snd].
  split; [reflexivity |].
  unfold SenderDao.delete, delete_where. monad_unfold.
  change (items d2) with (items d ++ [item]).
  rewrite (delete_appended "sender_id" item d F K eq_refl).
  rewrite length_app. cbn [List.length].
  replace (List.length (items d) <? List.length (items d) + 1)%nat with true
    by (symmetry; apply Nat.ltb_lt; lia).
  unfold base_dao._save. monad_unfold.
  change (_remote (set_items (items d) d2)) with (_remote d). rewrite R.
  rewrite save_local_eq. rewrite Dw. cbn [fst snd]. split; [reflexivity |].
  unfold d2. destruct d. reflexivity.
Qed.

End SenderRoundTrips.

Lemma X8_local_add_then_delete_restores_the_rows_witness :
  let E := Examples.offline None in
  let d := Examples.local_dao "senders" 2
             [[("sender_id", VInt 1); ("app_password_id", VNone); ("address", VStr "a@example.com")]] in
  let added := SenderDao.add E (SenderModel.mk VNone VNone (VStr "b@example.com")) d [] in
  let deleted := SenderDao.delete E (VInt 2) (state_of added) (history_of added) in
  result_of added = Ok (SenderModel.mk (VInt 2) VNone (VStr "b@example.com")) /\
  result_of deleted = Ok true /\
  state_of deleted = set_next_id 3 d.
Proof.
  apply (X8_local_add_then_delete_restores_the_rows (Examples.offline None)
           (Examples.local_dao "senders" 2
              [[("sender_id", VInt 1); ("app_password_id", VNone);
                ("address", VStr "a@example.com")]])
           [] (SenderModel.mk VNone VNone (VStr "b@example.com")));
    first [reflexivity | intro; reflexivity].
Defined.

Section RemoteDelete.
Variable E : Env.

Lemma rfilter_keyed (key : string) (id : value) (l : list row) :
  forallb (has_key key) l = true ->
  rfilter (fun s => rbind (getitem s key) (fun i => Ok (negb (value_eqb i id)))) l
  = Ok (filter (fun r => negb (value_eqb (get r key) id)) l).
Proof.
  induction l as [| r l IH]; intro K; [reflexivity |].
  cbn [forallb] in K. apply andb_true_iff in K. destruct K as [K1 K2].
  cbn [rfilter filter]. rewrite (getitem_get r key K1). cbn [rbind].
  rewrite (IH K2). cbn [rbind]. reflexivity.
Qed.

(** An upsert the backend accepts returns the rows it was sent, when the
    backend is faithful. *)
Lemma upsert_rows_echo {S : Type} (s : S) (h : history) (table : string) (rows : list row) :
  faithful_backend E -> rows <> [] ->
  fails (http E (EPost table rows :: h)) = false ->
  supabase_client.upsert_rows E table rows s h = (Ok rows, s, EPost table rows :: h).
Proof.
  intros F N A. unfold supabase_client.upsert_rows.
  destruct rows as [| r0 l0]; [contradiction |].
  unfold bind, perform. destruct (F h table (r0 :: l0)) as [B | [st B]]; [congruence |].
  unfold supabase_client.checked_json. rewrite B in *. cbn [fails] in A.
  apply orb_false_iff in A. destruct A as [A _].
  unfold supabase_client.raise_for_status. rewrite A. reflexivity.
Qed.

(** X9: in a remote table, when a [delete] of a sender removes a row and the
    backend takes the upsert of the rows that remain, the next id becomes
    one above the largest integer left in any column ending in [_id] (it is
    kept when there is none above 0): the id of a deleted newest sender is
    handed out again. *)
Theorem X9_remote_delete_recomputes_the_next_id
        (d : BaseDao) (h : history) (id : value) :
  let left_rows := filter (fun r => negb (value_eqb (get r "sender_id") id)) (items d) in
  faithful_backend E ->
  _remote d = true ->
  forallb (has_key "sender_id") (items d) = true ->
  left_rows <> [] ->
  (List.length left_rows < List.length (items d))%nat ->
  fails (http E (EPost (_table d) left_rows :: h)) = false ->
  let after := state_of (SenderDao.delete E id d h) in
  items after = left_rows /\
  next_id after = (if base_dao.max_any_id E left_rows =? 0 then next_id d
                   else base_dao.max_any_id E left_rows + 1).
Proof.
  intros left_rows F R K N L A after. subst after.
  apply (state_of_case (fun s => items s = left_rows /\
           next_id s = (if base_dao.max_any_id E left_rows =? 0 then next_id d
                        else base_dao.max_any_id E left_rows + 1))).
  intros r s h0. unfold SenderDao.delete, delete_where. monad_unfold.
  rewrite (rfilter_keyed "sender_id" id (items d) K). fold left_rows.
  apply Nat.ltb_lt in L. rewrite L.
  unfold base_dao._save. monad_unfold.
  change (_remote (set_items left_rows d)) with (_remote d). rewrite R.
  change (items (set_items left_rows d)) with left_rows.
  change (_table (set_items left_rows d)) with (_table d).
  rewrite (upsert_rows_echo (set_items left_rows d) h (_table d) left_rows F N A).
  destruct left_rows as [| r0 l0] eqn:Q; [contradiction |].
  change (_remote_only (set_items (r0 :: l0) d)) with (_remote_only d).
  assert (T : forall s0 : BaseDao,
             s0 = base_dao.recompute_next_id E (r0 :: l0)
                    (set_items (r0 :: l0) (set_items (r0 :: l0) d)) ->
             items s0 = r0 :: l0 /\
             next_id s0 = (if base_dao.max_any_id E (r0 :: l0) =? 0 then next_id d
                           else base_dao.max_any_id E (r0 :: l0) + 1)).
  { intros s0 ->. split; reflexivity. }
  revert T.
  generalize (if base_dao.max_any_id E (r0 :: l0) =? 0 then next_id d
              else base_dao.max_any_id E (r0 :: l0) + 1).
  generalize (base_dao.recompute_next_id E (r0 :: l0)
                (set_items (r0 :: l0) (set_items (r0 :: l0) d))).
  intros s1 n T.
  destruct (_remote_only d).
  - intro X; inversion X. subst. now apply T.
  - unfold base_dao.save_local. monad_unfold.
    split_cases; intro X; inversion X; subst; now apply T.
Qed.

End RemoteDelete.

Lemma X9_remote_delete_recomputes_the_next_id_witness :
  let E := Examples.echo [] in
  let d := Examples.remote_dao "senders" false 3
             [[("sender_id", VInt 1); ("app_password_id", VNone); ("address", VStr "a@example.com")];
              [("sender_id", VInt 2); ("app_password_id", VNone); ("address", VStr "b@example.com")]] in
  let after := state_of (SenderDao.delete E (VInt 2) d []) in
  items after
  = [[("sender_id", VInt 1); ("app_password_id", VNone); ("address", VStr "a@example.com")]] /\
  next_id after = 2.
Proof.
  apply (X9_remote_delete_recomputes_the_next_id (Examples.echo [])
           (Examples.remote_dao "senders" false 3
             [[("sender_id", VInt 1); ("app_password_id", VNone); ("address", VStr "a@example.com")];
              [("sender_id", VInt 2); ("app_password_id", VNone); ("address", VStr "b@example.com")]])
           [] (VInt 2));
    first [apply echo_faithful | reflexivity | discriminate | cbn; lia].
Defined.

Section SenderEdit.
Variable E : Env.

Lemma replaced_is_found (sender : SenderModel.t) (l l' : list row) :
  SenderDao.replace_by_id sender l = Ok (Some l') ->
  SenderLookup.find_by_id (SenderModel.sender_id sender) l' = Ok (Some sender) /\
  base_dao.replace_first "sender_id" (SenderModel.__dict__ sender) l' = Some l'.
Proof.
  revert l'. induction l as [| s l IH]; intros l' R; [discriminate R |].
  cbn [SenderDao.replace_by_id] in R. unfold getitem in R.
  destruct (lookup "sender_id" s) as [i |] eqn:L; [| discriminate R].
  cbn [rbind] in R. destruct (value_eqb i (SenderModel.sender_id sender)) eqn:V.
  - inversion R; subst l'. split.
    + unfold SenderLookup.find_by_id. cbn [first_where].
      unfold SenderLookup.has_sender_id. cbn. rewrite value_eqb_refl. cbn.
      now destruct sender.
    + cbn. now rewrite value_eqb_refl.
  - destruct (SenderDao.replace_by_id sender l) as [[l'' |] | e]; cbn [rbind] in R;
      try discriminate R.
    inversion R; subst l'. destruct (IH l'' eq_refl) as [I1 I2]. split.
    + unfold SenderLookup.find_by_id. cbn [first_where].
      unfold SenderLookup.has_sender_id at 1. unfold getitem. rewrite L. cbn [rbind].
      rewrite V. exact I1.
    + cbn [base_dao.replace_first]. unfold get at 1. rewrite L.
      change (get (SenderModel.__dict__ sender) "sender_id") with (SenderModel.sender_id sender).
      rewrite V. change (get (SenderModel.__dict__ sender) "sender_id")
        with (SenderModel.sender_id sender) in I2. now rewrite I2.
Qed.

(** X10: when the backend stores what it is sent, an [edit] of a sender
    whose id is in the table leaves the rows with the first row of that id
    replaced, and [find_by_id] then returns the edited sender. *)
Theorem X10_edit_then_find_by_id (d : BaseDao) (h : history)
        (sender : SenderModel.t) (l' : list row) :
  faithful_backend E ->
  SenderDao.replace_by_id sender (items d) = Ok (Some l') ->
  let after := state_of (SenderDao.edit E sender d h) in
  items after = l' /\
  SenderLookup.find_by_id (SenderModel.sender_id sender) (items after) = Ok (Some sender).
Proof.
  intros F R after. destruct (replaced_is_found sender (items d) l' R) as [Fi Rf].
  assert (I : items after = l').
  { subst after. apply (state_of_case (fun s => items s = l')).
    intros r s h0. unfold SenderDao.edit. monad_unfold. rewrite R.
    pose proof (persist_one_persisted E (SenderModel.__dict__ sender) (set_items l' d) h)
      as (_ & _ & A & _).
    unfold state_of in A.
    destruct (persist_one E (SenderModel.__dict__ sender) (set_items l' d) h)
      as [[[u | e] d1] h1]; cbn [fst snd] in A; intro Q; inversion Q; subst;
      (destruct (A F) as [-> | ->]; [reflexivity |];
       unfold base_dao.merge_row; cbn [items set_items set_data];
       change (base_dao.guess_pk (SenderModel.__dict__ sender)) with (Some "sender_id");
       cbv beta iota; now rewrite Rf). }
  split; [exact I | now rewrite I].
Qed.

End SenderEdit.

Lemma X10_edit_then_find_by_id_witness :
  let E := Examples.echo [] in
  let d := Examples.remote_dao "senders" false 3
             [[("sender_id", VInt 1); ("app_password_id", VNone); ("address", VStr "a@example.com")];
              [("sender_id", VInt 2); ("app_password_id", VNone); ("address", VStr "b@example.com")]] in
  let edited := SenderModel.mk (VInt 2) (VInt 5) (VStr "b@example.com") in
  let after := state_of (SenderDao.edit E edited d []) in
  items after
  = [[("sender_id", VInt 1); ("app_password_id", VNone); ("address", VStr "a@example.com")];
     SenderModel.__dict__ edited] /\
  SenderLookup.find_by_id (VInt 2) (items after) = Ok (Some edited).
Proof.
  apply (X10_edit_then_find_by_id (Examples.echo [])
           (Examples.remote_dao "senders" false 3
             [[("sender_id", VInt 1); ("app_password_id", VNone); ("address", VStr "a@example.com")];
              [("sender_id", VInt 2); ("app_password_id", VNone); ("address", VStr "b@example.com")]])
           [] (SenderModel.mk (VInt 2) (VInt 5) (VStr "b@example.com")));
    first [apply echo_faithful | reflexivity].
Defined.

(** ** Application passwords *)

Section AppPasswords.
Variable E : Env.
Variable K : Keyring.

(** X11: [add] of an application password whose id is already in the table
    with another secret returns a record that carries the new secret, but
    the three assignments are made on a model built from the row: when the
    backend stores what it is sent, the table still holds the rows it held,
    the old secret among them. *)
Theorem X11_add_on_an_existing_id_stores_nothing
        (app_password existing : AppPasswordModel.t) (d : BaseDao) (h : history) :
  let given := AppPasswordDao.encrypted K app_password h in
  faithful_backend E ->
  AppPasswordDao.find_by_id (AppPasswordModel.app_password_id given) (items d)
  = Ok (Some existing) ->
  value_eqb (AppPasswordModel.ciphertext existing) (AppPasswordModel.ciphertext given) = false ->
  let out := AppPasswordDao.add E K app_password d h in
  items (state_of out) = items d /\
  AppPasswordDao.find_by_id (AppPasswordModel.app_password_id given) (items (state_of out))
  = Ok (Some existing) /\
  forall m, result_of out = Ok m ->
            AppPasswordModel.ciphertext m = AppPasswordModel.ciphertext given /\
            AppPasswordModel.app_password_id m = AppPasswordModel.app_password_id existing.
Proof.
  intros given F Fi V out.
  pose proof (save_persisted E d h) as (_ & _ & A & _).
  assert (Q : out = match base_dao._save E d h with
                    | (Ok _, d1, h1) =>
                        (Ok (AppPasswordModel.mk (AppPasswordModel.app_password_id existing)
                               (AppPasswordModel.sender_id existing)
                               (AppPasswordModel.ciphertext given)
                               (AppPasswordModel.crypto_scheme given)
                               (AppPasswordModel.key_id given)), d1, h1)
                    | (Raise e, d1, h1) => (Raise e, d1, h1)
                    end).
  { subst out. unfold AppPasswordDao.add. monad_unfold. fold given. rewrite Fi, V.
    cbn [negb]. reflexivity. }
  rewrite Q. unfold state_of, result_of in *.
  destruct (base_dao._save E d h) as [[[u | e] d1] h1]; cbn [fst snd] in *;
    rewrite (A F); (split; [reflexivity | split; [exact Fi |]]);
    intros m Hm; inversion Hm; split; reflexivity.
Qed.

End AppPasswords.

Lemma X11_add_on_an_existing_id_stores_nothing_witness :
  let E := Examples.echo [] in
  let K := mkKeyring (fun _ _ => Ok None) (fun _ _ _ => Raise TypeError)
                     (fun _ _ => Raise TypeError) in
  let old := AppPasswordModel.mk (VInt 1) (VInt 1) (VStr "old") (VStr "plain") VNone in
  let d := Examples.remote_dao "app_passwords" false 2 [AppPasswordModel.__dict__ old] in
  let out := AppPasswordDao.add E K
               (AppPasswordModel.mk (VInt 1) (VInt 1) (VStr "new") VNone VNone) d [] in
  items (state_of out) = [AppPasswordModel.__dict__ old] /\
  AppPasswordDao.find_by_id (VInt 1) (items (state_of out)) = Ok (Some old) /\
  forall m, result_of out = Ok m ->
            AppPasswordModel.ciphertext m = VStr "new" /\
            AppPasswordModel.app_password_id m = VInt 1.
Proof.
  apply (X11_add_on_an_existing_id_stores_nothing (Examples.echo [])
           (mkKeyring (fun _ _ => Ok None) (fun _ _ _ => Raise TypeError)
                      (fun _ _ => Raise TypeError))
           (AppPasswordModel.mk (VInt 1) (VInt 1) (VStr "new") VNone VNone)
           (AppPasswordModel.mk (VInt 1) (VInt 1) (VStr "old") (VStr "plain") VNone)
           (Examples.remote_dao "app_passwords" false 2
              [AppPasswordModel.__dict__
                 (AppPasswordModel.mk (VInt 1) (VInt 1) (VStr "old") (VStr "plain") VNone)])
           []);
    first [apply echo_faithful | reflexivity].
Defined.

Section StoredPasswords.
Variable E : Env.
Variable K : Keyring.

Lemma app_password_of_row_dict (m : AppPasswordModel.t) :
  AppPasswordModel.of_row (AppPasswordModel.__dict__ m) = Ok m.
Proof. now destruct m. Qed.

(** What [add] returns and leaves when the id it is given is not in the
    table: the record with the next id, and the cache that the persistence
    step leaves from the table with the record appended. *)
Lemma app_password_add_new (app_password : AppPasswordModel.t) (d : BaseDao) (h : history) :
  let given := AppPasswordDao.encrypted K app_password h in
  let m := AppPasswordModel.mk (VInt (next_id d)) (AppPasswordModel.sender_id given)
             (AppPasswordModel.ciphertext given) (AppPasswordModel.crypto_scheme given)
             (AppPasswordModel.key_id given) in
  let d2 := set_next_id (next_id d + 1)
              (set_items (items d ++ [AppPasswordModel.__dict__ m]) d) in
  AppPasswordDao.find_by_id (AppPasswordModel.app_password_id given) (items d) = Ok None ->
  state_of (AppPasswordDao.add E K app_password d h)
  = state_of (persist_one E (AppPasswordModel.__dict__ m) d2 h) /\
  forall m', result_of (AppPasswordDao.add E K app_password d h) = Ok m' -> m' = m.
Proof.
  intros given m d2 N.
  assert (Q : AppPasswordDao.add E K app_password d h
              = match persist_one E (AppPasswordModel.__dict__ m) d2 h with
                | (Ok _, d3, h3) => (Ok m, d3, h3)
                | (Raise e, d3, h3) => (Raise e, d3, h3)
                end).
  { unfold AppPasswordDao.add. monad_unfold. fold given. rewrite N. reflexivity. }
  rewrite Q. unfold state_of, result_of.
  destruct (persist_one E (AppPasswordModel.__dict__ m) d2 h) as [[[u | e] d3] h3];
    cbn [fst snd]; (split; [reflexivity |]); intros m' Hm; now inversion Hm.
Qed.

(** X12: a secret handed to [add] without a scheme comes back from the
    password resolution of [EmailController]: decrypted under the same
    service and key id when the encryption worked, as it is when the
    encryption raised and the record was marked [plain]. *)
Theorem X12_a_stored_secret_is_recovered
        (app_password m : AppPasswordModel.t) (p : string) (d : BaseDao) (h : history) :
  (forall key plain h0 token,
      fernet_encrypt K key (VStr plain) h0 = Ok token ->
      fernet_decrypt K key (VStr token) = Ok plain) ->
  AppPasswordModel.ciphertext app_password = VStr p ->
  p <> "" ->
  truthy (AppPasswordModel.crypto_scheme app_password) = false ->
  AppPasswordDao.find_by_id (AppPasswordModel.app_password_id app_password) (items d)
  = Ok None ->
  result_of (AppPasswordDao.add E K app_password d h) = Ok m ->
  email_controller.password K (Some m) = Ok (VStr p).
Proof.
  intros Fernet C P S N R.
  assert (I : AppPasswordModel.app_password_id (AppPasswordDao.encrypted K app_password h)
              = AppPasswordModel.app_password_id app_password).
  { unfold AppPasswordDao.encrypted.
    destruct (truthy (AppPasswordModel.ciphertext app_password)
              && negb (truthy (AppPasswordModel.crypto_scheme app_password)));
      [| reflexivity].
    now destruct (fernet_crypto.encrypt_password K _ _ _ h). }
  rewrite <- I in N.
  destruct (app_password_add_new app_password d h N) as [_ M].
  rewrite (M m R). clear M R N I. unfold AppPasswordDao.encrypted. rewrite C, S.
  assert (T : truthy (VStr p) = true).
  { cbn. destruct (String.eqb_spec p ""); [contradiction | reflexivity]. }
  rewrite T. cbn [negb andb].
  unfold fernet_crypto.encrypt_password, fernet_crypto.__get_master_key.
  unfold email_controller.password, fernet_crypto.decrypt_password,
    fernet_crypto.__get_master_key.
  destruct (get_password K "enviador_de_email" (VStr fernet_crypto.DEFAULT_KEY_ID))
    as [[key |] | e] eqn:G; cbn [rbind]; try reflexivity.
  destruct (fernet_encrypt K key (VStr p) h) as [token | e] eqn:En; [| reflexivity].
  cbn. rewrite G. cbn [rbind]. now rewrite (Fernet key p h token En).
Qed.

(** X13: when the backend stores what it is sent, a record [add] has just
    created is the one [get_password_for_sender] returns for a sender that
    carries its id. *)
Theorem X13_the_new_record_is_the_one_of_its_sender
        (app_password : AppPasswordModel.t) (sender : SenderModel.t)
        (s : BaseDao) (d : BaseDao) (h : history) :
  let given := AppPasswordDao.encrypted K app_password h in
  let m := AppPasswordModel.mk (VInt (next_id d)) (AppPasswordModel.sender_id given)
             (AppPasswordModel.ciphertext given) (AppPasswordModel.crypto_scheme given)
             (AppPasswordModel.key_id given) in
  faithful_backend E ->
  next_id d <> 0 ->
  AppPasswordDao.find_by_id (AppPasswordModel.app_password_id given) (items d) = Ok None ->
  AppPasswordDao.find_by_id (VInt (next_id d)) (items d) = Ok None ->
  SenderModel.app_password_id sender = VInt (next_id d) ->
  let after := state_of (AppPasswordDao.add E K app_password d h) in
  sender_controller.get_password_for_sender (Some sender) (sender_controller.mk s after)
  = Ok (Some m).
Proof.
  intros given m F Z N Nn A after.
  destruct (app_password_add_new app_password d h N) as [St _].
  fold given in St. fold m in St. subst after. rewrite St.
  pose proof (persist_one_persisted E (AppPasswordModel.__dict__ m)
                (set_next_id (next_id d + 1)
                   (set_items (items d ++ [AppPasswordModel.__dict__ m]) d)) h)
    as (_ & _ & P & _).
  specialize (P F). cbn [items set_next_id set_items set_data] in P.
  unfold sender_controller.get_password_for_sender.
  cbn [sender_controller.app_password_dao]. rewrite A.
  assert (T : truthy (VInt (next_id d)) = true).
  { cbn. destruct (Z.eqb_spec (next_id d) 0); [contradiction | reflexivity]. }
  rewrite T. unfold AppPasswordDao.find_by_id in *.
  rewrite (appended_is_found (AppPasswordDao.has_app_password_id (VInt (next_id d)))
             AppPasswordModel.of_row (AppPasswordModel.__dict__ m) m (items d) _ Nn).
  - reflexivity.
  - unfold AppPasswordDao.has_app_password_id. cbn. now rewrite Z.eqb_refl.
  - apply app_password_of_row_dict.
  - exact P.
Qed.

End StoredPasswords.

Lemma X12_a_stored_secret_is_recovered_witness :
  let K := mkKeyring (fun _ _ => Ok (Some "key"))
             (fun _ plain _ => match plain with VStr s => Ok s | _ => Raise AttributeError end)
             (fun _ token => match token with VStr s => Ok s | _ => Raise AttributeError end) in
  email_controller.password K
    (Some (AppPasswordModel.mk (VInt 1) (VInt 1) (VStr "secret") (VStr "fernet:v1")
                               (VStr "local-v1")))
  = Ok (VStr "secret").
Proof.
  apply (X12_a_stored_secret_is_recovered (Examples.offline None)
           (mkKeyring (fun _ _ => Ok (Some "key"))
              (fun _ plain _ => match plain with VStr s => Ok s | _ => Raise AttributeError end)
              (fun _ token => match token with VStr s => Ok s | _ => Raise AttributeError end))
           (AppPasswordModel.mk VNone (VInt 1) (VStr "secret") VNone VNone)
           _ "secret" (Examples.local_dao "app_passwords" 1 []) []).
  - intros key plain h0 token H. now inversion H.
  - reflexivity.
  - discriminate.
  - reflexivity.
  - reflexivity.
  - reflexivity.
Defined.

Lemma X13_the_new_record_is_the_one_of_its_sender_witness :
  let K := mkKeyring (fun _ _ => Ok None) (fun _ _ _ => Raise TypeError)
                     (fun _ _ => Raise TypeError) in
  let E := Examples.echo [] in
  let d := Examples.remote_dao "app_passwords" false 1 [] in
  let after := state_of (AppPasswordDao.add E K
                 (AppPasswordModel.mk VNone (VInt 1) (VStr "secret") VNone VNone) d []) in
  sender_controller.get_password_for_sender
    (Some (SenderModel.mk (VInt 1) (VInt 1) (VStr "a@example.com")))
    (sender_controller.mk (Examples.remote_dao "senders" false 2 []) after)
  = Ok (Some (AppPasswordModel.mk (VInt 1) (VInt 1) (VStr "secret") (VStr "plain") VNone)).
Proof.
  apply (X13_the_new_record_is_the_one_of_its_sender (Examples.echo [])
           (mkKeyring (fun _ _ => Ok None) (fun _ _ _ => Raise TypeError)
                      (fun _ _ => Raise TypeError))
           (AppPasswordModel.mk VNone (VInt 1) (VStr "secret") VNone VNone)
           (SenderModel.mk (VInt 1) (VInt 1) (VStr "a@example.com"))
           (Examples.remote_dao "senders" false 2 [])
           (Examples.remote_dao "app_passwords" false 1 []) []);
    first [apply echo_faithful | reflexivity | discriminate].
Defined.

(** ** The sender controller *)

Lemma sender_find_by_id_absent (id : value) (l : list row) :
  id_absent "sender_id" id l = true -> SenderLookup.find_by_id id l = Ok None.
Proof.
  unfold id_absent, SenderLookup.find_by_id. induction l as [| s l IH]; [reflexivity |].
  cbn [forallb first_where]. intro A. apply andb_true_iff in A. destruct A as [A1 A2].
  unfold SenderLookup.has_sender_id at 1. unfold getitem.
  destruct (lookup "sender_id" s) as [v |]; [| discriminate A1].
  cbn [rbind]. apply negb_true_iff in A1. rewrite A1. now apply IH.
Qed.

(** X14: [delete_sender] of an id that no row carries raises
    [EmailServiceError] (from the [ValueError] of the missing sender),
    changes nothing and sends nothing; the repository's own [delete] would
    have returned [False]. *)
Theorem X14_delete_sender_of_a_missing_id_raises
        (E : Env) (id : value) (c : sender_controller.SenderController) (h : history) :
  id_absent "sender_id" id (items (sender_controller.sender_dao c)) = true ->
  sender_controller.delete_sender E id c h
  = (Raise (EmailServiceError (ValueError "Sender with id not found.")), c, h) /\
  SenderDao.delete E id (sender_controller.sender_dao c) h
  = (Ok false, sender_controller.sender_dao c, h).
Proof.
  intro A. split.
  - unfold sender_controller.delete_sender. monad_unfold.
    now rewrite (sender_find_by_id_absent id _ A).
  - unfold SenderDao.delete. apply delete_where_keeps_all.
    intros r I. unfold id_absent in A. rewrite forallb_forall in A. specialize (A r I).
    unfold getitem. destruct (lookup "sender_id" r) as [v |]; [| discriminate A].
    cbn [rbind]. now rewrite A.
Qed.

Lemma X14_delete_sender_of_a_missing_id_raises_witness :
  let c := sender_controller.mk
             (Examples.remote_dao "senders" false 2
                [[("sender_id", VInt 1); ("app_password_id", VInt 1);
                  ("address", VStr "a@example.com")]])
             (Examples.remote_dao "app_passwords" false 2 []) in
  sender_controller.delete_sender (Examples.echo []) (VInt 7) c []
  = (Raise (EmailServiceError (ValueError "Sender with id not found.")), c, []) /\
  SenderDao.delete (Examples.echo []) (VInt 7) (sender_controller.sender_dao c) []
  = (Ok false, sender_controller.sender_dao c, []).
Proof.
  apply X14_delete_sender_of_a_missing_id_raises. reflexivity.
Defined.

(** ** The group controller *)

Lemma then_true {S A : Type} (m : M S A) (s : S) (h : history) (b : bool) :
  result_of ((m ;; ret true) s h) = Ok b -> b = true.
Proof.
  unfold bind, ret, result_of. destruct (m s h) as [[[a | e] s1] h1]; cbn [fst];
    intro H; now inversion H.
Qed.

Section GroupController.
Variable E : Env.

Lemma assign_and_list_true (rid : Z) (gid : value) (c : RecipientGroupController)
      (h : history) (b : bool) :
  result_of (group_controller.assign_and_list E rid gid c h) = Ok b -> b = true.
Proof.
  unfold group_controller.assign_and_list. unfold bind at 1.
  destruct (swallow _ c h) as [[[u | e] c1] h1]; [| intro H; discriminate H].
  apply then_true.
Qed.

Lemma legacy_true (rid : Z) (gid : value) (c : RecipientGroupController)
      (h : history) (b : bool) :
  result_of (group_controller.legacy E rid gid c h) = Ok b -> b = true.
Proof.
  unfold group_controller.legacy. unfold bind at 1.
  destruct (group_controller.recipient_with_id rid c h) as [[[[existing |] | e] c1] h1];
    [| apply assign_and_list_true | intro H; discriminate H].
  destruct (value_eqb (RecipientModel.group_id existing) gid); [apply then_true |].
  unfold bind at 1.
  destruct (try_except _ _ c1 h1) as [[[u | e] c2] h2]; [| intro H; discriminate H].
  apply assign_and_list_true.
Qed.

Lemma add_membership_false (r g : value) (d : BaseDao) (h : history) :
  result_of (RecipientGroupMembershipDao.add_membership E r g d h) = Ok false ->
  RecipientGroupMembershipDao.has_pair E r g (items d) = Ok true.
Proof.
  unfold RecipientGroupMembershipDao.add_membership. unfold bind at 1, gets at 1.
  unfold bind at 1, lift at 1.
  destruct (RecipientGroupMembershipDao.has_pair E r g (items d)) as [[|] | e];
    [reflexivity | | intro H; discriminate H].
  unfold bind at 1, gets at 1. unfold bind at 1, modify at 1. unfold bind at 1, modify at 1.
  intro H. apply then_true in H. discriminate H.
Qed.

Lemma add_membership_found (r g : value) (d : BaseDao) (h : history) :
  RecipientGroupMembershipDao.has_pair E r g (items d) = Ok true ->
  RecipientGroupMembershipDao.add_membership E r g d h = (Ok false, d, h).
Proof.
  intro H. unfold RecipientGroupMembershipDao.add_membership. monad_unfold. now rewrite H.
Qed.

End GroupController.

(** X15: [add_recipient_to_group] of the controller returns [False] exactly
    when the scan of the membership table finds the pair, and then it
    changes nothing and sends nothing; every other return is [True], and
    whatever it raises is an [EmailServiceError]. *)
Theorem X15_add_recipient_to_group_reports_a_known_pair
        (E : Env) (rid : Z) (gid : value) (c : RecipientGroupController) (h : history) :
  let found := RecipientGroupMembershipDao.has_pair E (VInt rid) gid
                 (items (membership_dao c)) in
  let out := group_controller.add_recipient_to_group E rid gid c h in
  (found = Ok true -> out = (Ok false, c, h)) /\
  (result_of out = Ok false -> found = Ok true) /\
  (forall e, result_of out = Raise e -> exists cause, e = EmailServiceError cause).
Proof.
  intros found out. subst found out.
  unfold group_controller.add_recipient_to_group.
  unfold recipient_group_controller.on_membership_dao, zoom.
  split; [| split].
  - intro F. monad_unfold. rewrite (add_membership_found E _ _ _ h F). now destruct c.
  - unfold try_except at 1. unfold bind at 1. unfold try_except at 1. unfold bind at 1.
    pose proof (add_membership_false E (VInt rid) gid (membership_dao c) h) as A.
    unfold result_of in *.
    destruct (RecipientGroupMembershipDao.add_membership E (VInt rid) gid (membership_dao c) h)
      as [[[b | e] m1] h1]; cbn [fst snd] in *.
    + unfold ret. cbn [fst]. intro H. inversion H; subst b. now apply A.
    + unfold ret at 1.
      pose proof (legacy_true E rid gid
                    (mkController (recipient_dao c) (group_dao c) m1) h1 false) as L.
      unfold result_of in L.
      destruct (group_controller.legacy E rid gid
                  (mkController (recipient_dao c) (group_dao c) m1) h1)
        as [[[b | e0] c2] h2]; cbn [fst] in *.
      * intro H. specialize (L H). discriminate L.
      * destruct e0; intro H; discriminate H.
  - intros e. unfold try_except at 1. unfold result_of.
    match goal with
    | |- context [match ?x with _ => _ end] => destruct x as [[[b | e0] c2] h2]
    end; cbn [fst].
    + intro H; discriminate H.
    + destruct e0; unfold raise; cbn [fst]; intro H; inversion H; eexists; reflexivity.
Qed.

Lemma X15_add_recipient_to_group_reports_a_known_pair_witness :
  group_controller.add_recipient_to_group (Examples.echo []) 2 (VInt 1) Examples.controller []
  = (Ok false, Examples.controller, []).
Proof.
  apply (proj1 (X15_add_recipient_to_group_reports_a_known_pair
                  (Examples.echo []) 2 (VInt 1) Examples.controller [])).
  reflexivity.
Defined.

Section NoMembers.
Variable E : Env.

(** With no member named by the membership table, [delete_group] is the
    deletion of the group record alone. *)
Lemma delete_group_no_members (gid : value) (c : RecipientGroupController) (h : history) :
  RecipientGroupMembershipDao.list_group_members E gid (items (membership_dao c)) = Ok [] ->
  recipient_dao (state_of (recipient_group_controller.delete_group E gid c h))
  = recipient_dao c /\
  membership_dao (state_of (recipient_group_controller.delete_group E gid c h))
  = membership_dao c /\
  filter is_delete (history_of (recipient_group_controller.delete_group E gid c h))
  = filter is_delete (history_of (recipient_group_controller.delete_record E gid c h)).
Proof.
  intro N.
  assert (Q : recipient_group_controller.delete_group E gid c h
              = match recipient_group_controller.delete_record E gid c h with
                | (Ok b, c1, h1) => (Ok b, c1, h1)
                | (Raise e, c1, h1) => (Raise (EmailServiceError e), c1, h1)
                end).
  { unfold recipient_group_controller.delete_group, recipient_group_controller.member_ids,
      recipient_group_controller.cleanup.
    monad_unfold. rewrite N. cbn [map for_each]. unfold ret.
    now destruct (recipient_group_controller.delete_record E gid c h) as [[[b | e] c1] h1]. }
  destruct (delete_record_others E gid c h) as [R Mb]. rewrite Q.
  unfold state_of, history_of in *.
  destruct (recipient_group_controller.delete_record E gid c h) as [[[b | e] c1] h1];
    cbn [fst snd] in *; auto.
Qed.

End NoMembers.

(** X16: for a group the membership table names no member of,
    [list_group_recipients] lists the recipients whose legacy group id is
    the group, and [delete_group] touches neither the recipients nor the
    membership table: every recipient listed for the group survives its
    deletion. *)
Theorem X16_recipients_listed_by_the_legacy_field_survive
        (E : Env) (gid : value) (grp : RecipientGroupModel.t)
        (c : RecipientGroupController) (h : history) :
  RecipientGroupMembershipDao.list_group_members E gid (items (membership_dao c)) = Ok [] ->
  RecipientGroupDao.find_by_id gid (items (group_dao c)) = Ok (Some grp) ->
  let after := state_of (recipient_group_controller.delete_group E gid c h) in
  group_controller.list_group_recipients E gid c = group_controller.members_by_field gid c /\
  recipient_dao after = recipient_dao c /\
  membership_dao after = membership_dao c /\
  group_controller.members_by_field gid after = group_controller.members_by_field gid c.
Proof.
  intros N G after.
  destruct (delete_group_no_members E gid c h N) as (R & Mb & _). fold after in R, Mb.
  split; [| split; [exact R | split; [exact Mb |]]].
  - unfold group_controller.list_group_recipients, group_controller.members_by_table.
    rewrite G, N. reflexivity.
  - unfold group_controller.members_by_field. now rewrite R.
Qed.

Lemma X16_recipients_listed_by_the_legacy_field_survive_witness :
  let c := mkController (Examples.remote_dao "recipients" true 4 Examples.three_recipients)
                        (Examples.remote_dao "groups" false 3 Examples.two_groups)
                        (Examples.remote_dao "recipient_group_membership" false 1 []) in
  let after := state_of (recipient_group_controller.delete_group (Examples.echo [])
                           (VInt 1) c []) in
  group_controller.list_group_recipients (Examples.echo []) (VInt 1) c
  = group_controller.members_by_field (VInt 1) c /\
  recipient_dao after = recipient_dao c /\
  membership_dao after = membership_dao c /\
  group_controller.members_by_field (VInt 1) after
  = group_controller.members_by_field (VInt 1) c.
Proof.
  apply (X16_recipients_listed_by_the_legacy_field_survive (Examples.echo []) (VInt 1)
           (RecipientGroupModel.mk (VInt 1) (VStr "A") (VList [1; 2])));
    reflexivity.
Defined.

(** ** The recipient controller and the service *)

(** X17: whatever happens while the new recipient is associated with its
    group, [add_recipient] returns the record [RecipientDao.add] returned
    and leaves the recipient repository as [add] left it; it raises, an
    [EmailServiceError], exactly when [add] raises; without a group id it
    does nothing else. *)
Theorem X17_add_recipient_returns_what_the_repository_added
        (E : Env) (address gid : value) (c : recipient_controller.RecipientController)
        (h : history)
        (out : result RecipientModel.t * recipient_controller.RecipientController * history) :
  recipient_controller.add_recipient E address gid c h = Some out ->
  let first := RecipientDao.add E (RecipientModel.mk VNone address gid)
                 (recipient_controller.recipient_dao c) h in
  result_of out = match result_of first with
                  | Ok rec => Ok rec
                  | Raise e => Raise (EmailServiceError e)
                  end /\
  recipient_controller.recipient_dao (state_of out) = state_of first /\
  (truthy gid = false ->
   state_of out = recipient_controller.mk (state_of first)
                    (recipient_controller.group_dao c)
                    (recipient_controller.membership_dao c) /\
   history_of out = history_of first).
Proof.
  unfold recipient_controller.add_recipient, recipient_controller.associate,
    recipient_controller.on_recipient_dao, recipient_controller.on_membership_dao,
    recipient_controller.on_group_dao, zoom.
  intro H. unfold result_of, state_of, history_of.
  destruct (RecipientDao.add E (RecipientModel.mk VNone address gid)
              (recipient_controller.recipient_dao c) h) as [[[rec | e] d1] h1];
    cbn [fst snd] in *.
  - destruct (truthy gid) eqn:T; cbn [andb] in H.
    + destruct (negb (is_none (RecipientModel.recipient_id rec))).
      * cbn [recipient_controller.membership_dao recipient_controller.recipient_dao
             recipient_controller.group_dao] in H.
        destruct (RecipientGroupMembershipDao.add_membership E
                    (RecipientModel.recipient_id rec) gid
                    (recipient_controller.membership_dao c) h1) as [[[b | e] m1] h2].
        -- inversion H. cbn. repeat split; first [reflexivity | congruence].
        -- destruct (RecipientModel.recipient_id rec) as [| z | |]; try discriminate H.
           rewrite swallow_eq in H. inversion H. cbn [fst snd].
           unfold state_of.
           cbn [recipient_controller.membership_dao recipient_controller.recipient_dao
                recipient_controller.group_dao].
           destruct (RecipientGroupDao.add_recipient_to_group E gid z
                       (recipient_controller.group_dao c) h2) as [[r2 g2] h3].
           cbn. repeat split; first [reflexivity | congruence].
      * inversion H. cbn. repeat split; first [reflexivity | congruence].
    + inversion H. cbn. repeat split; reflexivity.
  - inversion H. cbn. repeat split; reflexivity.
Qed.

Lemma X17_add_recipient_returns_what_the_repository_added_witness :
  let E := Examples.echo [] in
  let c := recipient_controller.mk (Examples.remote_dao "recipients" true 1 [])
             (Examples.remote_dao "groups" false 1 [])
             (Examples.remote_dao "recipient_group_membership" false 1 []) in
  exists out, recipient_controller.add_recipient E (VStr "x@example.com") (VInt 1) c [] = Some out /\
              result_of out = Ok (RecipientModel.mk (VInt 1) (VStr "x@example.com") (VInt 1)).
Proof.
  cbv zeta. eexists. split; [vm_compute; reflexivity |].
  exact (proj1 (X17_add_recipient_returns_what_the_repository_added (Examples.echo [])
                  (VStr "x@example.com") (VInt 1)
                  (recipient_controller.mk (Examples.remote_dao "recipients" true 1 [])
                     (Examples.remote_dao "groups" false 1 [])
                     (Examples.remote_dao "recipient_group_membership" false 1 []))
                  [] _ eq_refl)).
Defined.

(** X18: the two controllers keep a membership repository each.  A
    membership that [add_recipient] records goes to the one of the
    recipient controller; when the one of the group controller names no
    member of the group, [delete_group] in the same session leaves the
    recipients and that membership where they are: the recipient just added
    to the group is not reclaimed with it. *)
Theorem X18_a_recipient_added_in_the_session_outlives_its_group
        (E : Env) (address gid : value) (s : email_service.EmailService) (h : history)
        (out : result RecipientModel.t * email_service.EmailService * history) :
  RecipientGroupMembershipDao.list_group_members E gid
    (items (email_service.group_controller_membership_dao s)) = Ok [] ->
  email_service.add_recipient E address gid s h = Some out ->
  let after := state_of (email_service.delete_group E gid (state_of out) (history_of out)) in
  email_service.group_controller_membership_dao (state_of out)
  = email_service.group_controller_membership_dao s /\
  email_service.recipient_dao after = email_service.recipient_dao (state_of out) /\
  email_service.recipient_controller_membership_dao after
  = email_service.recipient_controller_membership_dao (state_of out) /\
  email_service.list_group_recipients E gid after
  = match RecipientGroupDao.find_by_id gid (items (email_service.group_dao after)) with
    | Ok (Some _) =>
        group_controller.members_by_field gid
          (email_service.as_group_controller (state_of out))
    | Ok None => Raise (with_text "Grupo nao encontrado")
    | Raise e => Raise e
    end.
Proof.
  intros N H after.
  assert (G : email_service.group_controller_membership_dao (state_of out)
              = email_service.group_controller_membership_dao s).
  { unfold email_service.add_recipient in H.
    destruct (recipient_controller.add_recipient E address gid
                (email_service.as_recipient_controller s) h) as [[[r c] h'] |];
      [| discriminate H].
    inversion H. reflexivity. }
  assert (N1 : RecipientGroupMembershipDao.list_group_members E gid
                 (items (membership_dao (email_service.as_group_controller (state_of out))))
               = Ok []).
  { unfold email_service.as_group_controller. cbn [membership_dao]. now rewrite G. }
  destruct (delete_group_no_members E gid (email_service.as_group_controller (state_of out))
              (history_of out) N1) as (R & Mb & _).
  assert (A : after = email_service.set_group_controller
                        (state_of (recipient_group_controller.delete_group E gid
                                     (email_service.as_group_controller (state_of out))
                                     (history_of out)))
                        (state_of out)).
  { subst after. unfold email_service.delete_group. apply zoom_state. }
  destruct (state_of (recipient_group_controller.delete_group E gid
                        (email_service.as_group_controller (state_of out)) (history_of out)))
    as [r2 g2 m2] eqn:Q.
  cbn [recipient_dao membership_dao] in R, Mb.
  unfold email_service.set_group_controller in A.
  split; [exact G | split; [| split]].
  - rewrite A. cbn. exact R.
  - rewrite A. reflexivity.
  - unfold email_service.list_group_recipients, group_controller.list_group_recipients,
      group_controller.members_by_table, group_controller.members_by_field.
    rewrite A. unfold email_service.as_group_controller.
    cbn [email_service.recipient_dao email_service.group_dao
         email_service.group_controller_membership_dao recipient_dao group_dao membership_dao].
    rewrite Mb, R.
    destruct (RecipientGroupDao.find_by_id gid (items g2)) as [[grp |] | e];
      cbn [rbind]; rewrite ?N1; reflexivity.
Qed.

Lemma X18_a_recipient_added_in_the_session_outlives_its_group_witness :
  let E := Examples.echo [] in
  let added := Examples2.outcome Examples2.service
                 (email_service.add_recipient E (VStr "x@example.com") (VInt 1)
                    Examples2.service []) in
  let after := state_of (email_service.delete_group E (VInt 1) (state_of added)
                           (history_of added)) in
  result_of added = Ok (RecipientModel.mk (VInt 1) (VStr "x@example.com") (VInt 1)) /\
  items (email_service.group_dao after) = [] /\
  items (email_service.recipient_dao (state_of added))
  = [[("recipient_id", VInt 1); ("address", VStr "x@example.com"); ("group_id", VInt 1)]] /\
  email_service.recipient_dao after = email_service.recipient_dao (state_of added) /\
  email_service.recipient_controller_membership_dao after
  = email_service.recipient_controller_membership_dao (state_of added).
Proof.
  cbv zeta.
  assert (H : email_service.add_recipient (Examples.echo []) (VStr "x@example.com") (VInt 1)
                Examples2.service []
              = Some (Examples2.outcome Examples2.service
                        (email_service.add_recipient (Examples.echo []) (VStr "x@example.com")
                           (VInt 1) Examples2.service [])))
    by (vm_compute; reflexivity).
  destruct (X18_a_recipient_added_in_the_session_outlives_its_group
              (Examples.echo []) (VStr "x@example.com") (VInt 1) Examples2.service [] _
              eq_refl H) as (_ & R & Mb & _).
  split; [vm_compute; reflexivity | split; [vm_compute; reflexivity |]].
  split; [vm_compute; reflexivity |]. split; [exact R | exact Mb].
Defined.

(** ** The deletes sent to the backend *)

Section UnfilteredDelete.
Variable E : Env.

(** [delete_row]: the request without a filter goes first, and the one
    named by the expression follows when the first got an answer, whatever
    its status. *)
Lemma delete_row_history {S : Type} (table : S -> string) (pk_col : string) (pk_val : value)
      (s : S) (h : history) :
  let out := (t <- gets table ;; supabase_client.delete_row E t pk_col pk_val) s h in
  history_of out = EDeleteExpr (table s) pk_col pk_val :: EDelete (table s) None :: h \/
  history_of out = EDelete (table s) None :: h.
Proof.
  unfold supabase_client.delete_row, supabase_client.raise_for_status.
  monad_unfold. unfold history_of.
  destruct (http E (EDelete (table s) None :: h)) as [st1 j1 |]; cbn [snd]; [| now right].
  destruct (http E (EDeleteExpr (table s) pk_col pk_val :: EDelete (table s) None :: h))
    as [st2 j2 |]; cbn [snd]; [| now left].
  destruct ((400 <=? st2) && (st2 <? 600)); now left.
Qed.

Lemma delete_record_outcome (gid : value) (c : RecipientGroupController) (h : history) :
  recipient_group_controller.delete_record E gid c h
  = match RecipientGroupDao.delete E gid (group_dao c) h with
    | (Ok deleted, g', h') =>
        let c' := mkController (recipient_dao c) g' (membership_dao c) in
        (Ok deleted, c',
         history_of ((t <- gets (fun c0 : RecipientGroupController => _table (group_dao c0)) ;;
                      supabase_client.delete_row E t "group_id" gid) c' h'))
    | (Raise e, g', h') =>
        (Raise e, mkController (recipient_dao c) g' (membership_dao c), h')
    end.
Proof.
  unfold recipient_group_controller.delete_record.
  unfold bind at 1. unfold recipient_group_controller.on_group_dao, zoom.
  destruct (RecipientGroupDao.delete E gid (group_dao c) h) as [[[deleted | e] g'] h'];
    [| reflexivity].
  unfold bind at 1. rewrite swallow_eq. rewrite delete_row_state. reflexivity.
Qed.

Lemma delete_record_history (gid : value) (c : RecipientGroupController) (h : history)
      (b : bool) :
  let out := recipient_group_controller.delete_record E gid c h in
  let t := _table (group_dao c) in
  result_of out = Ok b ->
  exists before,
    history_of out = EDeleteExpr t "group_id" gid :: EDelete t None :: before \/
    history_of out = EDelete t None :: before.
Proof.
  intros out t. subst out. rewrite delete_record_outcome.
  pose proof (delete_where_touched E
                (fun g => Ok (negb (value_eqb (get g "group_id") gid))) (group_dao c) h)
    as ((_ & _ & _ & _ & T) & _).
  unfold RecipientGroupDao.delete.
  destruct (delete_where E (fun g => Ok (negb (value_eqb (get g "group_id") gid)))
              (group_dao c) h) as [[[deleted | e] g'] h'];
    [| intro H; discriminate H].
  unfold state_of in T. cbn [fst snd] in T. intros _. cbv zeta.
  unfold history_of at 1 3. cbn [snd].
  destruct (delete_row_history (fun c0 => _table (group_dao c0)) "group_id" gid
              (mkController (recipient_dao c) g' (membership_dao c)) h') as [D | D];
    cbn [group_dao] in D; rewrite T in D; exists h'; [left | right]; exact D.
Qed.

End UnfilteredDelete.

(** X19: whenever [delete_group] returns, the last thing it sent is the
    pair of requests of [delete_row] on the table of the groups: a [DELETE]
    that carries no filter at all, and after it, when that one got an
    answer (whatever its status), a [DELETE] whose one parameter is named by
    the whole expression [group_id=eq.<id>] and has an empty value.  Neither
    is the request filtered on the column [group_id] that
    [delete_by_filters] would send. *)
Theorem X19_delete_group_ends_with_unfiltered_deletes
        (E : Env) (gid : value) (c : RecipientGroupController) (h : history) (b : bool) :
  let out := recipient_group_controller.delete_group E gid c h in
  let t := _table (group_dao c) in
  result_of out = Ok b ->
  (exists before,
      history_of out = EDeleteExpr t "group_id" gid :: EDelete t None :: before \/
      history_of out = EDelete t None :: before) /\
  forall before, history_of out <> EDelete t (Some [("group_id", gid)]) :: before.
Proof.
  intros out t R.
  assert (L : exists before,
             history_of out = EDeleteExpr t "group_id" gid :: EDelete t None :: before \/
             history_of out = EDelete t None :: before);
    [| split; [exact L |];
       destruct L as (before & [L | L]); intros before' Q; rewrite L in Q; discriminate Q].
  subst out.
  destruct (member_ids_pure E gid c h) as [Ms Mh].
  destruct (recipient_group_controller.member_ids E gid c h) as [[[ids | e] cm] hm] eqn:Em.
  2: { exfalso. unfold recipient_group_controller.delete_group, try_except, bind in R.
       rewrite Em in R. discriminate R. }
  unfold state_of, history_of in Ms, Mh. cbn [fst snd] in Ms, Mh. subst cm hm.
  destruct (remove_members_loop E gid ids c h) as (m1 & sent & L1 & _).
  destruct (reclaim_orphans_loop E gid ids
              (mkController (recipient_dao c) (group_dao c) m1) (sent ++ h))
    as (r2 & h2 & L2 & _).
  cbn [recipient_dao group_dao membership_dao] in L2.
  assert (Dg : recipient_group_controller.delete_group E gid c h
               = match recipient_group_controller.delete_record E gid
                         (mkController r2 (group_dao c) m1) h2 with
                 | (Ok b', c3, h3) => (Ok b', c3, h3)
                 | (Raise e, c3, h3) => (Raise (EmailServiceError e), c3, h3)
                 end).
  { unfold recipient_group_controller.delete_group, recipient_group_controller.cleanup.
    unfold try_except, bind. rewrite Em, L1, L2. unfold raise.
    now destruct (recipient_group_controller.delete_record E gid
                    (mkController r2 (group_dao c) m1) h2) as [[[b' | e] c3] h3]. }
  rewrite Dg in R |- *.
  pose proof (delete_record_history E gid (mkController r2 (group_dao c) m1) h2) as D.
  cbn [group_dao] in D. fold t in D. unfold result_of, history_of in *.
  destruct (recipient_group_controller.delete_record E gid
              (mkController r2 (group_dao c) m1) h2) as [[[b' | e] c3] h3];
    cbn [fst snd] in *; [| discriminate R].
  apply (D b' eq_refl).
Qed.

Lemma X19_delete_group_ends_with_unfiltered_deletes_witness :
  (exists before,
      history_of (recipient_group_controller.delete_group (Examples.echo []) (VInt 1)
                    Examples.controller [])
      = EDeleteExpr "groups" "group_id" (VInt 1) :: EDelete "groups" None :: before \/
      history_of (recipient_group_controller.delete_group (Examples.echo []) (VInt 1)
                    Examples.controller [])
      = EDelete "groups" None :: before) /\
  forall before,
    history_of (recipient_group_controller.delete_group (Examples.echo []) (VInt 1)
                  Examples.controller [])
    <> EDelete "groups" (Some [("group_id", VInt 1)]) :: before.
Proof.
  apply (X19_delete_group_ends_with_unfiltered_deletes (Examples.echo []) (VInt 1)
           Examples.controller [] true).
  reflexivity.
Defined.

(** ** The membership table *)

(** X20: on a membership table whose rows hold integers, the three readings
    agree: [r] is listed among the members of [g] exactly when [g] is
    listed among the groups of [r], and exactly when the duplicate scan of
    [add_membership] finds the pair; none of the three raises. *)
Theorem X20_the_readings_of_the_membership_table_agree
        (E : Env) (r g : Z) (l : list row) :
  forallb membership_row l = true ->
  exists members groups found,
    RecipientGroupMembershipDao.list_group_members E (VInt g) l = Ok members /\
    RecipientGroupMembershipDao.list_recipient_groups E (VInt r) l = Ok groups /\
    RecipientGroupMembershipDao.has_pair E (VInt r) (VInt g) l = Ok found /\
    (In r members <-> In g groups) /\
    (In r members <-> found = true).
Proof.
  intro W. exists (members_of g l), (groups_of r l), (existsb (pair_is r g) l).
  split; [now apply list_group_members_wf |].
  split; [now apply list_recipient_groups_wf |].
  split; [now apply has_pair_wf |].
  rewrite members_of_In, groups_of_In, existsb_exists. split; reflexivity.
Qed.

Lemma X20_the_readings_of_the_membership_table_agree_witness :
  exists members groups found,
    RecipientGroupMembershipDao.list_group_members (Examples.echo []) (VInt 2)
      Examples.memberships = Ok members /\
    RecipientGroupMembershipDao.list_recipient_groups (Examples.echo []) (VInt 2)
      Examples.memberships = Ok groups /\
    RecipientGroupMembershipDao.has_pair (Examples.echo []) (VInt 2) (VInt 2)
      Examples.memberships = Ok found /\
    (In 2 members <-> In 2 groups) /\
    (In 2 members <-> found = true).
Proof.
  apply (X20_the_readings_of_the_membership_table_agree (Examples.echo []) 2 2
           Examples.memberships).
  reflexivity.
Defined.

Section MembershipOverwrite.
Variable E : Env.

Lemma replace_first_split (pk : string) (item old : row) (before rest : list row) :
  forallb (fun it => negb (value_eqb (get it pk) (get item pk))) before = true ->
  get old pk = get item pk ->
  base_dao.replace_first pk item (before ++ old :: rest) = Some (before ++ item :: rest).
Proof.
  intros B O. induction before as [| it before IH]; cbn [app base_dao.replace_first].
  - now rewrite O, value_eqb_refl.
  - cbn [forallb] in B. apply andb_true_iff in B. destruct B as [B1 B2].
    apply negb_true_iff in B1. rewrite B1. now rewrite (IH B2).
Qed.

(** X21: in a remote membership table, when the backend takes the upsert of
    the new pair and answers with it, [add_membership] of a recipient that
    already has a row replaces the first row of that recipient by the new
    pair and keeps the pair it appended: the earlier membership is lost and
    the new one is held twice. *)
Theorem X21_remote_add_membership_overwrites_an_earlier_one
        (d : BaseDao) (h : history) (r g : Z) (old : row) (before rest : list row) :
  let entry := RecipientGroupMembershipDao.entry (VInt r) (VInt g) in
  faithful_backend E ->
  disk_writable E ->
  _remote d = true ->
  items d = before ++ old :: rest ->
  forallb membership_row (items d) = true ->
  forallb (fun it => negb (value_eqb (get it "recipient_id") (VInt r))) before = true ->
  get old "recipient_id" = VInt r ->
  existsb (pair_is r g) (items d) = false ->
  fails (http E (EPost (_table d) [entry] :: h)) = false ->
  let out := RecipientGroupMembershipDao.add_membership E (VInt r) (VInt g) d h in
  result_of out = Ok true /\
  items (state_of out) = before ++ entry :: rest ++ [entry].
Proof.
  intros entry F Dw R L W B O N A out.
  assert (M : base_dao.merge_row entry (items d ++ [entry])
              = before ++ entry :: rest ++ [entry]).
  { unfold base_dao.merge_row.
    change (base_dao.guess_pk entry) with (Some "recipient_id"). cbv beta iota.
    rewrite L. rewrite <- app_assoc. cbn [app].
    now rewrite (replace_first_split "recipient_id" entry old before (rest ++ [entry]) B O). }
  subst out. unfold RecipientGroupMembershipDao.add_membership. monad_unfold.
  rewrite (has_pair_wf E r g (items d) W), N.
  fold entry. unfold persist_one, base_dao.upsert_one. monad_unfold.
  cbn [_remote _remote_only _table items next_id set_items set_next_id set_data].
  rewrite R. cbn [negb].
  rewrite (upsert_rows_echo E _ h (_table d) [entry] F); [| discriminate | exact A].
  change (items (set_next_id (next_id d + 1) (set_items (items d ++ [entry]) d)))
    with (items d ++ [entry]).
  rewrite M. unfold base_dao.save_local. monad_unfold.
  cbn [_remote _remote_only _table items next_id set_items set_next_id set_data path data_name
       base_dao.recompute_next_id].
  destruct (_remote_only d).
  - unfold result_of, state_of. cbn. split; reflexivity.
  - rewrite Dw. unfold result_of, state_of. cbn. split; reflexivity.
Qed.

End MembershipOverwrite.

Lemma X21_remote_add_membership_overwrites_an_earlier_one_witness :
  let E := Examples.echo [] in
  let d := Examples.remote_dao "recipient_group_membership" false 2
             [RecipientGroupMembershipDao.entry (VInt 1) (VInt 1)] in
  let out := RecipientGroupMembershipDao.add_membership E (VInt 1) (VInt 2) d [] in
  result_of out = Ok true /\
  items (state_of out)
  = [] ++ RecipientGroupMembershipDao.entry (VInt 1) (VInt 2)
       :: [] ++ [RecipientGroupMembershipDao.entry (VInt 1) (VInt 2)].
Proof.
  apply (X21_remote_add_membership_overwrites_an_earlier_one (Examples.echo [])
           (Examples.remote_dao "recipient_group_membership" false 2
              [RecipientGroupMembershipDao.entry (VInt 1) (VInt 1)])
           [] 1 2 (RecipientGroupMembershipDao.entry (VInt 1) (VInt 1)) [] []);
    first [apply echo_faithful | apply echo_disk_writable | reflexivity].
Defined.

(** X22: once the membership table names a member of the group,
    [list_group_recipients] lists recipients named by the table and nobody
    else: each one is a recipient of the repository under the id of a
    membership row, at most one per row, and the legacy group id of the
    recipients is not looked at. *)
Theorem X22_members_named_by_the_table_are_the_ones_listed
        (E : Env) (gid : value) (c : RecipientGroupController)
        (grp : RecipientGroupModel.t) (ids : list Z) (all : list RecipientModel.t)
        (all_recipients : Z -> option RecipientModel.t) :
  RecipientGroupDao.find_by_id gid (items (group_dao c)) = Ok (Some grp) ->
  RecipientGroupMembershipDao.list_group_members E gid (items (membership_dao c)) = Ok ids ->
  ids <> [] ->
  RecipientDao.list_all (items (recipient_dao c)) = Ok all ->
  group_controller.by_recipient_id all = Ok all_recipients ->
  exists members,
    group_controller.list_group_recipients E gid c = Ok members /\
    (forall m, In m members ->
               In m all /\ exists z, In z ids /\ RecipientModel.recipient_id m = VInt z) /\
    (List.length members <= List.length ids)%nat.
Proof.
  intros G M N A B.
  exists (flat_map (fun rid => match all_recipients rid with
                               | Some r => [r]
                               | None => []
                               end) ids).
  split; [| split].
  - unfold group_controller.list_group_recipients, group_controller.members_by_table.
    rewrite G, M. cbn [rbind]. destruct ids as [| z ids]; [contradiction |].
    rewrite A. cbn [rbind]. rewrite B. reflexivity.
  - intros m I. apply in_flat_map in I. destruct I as (z & Iz & Im).
    unfold group_controller.by_recipient_id in B.
    destruct (existsb _ all); [discriminate B |]. inversion B; subst all_recipients.
    destruct (find (fun r => value_eqb (RecipientModel.recipient_id r) (VInt z)) (rev all))
      as [r |] eqn:Fd; [| destruct Im].
    destruct Im as [<- | []]. apply find_some in Fd. destruct Fd as [Ir V].
    split; [now apply in_rev |]. exists z. split; [exact Iz | now apply value_eqb_eq].
  - clear. induction ids as [| z ids IH]; cbn; [lia |].
    rewrite length_app. destruct (all_recipients z); cbn; lia.
Qed.

Lemma X22_members_named_by_the_table_are_the_ones_listed_witness :
  exists members,
    group_controller.list_group_recipients (Examples.echo []) (VInt 2) Examples.controller
    = Ok members /\
    (forall m, In m members ->
               In m [RecipientModel.mk (VInt 1) (VStr "x@example.com") (VInt 1);
                     RecipientModel.mk (VInt 2) (VStr "y@example.com") (VInt 1);
                     RecipientModel.mk (VInt 3) (VStr "z@example.com") (VInt 2)] /\
               exists z, In z [2] /\ RecipientModel.recipient_id m = VInt z) /\
    (List.length members <= List.length [2])%nat.
Proof.
  apply (X22_members_named_by_the_table_are_the_ones_listed (Examples.echo []) (VInt 2)
           Examples.controller (RecipientGroupModel.mk (VInt 2) (VStr "B") (VList [2]))
           [2] _
           (fun rid => find (fun r => value_eqb (RecipientModel.recipient_id r) (VInt rid))
                            (rev [RecipientModel.mk (VInt 1) (VStr "x@example.com") (VInt 1);
                                  RecipientModel.mk (VInt 2) (VStr "y@example.com") (VInt 1);
                                  RecipientModel.mk (VInt 3) (VStr "z@example.com") (VInt 2)])));
    first [reflexivity | discriminate].
Defined.

(** ** A conflict that the reload does not explain *)

Section UnexplainedConflict.
Variable E : Env.

(** X23: when the upsert of a new recipient is answered 409 and the table
    fetched again does not hold the address, [add] saves the fetched table
    and, when that save returns, returns the record it built before the
    reload: the cache, replaced by the reload, does not hold that record,
    and a lookup of its address finds nothing. *)
Theorem X23_after_an_unexplained_conflict_the_record_is_not_held
        (d : BaseDao) (h : history) (recipient : RecipientModel.t)
        (json : option (list row)) (status_code : Z) (rows : list row) :
  faithful_backend E ->
  _remote d = true ->
  _remote_only d = true ->
  RecipientDao.find_by_address E (RecipientModel.address recipient) (items d) = Ok None ->
  let local := RecipientModel.mk (VInt (next_id d)) (RecipientModel.address recipient)
                                 (RecipientModel.group_id recipient) in
  let posted := EPost (_table d) [RecipientModel.__dict__ local] :: h in
  let fetched := EGet (_table d) :: posted in
  http E posted = Response 409 json ->
  http E fetched = Response status_code (Some rows) ->
  (400 <=? status_code) && (status_code <? 600) = false ->
  RecipientDao.find_by_address E (RecipientModel.address recipient) rows = Ok None ->
  let out := RecipientDao.add E recipient d h in
  items (state_of out) = rows /\
  RecipientDao.find_by_address E (RecipientModel.address recipient) (items (state_of out))
  = Ok None /\
  (forall m, result_of out = Ok m -> m = local) /\
  (rows = [] -> result_of out = Ok local).
Proof.
  intros F Hr Ho Hn local posted fetched Hp Hg Hs Hf out.
  set (d1 := set_data (base_dao.loaded_next_id E rows) rows d).
  assert (Q : out = match base_dao._save E d1 fetched with
                    | (Ok _, d2, h2) => (Ok local, d2, h2)
                    | (Raise e, d2, h2) => (Raise e, d2, h2)
                    end).
  { subst out. unfold RecipientDao.add.
    unfold bind at 1, gets at 1. unfold bind at 1, lift at 1. rewrite Hn.
    unfold bind at 1, gets at 1. unfold bind at 1, modify at 1. unfold bind at 1, modify at 1.
    unfold bind at 1. unfold try_except at 1. unfold bind at 1.
    rewrite (upsert_one_conflict E _ h _ json); [| exact Hr | exact Ho | exact Hp].
    unfold RecipientDao.on_upsert_error. cbn [is_conflict Z.eqb Pos.eqb].
    unfold bind at 1. unfold try_except at 1. unfold bind at 1.
    rewrite (load_ok E _ _ status_code rows); [| exact Hr | exact Hg | exact Hs].
    unfold bind at 1, gets at 1, lift at 1.
    cbn [items set_data set_items set_next_id RecipientModel.address path data_name
         _remote _remote_only _table next_id].
    rewrite Hf. fold local. fold posted. fold fetched. fold d1.
    unfold bind, ret.
    change (base_dao._save E
              (set_data (base_dao.loaded_next_id E rows) rows
                 (set_next_id (next_id d + 1)
                    (set_items (items d ++ [RecipientModel.__dict__ local]) d))) fetched)
      with (base_dao._save E d1 fetched).
    now destruct (base_dao._save E d1 fetched) as [[[u | e] d2] h2]. }
  pose proof (save_persisted E d1 fetched) as (_ & _ & A & _).
  specialize (A F). change (items d1) with rows in A.
  assert (I : items (state_of out) = rows).
  { rewrite Q. unfold state_of in *.
    destruct (base_dao._save E d1 fetched) as [[[u | e] d2] h2]; cbn [fst snd] in *; exact A. }
  split; [exact I | split; [now rewrite I | split]].
  - intros m. rewrite Q. unfold result_of.
    destruct (base_dao._save E d1 fetched) as [[[u | e] d2] h2]; cbn [fst];
      intro H; now inversion H.
  - intros ->. rewrite Q. rewrite save_nothing; [reflexivity | exact Hr | exact Ho | reflexivity].
Qed.

End UnexplainedConflict.

Lemma X23_after_an_unexplained_conflict_the_record_is_not_held_witness :
  let E := Examples.conflict [] in
  let d := Examples.remote_dao "recipients" true 1 [] in
  let out := RecipientDao.add E (RecipientModel.mk VNone (VStr "x@example.com") VNone) d [] in
  items (state_of out) = [] /\
  RecipientDao.find_by_address E (VStr "x@example.com") (items (state_of out)) = Ok None /\
  (forall m, result_of out = Ok m ->
             m = RecipientModel.mk (VInt 1) (VStr "x@example.com") VNone) /\
  ([] = @nil row ->
   result_of out = Ok (RecipientModel.mk (VInt 1) (VStr "x@example.com") VNone)).
Proof.
  assert (F : faithful_backend (Examples.conflict [])).
  { intros h table rows. unfold Examples.conflict, Examples.conflict_http. cbn [http].
    destruct h as [| ev h]; [left; reflexivity | right; exists 201; reflexivity]. }
  apply (X23_after_an_unexplained_conflict_the_record_is_not_held (Examples.conflict [])
           (Examples.remote_dao "recipients" true 1 []) []
           (RecipientModel.mk VNone (VStr "x@example.com") VNone) None 200 [] F);
    reflexivity.
Defined.

(** ** Updating a recipient *)

Lemma guess_pk_setitem (k pk : string) (v : value) (r : row) :
  base_dao.guess_pk r = Some pk -> base_dao.guess_pk (setitem k v r) = Some pk.
Proof.
  unfold base_dao.guess_pk. induction r as [| [k' v'] r IH]; [discriminate |].
  cbn [setitem]. destruct (String.eqb k' k); cbn [map fst find];
    destruct (endswith k' "_id"); auto.
Qed.

Lemma guess_pk_set_unless_none (k pk : string) (v : value) (r : row) :
  base_dao.guess_pk r = Some pk ->
  base_dao.guess_pk (RecipientDao.set_unless_none k v r) = Some pk.
Proof.
  intro G. destruct v; cbn [RecipientDao.set_unless_none]; try exact G;
    now apply guess_pk_setitem.
Qed.

Section RecipientUpdate.
Variable E : Env.

Lemma update_by_id_split (recipient : RecipientModel.t) (r : row) (before rest : list row) :
  id_absent "recipient_id" (RecipientModel.recipient_id recipient) before = true ->
  lookup "recipient_id" r = Some (RecipientModel.recipient_id recipient) ->
  let r' := RecipientDao.set_unless_none "group_id" (RecipientModel.group_id recipient)
              (RecipientDao.set_unless_none "address" (RecipientModel.address recipient) r) in
  RecipientDao.update_by_id recipient (before ++ r :: rest)
  = Ok (Some (r', before ++ r' :: rest)).
Proof.
  intros A L r'. induction before as [| it before IH]; cbn [app RecipientDao.update_by_id].
  - unfold getitem. rewrite L. cbn [rbind]. now rewrite value_eqb_refl.
  - unfold id_absent in A. cbn [forallb] in A. apply andb_true_iff in A.
    destruct A as [A1 A2]. unfold getitem.
    destruct (lookup "recipient_id" it) as [v |]; [| discriminate A1].
    cbn [rbind]. apply negb_true_iff in A1. rewrite A1.
    rewrite (IH A2). reflexivity.
Qed.

(** X24: when the backend stores what it is sent, [update] of a recipient
    rewrites the first row that carries the id and no other row; in that
    row it sets the address and the group id that are not [None] and leaves
    every other column, and a field given as [None], as it was. *)
Theorem X24_update_rewrites_the_fields_given
        (d : BaseDao) (h : history) (recipient : RecipientModel.t)
        (r : row) (before rest : list row) :
  let r' := RecipientDao.set_unless_none "group_id" (RecipientModel.group_id recipient)
              (RecipientDao.set_unless_none "address" (RecipientModel.address recipient) r) in
  faithful_backend E ->
  items d = before ++ r :: rest ->
  id_absent "recipient_id" (RecipientModel.recipient_id recipient) before = true ->
  lookup "recipient_id" r = Some (RecipientModel.recipient_id recipient) ->
  base_dao.guess_pk r = Some "recipient_id" ->
  items (state_of (RecipientDao.update E recipient d h)) = before ++ r' :: rest /\
  (forall k, k <> "address" -> k <> "group_id" -> get r' k = get r k) /\
  (RecipientModel.address recipient = VNone -> get r' "address" = get r "address") /\
  (RecipientModel.group_id recipient = VNone -> get r' "group_id" = get r "group_id").
Proof.
  intros r' F L A K G.
  assert (Gr : get r "recipient_id" = RecipientModel.recipient_id recipient)
    by (unfold get; now rewrite K).
  assert (Gr' : get r' "recipient_id" = RecipientModel.recipient_id recipient).
  { unfold r'. rewrite !get_set_unless_none_other by discriminate. exact Gr. }
  split; [| split; [| split]].
  - apply (state_of_case (fun s => items s = before ++ r' :: rest)).
    intros res s h0. unfold RecipientDao.update. monad_unfold.
    rewrite L, (update_by_id_split recipient r before rest A K). fold r'.
    pose proof (persist_one_persisted E r' (set_items (before ++ r' :: rest) d) h)
      as (_ & _ & P & _).
    specialize (P F). cbn [items set_items set_data] in P.
    assert (M : base_dao.merge_row r' (before ++ r' :: rest) = before ++ r' :: rest).
    { unfold base_dao.merge_row.
      assert (Gp : base_dao.guess_pk r' = Some "recipient_id")
        by (unfold r'; now apply guess_pk_set_unless_none, guess_pk_set_unless_none).
      rewrite Gp. rewrite (replace_first_split "recipient_id" r' r' before rest);
        [reflexivity | | reflexivity].
      rewrite Gr'. unfold id_absent in A. rewrite forallb_forall in A |- *.
      intros it I. specialize (A it I). unfold get.
      destruct (lookup "recipient_id" it); [exact A | discriminate A]. }
    rewrite M in P. unfold state_of in P.
    destruct (persist_one E r' (set_items (before ++ r' :: rest) d) h)
      as [[[u | e] d1] h1]; cbn [fst snd] in P; intro Q; inversion Q; subst;
      destruct P as [P | P]; exact P.
  - intros k Na Ng. unfold r'. rewrite !get_set_unless_none_other by congruence.
    reflexivity.
  - intro N. unfold r'. rewrite get_set_unless_none_other by discriminate.
    now rewrite N.
  - intro N. unfold r'. rewrite N. cbn [RecipientDao.set_unless_none].
    now rewrite get_set_unless_none_other by discriminate.
Qed.

End RecipientUpdate.

Lemma X24_update_rewrites_the_fields_given_witness :
  let E := Examples.echo [] in
  let d := Examples.remote_dao "recipients" true 4 Examples.three_recipients in
  let r := [("recipient_id", VInt 2); ("address", VStr "y@example.com"); ("group_id", VInt 1)] in
  let r' := RecipientDao.set_unless_none "group_id" (VInt 2)
              (RecipientDao.set_unless_none "address" VNone r) in
  items (state_of (RecipientDao.update E (RecipientModel.mk (VInt 2) VNone (VInt 2)) d []))
  = [[("recipient_id", VInt 1); ("address", VStr "x@example.com"); ("group_id", VInt 1)]]
    ++ r' :: [[("recipient_id", VInt 3); ("address", VStr "z@example.com"); ("group_id", VInt 2)]] /\
  (forall k, k <> "address" -> k <> "group_id" -> get r' k = get r k) /\
  (VNone = VNone -> get r' "address" = get r "address") /\
  (VInt 2 = VNone -> get r' "group_id" = get r "group_id").
Proof.
  apply (X24_update_rewrites_the_fields_given (Examples.echo [])
           (Examples.remote_dao "recipients" true 4 Examples.three_recipients) []
           (RecipientModel.mk (VInt 2) VNone (VInt 2))
           [("recipient_id", VInt 2); ("address", VStr "y@example.com"); ("group_id", VInt 1)]
           [[("recipient_id", VInt 1); ("address", VStr "x@example.com"); ("group_id", VInt 1)]]
           [[("recipient_id", VInt 3); ("address", VStr "z@example.com"); ("group_id", VInt 2)]]);
    first [apply echo_faithful | reflexivity].
Defined.

(** ** The membership table kept locally *)

(** X25: in a local membership table whose rows hold integers, with a disk
    that can be written, the first [add_membership] of a pair that is not
    there appends one row and returns [True]; the second returns [False]
    and changes nothing, and exactly one row holds the pair. *)
Theorem X25_local_add_membership_twice_leaves_one_row
        (E : Env) (d : BaseDao) (h : history) (r g : Z) :
  disk_writable E ->
  _remote d = false ->
  forallb membership_row (items d) = true ->
  existsb (pair_is r g) (items d) = false ->
  let first := RecipientGroupMembershipDao.add_membership E (VInt r) (VInt g) d h in
  let second := RecipientGroupMembershipDao.add_membership E (VInt r) (VInt g)
                  (state_of first) (history_of first) in
  result_of first = Ok true /\
  items (state_of first) = items d ++ [RecipientGroupMembershipDao.entry (VInt r) (VInt g)] /\
  second = (Ok false, state_of first, history_of first) /\
  List.length (filter (pair_is r g) (items (state_of second))) = 1%nat.
Proof.
  intros Dw R W N first second.
  destruct (add_membership_twice_local E d h r g Dw R W N) as (A & B & C & D).
  fold first in A, B, C, D. fold second in C.
  repeat split; try assumption. rewrite C. exact D.
Qed.

Lemma X25_local_add_membership_twice_leaves_one_row_witness :
  let E := Examples.offline None in
  let d := Examples.local_dao "recipient_group_membership" 2
             [RecipientGroupMembershipDao.entry (VInt 1) (VInt 1)] in
  let first := RecipientGroupMembershipDao.add_membership E (VInt 1) (VInt 2) d [] in
  let second := RecipientGroupMembershipDao.add_membership E (VInt 1) (VInt 2)
                  (state_of first) (history_of first) in
  result_of first = Ok true /\
  items (state_of first)
  = [RecipientGroupMembershipDao.entry (VInt 1) (VInt 1)]
    ++ [RecipientGroupMembershipDao.entry (VInt 1) (VInt 2)] /\
  second = (Ok false, state_of first, history_of first) /\
  List.length (filter (pair_is 1 2) (items (state_of second))) = 1%nat.
Proof.
  apply (X25_local_add_membership_twice_leaves_one_row (Examples.offline None)
           (Examples.local_dao "recipient_group_membership" 2
              [RecipientGroupMembershipDao.entry (VInt 1) (VInt 1)]) [] 1 2);
    first [reflexivity | intro; reflexivity].
Defined.

(** ** Sending to a list *)

Section SendingCounts.
Import EmailController.
Variable smtp : list mail_event -> option sending.
Variable progress : bool.
Variable cancel_check : option (list mail_event -> bool).

Lemma attempts_counts (left_over : nat) (i : Z) (recipient : string) (c c1 : counters) :
  attempts smtp progress left_over i recipient c = inl c1 ->
  failed_count c1 = failed_count c /\
  success_count c <= success_count c1 <= success_count c + 1.
Proof.
  revert c. induction left_over as [| n IH]; intros c; cbn [attempts].
  - intro H. inversion H. lia.
  - destruct (build_and_send smtp (Attempt recipient :: log c)) as [b | e].
    + destruct progress; intro H; inversion H. cbn. lia.
    + destruct e; try (intro H; discriminate H).
      intro H. apply IH in H. cbn in H. exact H.
Qed.

Lemma each_recipient_counts (n i : Z) (l : list string) (c : counters) :
  match each_recipient smtp progress cancel_check n i l c with
  | inl (inl (r, _)) =>
      total r = n /\ failed r = failed_count c /\
      success_count c <= success r <= success_count c + Z.of_nat (List.length l)
  | inl (inr c1) =>
      failed_count c1 = failed_count c /\
      success_count c <= success_count c1 <= success_count c + Z.of_nat (List.length l)
  | inr _ => True
  end.
Proof.
  revert i c. induction l as [| recipient l IH]; intros i c; cbn [each_recipient].
  - cbn. lia.
  - destruct (match cancel_check with Some flag => flag (log c) | None => false end).
    + cbn [total failed success List.length]. lia.
    + destruct (attempts smtp progress 5 i recipient c) as [c1 | e] eqn:A; [| exact I].
      apply attempts_counts in A. specialize (IH (i + 1) c1).
      destruct (each_recipient smtp progress cancel_check n (i + 1) l c1)
        as [[[r c2] | c2] | e]; [| | exact I]; cbn [List.length]; lia.
Qed.

End SendingCounts.

(** X26: whatever the server answers, a report that [send_mass_emails]
    returns counts no failure: [failed] is 0 (the counter is only raised on
    the way to an exception), [total] is the length of the list and
    [success] lies between 0 and [total]; and whatever it raises is a plain
    [Exception], a daily limit included.  So [run] of the worker never
    announces failures by their number, nor a service error. *)
Theorem X26_a_returned_report_counts_no_failure
        (smtp : list EmailController.mail_event -> option EmailController.sending)
        (progress : bool)
        (cancel_check : option (list EmailController.mail_event -> bool))
        (cancel_requested : list EmailController.mail_event -> bool)
        (recipients : list string) :
  (forall r done,
      EmailController.send_mass_emails smtp progress cancel_check recipients = (inl r, done) ->
      EmailController.failed r = 0 /\
      EmailController.total r = Z.of_nat (List.length recipients) /\
      0 <= EmailController.success r <= EmailController.total r) /\
  (forall e done,
      EmailController.send_mass_emails smtp progress cancel_check recipients = (inr e, done) ->
      e = EmailController.Exception) /\
  (forall sent failed,
      snd (EmailWorker.run smtp cancel_requested recipients)
      <> EmailWorker.enviados_falharam sent failed) /\
  snd (EmailWorker.run smtp cancel_requested recipients) <> EmailWorker.service_error.
Proof.
  assert (R : forall p c r done,
             EmailController.send_mass_emails smtp p c recipients = (inl r, done) ->
             EmailController.failed r = 0 /\
             EmailController.total r = Z.of_nat (List.length recipients) /\
             0 <= EmailController.success r <= EmailController.total r).
  { intros p c r done. unfold EmailController.send_mass_emails.
    pose proof (each_recipient_counts smtp p c (Z.of_nat (List.length recipients)) 1
                  recipients (EmailController.mkCounters 0 0 [])) as C.
    destruct (EmailController.each_recipient smtp p c (Z.of_nat (List.length recipients)) 1
                recipients (EmailController.mkCounters 0 0 [])) as [[[r0 c0] | c0] | [e c0]];
      intro H; inversion H; subst; cbn in *; lia. }
  assert (X : forall p c e done,
             EmailController.send_mass_emails smtp p c recipients = (inr e, done) ->
             e = EmailController.Exception).
  { intros p c e done. unfold EmailController.send_mass_emails.
    destruct (EmailController.each_recipient smtp p c (Z.of_nat (List.length recipients)) 1
                recipients (EmailController.mkCounters 0 0 [])) as [[[r0 c0] | c0] | [e0 c0]];
      intro H; inversion H; reflexivity. }
  split; [apply R | split; [apply X |]].
  unfold EmailWorker.run.
  destruct (EmailController.send_mass_emails smtp true (Some cancel_requested) recipients)
    as [[r | e] done] eqn:S.
  - destruct (R _ _ _ _ S) as (F & _). rewrite F. cbn [Z.eqb].
    split; [intros sent failed |];
      destruct (cancel_requested done); try discriminate;
      destruct (EmailController.canceled r); discriminate.
  - rewrite (X _ _ _ _ S). split; [intros sent failed |]; discriminate.
Qed.

(** X27: when the server answers every attempt with an error whose text
    holds [4.2.1] and nobody cancels, every recipient is tried five times,
    with a sleep of 100 seconds after each try, and passed over without
    being counted: [send_mass_emails] returns a report of no success and no
    failure, and the worker announces that the mails were sent. *)
Theorem X27_rate_limited_recipients_are_passed_over
        (smtp : list EmailController.mail_event -> option EmailController.sending)
        (text : string) (recipients : list string) :
  (forall done, smtp done = Some (EmailController.Failed text)) ->
  EmailController.contains "4.2.1" text = true ->
  let n := Z.of_nat (List.length recipients) in
  (exists done,
      EmailController.send_mass_emails smtp true (Some (fun _ => false)) recipients
      = (inl (EmailController.mkReport n 0 0 false), done) /\
      List.length done = (10 * List.length recipients)%nat) /\
  EmailWorker.run smtp (fun _ => false) recipients
  = (true, EmailWorker.Emails_enviados_com_sucesso).
Proof.
  intros A C n.
  assert (T : forall m i recipient c,
             exists done,
               EmailController.attempts smtp true m i recipient c
               = inl (EmailController.mkCounters (EmailController.success_count c)
                        (EmailController.failed_count c) done) /\
               List.length done = (2 * m + List.length (EmailController.log c))%nat).
  { induction m as [| m IH]; intros i recipient c.
    - exists (EmailController.log c). cbn. split; [now destruct c | lia].
    - cbn [EmailController.attempts]. unfold EmailController.build_and_send.
      rewrite A. cbn [EmailController.send_email]. rewrite C.
      destruct (IH i recipient
                  (EmailController.mkCounters (EmailController.success_count c)
                     (EmailController.failed_count c)
                     (EmailController.Sleep 100
                        :: EmailController.Attempt recipient :: EmailController.log c)))
        as (done & I1 & I2).
      exists done. split; [exact I1 |].
      rewrite I2. cbn [EmailController.log List.length]. lia. }
  assert (L : forall l i c,
             exists done,
               EmailController.each_recipient smtp true (Some (fun _ => false)) n i l c
               = inl (inr (EmailController.mkCounters (EmailController.success_count c)
                             (EmailController.failed_count c) done)) /\
               List.length done
               = (10 * List.length l + List.length (EmailController.log c))%nat).
  { induction l as [| recipient l IH]; intros i c.
    - exists (EmailController.log c). cbn. split; [now destruct c | lia].
    - cbn [EmailController.each_recipient].
      destruct (T 5%nat i recipient c) as (tried & T1 & T2). rewrite T1.
      destruct (IH (i + 1)
                  (EmailController.mkCounters (EmailController.success_count c)
                     (EmailController.failed_count c) tried)) as (done & I1 & I2).
      exists done. split; [exact I1 |].
      rewrite I2. cbn [EmailController.log List.length]. rewrite T2. lia. }
  destruct (L recipients 1 (EmailController.mkCounters 0 0 [])) as (done & L1 & L2).
  assert (S : EmailController.send_mass_emails smtp true (Some (fun _ => false)) recipients
              = (inl (EmailController.mkReport n 0 0 false), done)).
  { unfold EmailController.send_mass_emails. fold n. rewrite L1. reflexivity. }
  split.
  - exists done. split; [exact S |]. rewrite L2. cbn. lia.
  - unfold EmailWorker.run. rewrite S. reflexivity.
Qed.

Lemma X26_a_returned_report_counts_no_failure_witness :
  EmailController.failed
    (EmailController.mkReport 2 1 0 false) = 0 /\
  EmailController.total (EmailController.mkReport 2 1 0 false)
  = Z.of_nat (List.length ["a@example.com"; "b@example.com"]) /\
  0 <= EmailController.success (EmailController.mkReport 2 1 0 false)
    <= EmailController.total (EmailController.mkReport 2 1 0 false).
Proof.
  apply (proj1 (X26_a_returned_report_counts_no_failure
                  (fun done => match done with
                               | [EmailController.Attempt _] => Some EmailController.Sent
                               | _ => Some (EmailController.Failed "421 4.2.1 try later")
                               end)
                  true None (fun _ => false) ["a@example.com"; "b@example.com"])
               (EmailController.mkReport 2 1 0 false)
               (EmailController.log
                  (match EmailController.each_recipient
                           (fun done => match done with
                                        | [EmailController.Attempt _] => Some EmailController.Sent
                                        | _ => Some (EmailController.Failed "421 4.2.1 try later")
                                        end)
                           true None 2 1 ["a@example.com"; "b@example.com"]
                           (EmailController.mkCounters 0 0 []) with
                   | inl (inr c) => c
                   | _ => EmailController.mkCounters 0 0 []
                   end))).
  vm_compute. reflexivity.
Defined.

Lemma X27_rate_limited_recipients_are_passed_over_witness :
  (exists done,
      EmailController.send_mass_emails
        (fun _ => Some (EmailController.Failed "421 4.2.1 try later")) true
        (Some (fun _ => false)) ["a@example.com"; "b@example.com"]
      = (inl (EmailController.mkReport 2 0 0 false), done) /\
      List.length done = 20%nat) /\
  EmailWorker.run (fun _ => Some (EmailController.Failed "421 4.2.1 try later"))
    (fun _ => false) ["a@example.com"; "b@example.com"]
  = (true, EmailWorker.Emails_enviados_com_sucesso).
Proof.
  apply (X27_rate_limited_recipients_are_passed_over
           (fun _ => Some (EmailController.Failed "421 4.2.1 try later"))
           "421 4.2.1 try later" ["a@example.com"; "b@example.com"]);
    [intro; reflexivity | reflexivity].
Defined.

(** ** Deleting a recipient *)

Lemma rfilter_In {A : Type} (p : A -> result bool) (l l' : list A) (x : A) :
  rfilter p l = Ok l' -> In x l' -> p x = Ok true.
Proof.
  revert l'. induction l as [| y l IH]; intros l' R I; cbn [rfilter] in R.
  - inversion R; subst. destruct I.
  - destruct (p y) as [b | e] eqn:P; cbn [rbind] in R; [| discriminate R].
    destruct (rfilter p l) as [ys | e]; cbn [rbind] in R; [| discriminate R].
    inversion R; subst. destruct b.
    + destruct I as [I | I]; [now subst | now apply (IH ys)].
    + now apply (IH ys).
Qed.

Lemma rmap_In {A B : Type} (f : A -> result B) (l : list A) (ys : list B) (y : B) :
  rmap f l = Ok ys -> In y ys -> exists x, In x l /\ f x = Ok y.
Proof.
  revert ys. induction l as [| x l IH]; intros ys R I; cbn [rmap] in R.
  - inversion R; subst. destruct I.
  - destruct (f x) as [z | e] eqn:F; cbn [rbind] in R; [| discriminate R].
    destruct (rmap f l) as [zs | e]; cbn [rbind] in R; [| discriminate R].
    inversion R; subst. destruct I as [I | I].
    + subst. exists x. split; [now left | exact F].
    + destruct (IH zs eq_refl I) as (x0 & I0 & F0). exists x0. split; [now right | exact F0].
Qed.

Lemma list_group_recipients_listed (E : Env) (gid : value) (c : RecipientGroupController)
      (members : list RecipientModel.t) :
  group_controller.list_group_recipients E gid c = Ok members ->
  exists all, RecipientDao.list_all (items (recipient_dao c)) = Ok all /\
              forall m, In m members -> In m all.
Proof.
  unfold group_controller.list_group_recipients.
  destruct (RecipientGroupDao.find_by_id gid (items (group_dao c))) as [[grp |] | e];
    cbn [rbind]; try discriminate.
  assert (F : group_controller.members_by_field gid c = Ok members ->
              exists all, RecipientDao.list_all (items (recipient_dao c)) = Ok all /\
                          forall m, In m members -> In m all).
  { unfold group_controller.members_by_field.
    destruct (RecipientDao.list_all (items (recipient_dao c))) as [all | e];
      cbn [rbind]; [| discriminate].
    intro H. inversion H; subst. exists all. split; [reflexivity |].
    intros m I. apply filter_In in I. apply I. }
  destruct (group_controller.members_by_table E gid c) as [[ms |] | e] eqn:T; try exact F.
  intro H. inversion H; subst. clear F H.
  unfold group_controller.members_by_table in T.
  destruct (RecipientGroupMembershipDao.list_group_members E gid (items (membership_dao c)))
    as [ids | e]; cbn [rbind] in T; [| discriminate T].
  destruct ids as [| z ids]; [discriminate T |].
  destruct (RecipientDao.list_all (items (recipient_dao c))) as [all | e];
    cbn [rbind] in T; [| discriminate T].
  exists all. split; [reflexivity |].
  unfold group_controller.by_recipient_id in T.
  destruct (existsb _ all); cbn [rbind] in T; [discriminate T |].
  assert (G : forall m z0,
             In m (match find (fun r => value_eqb (RecipientModel.recipient_id r) (VInt z0))
                              (rev all) with
                   | Some r => [r]
                   | None => []
                   end) -> In m all).
  { intros m z0 I.
    destruct (find (fun r => value_eqb (RecipientModel.recipient_id r) (VInt z0)) (rev all))
      as [r |] eqn:Fd; [| destruct I].
    destruct I as [I | []]. subst. apply find_some in Fd. apply in_rev. apply Fd. }
  inversion T; subst. intros m I. apply in_app_or in I. destruct I as [I | I].
  - exact (G m z I).
  - apply in_flat_map in I. destruct I as (z0 & _ & I). exact (G m z0 I).
Qed.

(** X28: when the backend stores what it is sent and [delete_recipient]
    returns, the group controller lists the deleted id in no group,
    whichever way it finds the members, although the call touched neither
    the membership repositories nor the groups: the rows that name the
    deleted recipient stay. *)
Theorem X28_a_deleted_recipient_is_listed_in_no_group
        (E : Env) (rid gid : value) (s : email_service.EmailService) (h : history) (b : bool) :
  faithful_backend E ->
  let out := email_service.delete_recipient E rid s h in
  result_of out = Ok b ->
  email_service.group_controller_membership_dao (state_of out)
  = email_service.group_controller_membership_dao s /\
  email_service.recipient_controller_membership_dao (state_of out)
  = email_service.recipient_controller_membership_dao s /\
  email_service.group_dao (state_of out) = email_service.group_dao s /\
  forall members,
    email_service.list_group_recipients E gid (state_of out) = Ok members ->
    forall m, In m members -> value_eqb (RecipientModel.recipient_id m) rid = false.
Proof.
  intros F out R.
  set (d := email_service.recipient_dao s).
  pose proof (delete_where_touched E (keep_other_recipients rid) d h) as (_ & _ & T).
  specialize (T F). cbn beta in T.
  assert (Q : state_of out
              = email_service.mk (state_of (RecipientDao.delete E rid d h))
                  (email_service.sender_dao s) (email_service.group_dao s)
                  (email_service.app_password_dao s)
                  (email_service.recipient_controller_membership_dao s)
                  (email_service.group_controller_membership_dao s) /\
              result_of (RecipientDao.delete E rid d h) = Ok b).
  { subst out. revert R.
    unfold email_service.delete_recipient, recipient_controller.delete_recipient,
      recipient_controller.on_recipient_dao, zoom, try_except, raise, state_of, result_of.
    cbn [email_service.as_recipient_controller recipient_controller.recipient_dao].
    fold d.
    destruct (RecipientDao.delete E rid d h) as [[[b' | e] d1] h1]; cbn; intro R;
      [| discriminate R].
    split; [reflexivity | exact R]. }
  destruct Q as [Q Rd]. rewrite Q. cbn [email_service.group_controller_membership_dao
    email_service.recipient_controller_membership_dao email_service.group_dao].
  repeat split.
  intros members L m I.
  apply list_group_recipients_listed in L. destruct L as (all & A & Sub).
  cbn [email_service.as_group_controller recipient_dao email_service.recipient_dao] in A.
  change (RecipientDao.delete E rid d h)
    with (delete_where E (keep_other_recipients rid) d h) in A, Rd.
  rewrite T in A.
  assert (K : exists l', rfilter (keep_other_recipients rid) (items d) = Ok l').
  { revert Rd. unfold delete_where. monad_unfold. unfold result_of.
    destruct (rfilter (keep_other_recipients rid) (items d)) as [l' | e];
      [intros _; now exists l' | cbn; discriminate]. }
  destruct K as (l' & K). unfold kept in A. rewrite K in A.
  destruct (rmap_In _ _ _ m A (Sub m I)) as (x & Ix & Ox).
  pose proof (rfilter_In _ _ _ x K Ix) as P.
  unfold keep_other_recipients, getitem in P.
  unfold RecipientModel.of_row in Ox.
  destruct (accepts RecipientModel.fields x); [| discriminate Ox].
  inversion Ox; subst. cbn [RecipientModel.recipient_id]. unfold get.
  destruct (lookup "recipient_id" x) as [i |]; cbn [rbind] in P; [| discriminate P].
  inversion P as [N]. now destruct (value_eqb i rid).
Qed.

Lemma X28_a_deleted_recipient_is_listed_in_no_group_witness :
  let E := Examples.echo [] in
  let s := Examples2.stocked_service in
  let out := email_service.delete_recipient E (VInt 1) s [] in
  (email_service.list_group_recipients E (VInt 1) s
   = Ok [RecipientModel.mk (VInt 1) (VStr "x@example.com") (VInt 1);
         RecipientModel.mk (VInt 2) (VStr "y@example.com") (VInt 1)] /\
   result_of out = Ok true /\
   email_service.list_group_recipients E (VInt 1) (state_of out)
   = Ok [RecipientModel.mk (VInt 2) (VStr "y@example.com") (VInt 1)]) /\
  email_service.group_controller_membership_dao (state_of out)
  = email_service.group_controller_membership_dao s /\
  email_service.recipient_controller_membership_dao (state_of out)
  = email_service.recipient_controller_membership_dao s /\
  email_service.group_dao (state_of out) = email_service.group_dao s /\
  forall members,
    email_service.list_group_recipients E (VInt 1) (state_of out) = Ok members ->
    forall m, In m members -> value_eqb (RecipientModel.recipient_id m) (VInt 1) = false.
Proof.
  split; [vm_compute; repeat split |].
  apply (X28_a_deleted_recipient_is_listed_in_no_group (Examples.echo []) (VInt 1) (VInt 1)
           Examples2.stocked_service [] true);
    [apply echo_faithful | vm_compute; reflexivity].
Defined.
